(** * aquaview-ocean-explorer: the feed parsers, the station merge and the
      per-category extractors of [scripts/update_data.py] and
      [scripts/update_stations.py], embedded in Rocq.

    Python values are modelled as follows.
    - [str] is [string]; one [ascii] is one character, so the texts
      considered are those whose characters have a code below 256.
    - [float] is IEEE 754 binary64, as the [spec_float] of the Standard
      Library with [prec = 53] and [emax = 1024]; [float(s)] and
      [round(x, n)] are the correctly rounded conversions CPython performs.
    - [dict] is an association list in insertion order with unique keys.
    - an exception is a value [Raise e] of the type [result]. *)

From Stdlib Require Import ZArith List String Ascii Bool Lia Sorted Permutation DecimalString.
From Stdlib Require Import SpecFloat.
Import ListNotations.

Set Warnings "-register-all".

Local Open Scope string_scope.
Local Open Scope list_scope.
Local Open Scope nat_scope.

(* ================================================================== *)
(** ** Python strings *)

Module PyStr.

(** [str.isspace] on one character, for the characters below 256 that
    [str.split()] and [str.strip()] treat as white space. *)
Definition is_space (c : ascii) : bool :=
  let n := nat_of_ascii c in
  ((9 <=? n) && (n <=? 13)) || ((28 <=? n) && (n <=? 32)) || (n =? 133) || (n =? 160).

Definition is_digit (c : ascii) : bool :=
  let n := nat_of_ascii c in (48 <=? n) && (n <=? 57).

Definition digit_val (c : ascii) : Z := Z.of_nat (nat_of_ascii c) - 48.

Definition of_rev (tok : list ascii) : string :=
  string_of_list_ascii (rev tok).

(** [s.lstrip()] *)
Fixpoint lstrip (s : string) : string :=
  match s with
  | String c s' => if is_space c then lstrip s' else s
  | EmptyString => EmptyString
  end.

(** [s.rstrip()] *)
Fixpoint rstrip (s : string) : string :=
  match s with
  | EmptyString => EmptyString
  | String c s' =>
      match rstrip s' with
      | EmptyString => if is_space c then EmptyString else String c EmptyString
      | r => String c r
      end
  end.

(** [s.strip()] *)
Definition strip (s : string) : string := rstrip (lstrip s).

Fixpoint split_go (sep : ascii) (tok : list ascii) (s : string) : list string :=
  match s with
  | EmptyString => [of_rev tok]
  | String c s' =>
      if Ascii.eqb c sep then of_rev tok :: split_go sep [] s'
      else split_go sep (c :: tok) s'
  end.

(** [s.split(sep)] for a separator of one character: never empty. *)
Definition split (sep : ascii) (s : string) : list string := split_go sep [] s.

Definition flush (tok : list ascii) : list string :=
  match tok with
  | [] => []
  | _ => [of_rev tok]
  end.

Fixpoint split_ws_go (tok : list ascii) (s : string) : list string :=
  match s with
  | EmptyString => flush tok
  | String c s' =>
      if is_space c then flush tok ++ split_ws_go [] s'
      else split_ws_go (c :: tok) s'
  end.

(** [s.split()]: the maximal runs of characters that are not white space. *)
Definition split_ws (s : string) : list string := split_ws_go [] s.

(** [c in s] for a character [c]. *)
Fixpoint contains (c : ascii) (s : string) : bool :=
  match s with
  | EmptyString => false
  | String d s' => Ascii.eqb d c || contains c s'
  end.

(** [s[:n]] *)
Fixpoint take (n : nat) (s : string) : string :=
  match n, s with
  | S n', String c s' => String c (take n' s')
  | _, _ => EmptyString
  end.

(** [s.rstrip(c)] for one character [c] *)
Fixpoint rstrip_chr (c : ascii) (s : string) : string :=
  match s with
  | EmptyString => EmptyString
  | String d s' =>
      match rstrip_chr c s' with
      | EmptyString => if Ascii.eqb d c then EmptyString else String d EmptyString
      | r => String d r
      end
  end.

(** [s.lower()] on the letters A to Z. *)
Definition lower_chr (c : ascii) : ascii :=
  let n := nat_of_ascii c in
  if (65 <=? n) && (n <=? 90) then ascii_of_nat (n + 32) else c.

Fixpoint lower (s : string) : string :=
  match s with
  | EmptyString => EmptyString
  | String c s' => String (lower_chr c) (lower s')
  end.

End PyStr.

(* ================================================================== *)
(** ** Python floats: binary64 *)

Module PyFloat.

Definition prec : Z := 53.
Definition emax : Z := 1024.

Definition float := spec_float.

(** The binary64 number nearest to [p / q], ties to even. *)
Definition of_ratio (neg : bool) (p q : positive) : float :=
  let '(m, e, l) := SFdiv_core_binary prec emax (Zpos p) 0 (Zpos q) 0 in
  binary_round_aux prec emax neg m e l.

(** The binary64 number nearest to [n * 10 ^ k]. *)
Definition of_decimal (neg : bool) (n : Z) (k : Z) : float :=
  match n with
  | Zpos p =>
      if (0 <=? k)%Z then of_ratio neg (p * Z.to_pos (10 ^ k)) 1
      else of_ratio neg p (Z.to_pos (10 ^ (- k)))
  | _ => S754_zero neg
  end.

Definition of_Z (n : Z) : float := of_decimal (n <? 0)%Z (Z.abs n) 0.

Definition ltb (x y : float) : bool := SFltb x y.
Definition leb (x y : float) : bool := SFleb x y.
Definition eqb (x y : float) : bool := SFeqb x y.
(** [x >= y] *)
Definition geb (x y : float) : bool := SFleb y x.

(** [a / b] rounded to the nearest integer, ties to even, for [0 <= a]. *)
Definition div_half_even (a : Z) (b : positive) : Z :=
  let q := (a / Zpos b)%Z in
  let r := (a mod Zpos b)%Z in
  match (2 * r ?= Zpos b)%Z with
  | Lt => q
  | Gt => (q + 1)%Z
  | Eq => if Z.even q then q else (q + 1)%Z
  end.

(** [round(x, ndigits)] for [0 <= ndigits]: the exact value of [x] is
    rounded to [ndigits] decimals, ties to even, and the decimal obtained is
    converted back; infinities and NaN round to themselves. *)
Definition round (x : float) (ndigits : nat) : float :=
  match x with
  | S754_finite s m e =>
      let pow := (10 ^ Z.of_nat ndigits)%Z in
      let a := (Zpos m * pow)%Z in
      let n := if (0 <=? e)%Z then (a * 2 ^ e)%Z
               else div_half_even a (Z.to_pos (2 ^ (- e))) in
      match n with
      | Zpos p => of_ratio s p (Z.to_pos pow)
      | _ => S754_zero s
      end
  | _ => x
  end.

End PyFloat.


(* ================================================================== *)
(** ** Exceptions *)

Inductive pyexc : Type :=
| ValueError | IndexError | TypeError | KeyError | AttributeError | OverflowError
| HTTPException.

Inductive result (A : Type) : Type :=
| Ok (a : A)
| Raise (e : pyexc).

Arguments Ok {A} a.
Arguments Raise {A} e.

Definition bind {A B : Type} (m : result A) (k : A -> result B) : result B :=
  match m with
  | Ok a => k a
  | Raise e => Raise e
  end.

Declare Scope py_scope.
Delimit Scope py_scope with py.
Notation "x <- m ;; k" := (bind m (fun x => k))
  (at level 61, m at next level, right associativity) : py_scope.
Notation "' p <- m ;; k" := (bind m (fun x => match x with p => k end))
  (at level 61, p pattern, m at next level, right associativity) : py_scope.
Local Open Scope py_scope.

(** [try: m except Exception: handler] *)
Definition try_except {A : Type} (m : result A) (handler : A) : A :=
  match m with
  | Ok a => a
  | Raise _ => handler
  end.

(* ================================================================== *)
(** ** Python dicts: insertion order, unique keys *)

Module Dict.

Definition t (V : Type) : Type := list (string * V).

Section Ops.
Context {V : Type}.

(** [d.get(k)] *)
Fixpoint get (k : string) (d : t V) : option V :=
  match d with
  | [] => None
  | (k', v) :: d' => if String.eqb k k' then Some v else get k d'
  end.

(** [k in d] *)
Definition mem (k : string) (d : t V) : bool :=
  match get k d with
  | Some _ => true
  | None => false
  end.

(** [d[k] = v]: an existing key keeps its place, a new key goes last. *)
Fixpoint set (k : string) (v : V) (d : t V) : t V :=
  match d with
  | [] => [(k, v)]
  | (k', v') :: d' =>
      if String.eqb k k' then (k', v) :: d' else (k', v') :: set k v d'
  end.

(** [d.get(k, default)] *)
Definition get_default (k : string) (default : V) (d : t V) : V :=
  match get k d with
  | Some v => v
  | None => default
  end.

Definition keys (d : t V) : list string := map fst d.

End Ops.
End Dict.

(* ================================================================== *)
(** ** [float(s)] and [int(s)] on strings *)

Module PyNum.

(** Underscores are accepted between two digits only; they are removed before
    the number is read. *)
Fixpoint strip_underscores (prev : ascii) (s : string) : option string :=
  match s with
  | EmptyString => if Ascii.eqb prev "_" then None else Some EmptyString
  | String c s' =>
      if Ascii.eqb c "_" then
        if PyStr.is_digit prev then strip_underscores c s' else None
      else if Ascii.eqb prev "_" && negb (PyStr.is_digit c) then None
      else option_map (String c) (strip_underscores c s')
  end.

(** Reads a run of digits: the number read after [acc], how many digits were
    read, and what follows them. *)
Fixpoint digits (acc : Z) (count : nat) (s : string) : Z * nat * string :=
  match s with
  | String c s' =>
      if PyStr.is_digit c then digits (10 * acc + PyStr.digit_val c)%Z (S count) s'
      else (acc, count, s)
  | EmptyString => (acc, count, s)
  end.

Definition sign (s : string) : bool * string :=
  match s with
  | String "-" s' => (true, s')
  | String "+" s' => (false, s')
  | _ => (false, s)
  end.

(** The exponent part [e[+-]digits], when there is one with a digit in it. *)
Definition exponent (s : string) : Z * string :=
  match s with
  | String c s' =>
      if Ascii.eqb c "e" || Ascii.eqb c "E" then
        let '(neg, s1) := sign s' in
        let '(n, count, s2) := digits 0 0 s1 in
        match count with
        | O => (0%Z, s)
        | _ => ((if neg then - n else n)%Z, s2)
        end
      else (0%Z, s)
  | EmptyString => (0%Z, s)
  end.

(** A decimal literal: [digits [. digits] [exponent]] or [. digits [exponent]],
    all of the string. *)
Definition decimal (neg : bool) (s : string) : option PyFloat.float :=
  let '(n1, c1, s1) := digits 0 0 s in
  let '(n2, c2, s2) :=
    match s1 with
    | String "." s1' => digits n1 0 s1'
    | _ => (n1, O, s1)
    end in
  match c1 + c2 with
  | O => None
  | _ =>
      let '(e, s3) := exponent s2 in
      match s3 with
      | EmptyString => Some (PyFloat.of_decimal neg n2 (e - Z.of_nat c2))
      | _ => None
      end
  end.

Definition inf_or_nan (neg : bool) (s : string) : option PyFloat.float :=
  let l := PyStr.lower s in
  if String.eqb l "inf" || String.eqb l "infinity" then Some (S754_infinity neg)
  else if String.eqb l "nan" then Some S754_nan
  else None.

(** [float(s)]: [None] stands for [ValueError]. *)
Definition float_of_str (s : string) : option PyFloat.float :=
  match strip_underscores "000" (PyStr.strip s) with
  | None => None
  | Some s0 =>
      let '(neg, s1) := sign s0 in
      match inf_or_nan neg s1 with
      | Some x => Some x
      | None => decimal neg s1
      end
  end.

(** [int(s)]: [None] stands for [ValueError]. *)
Definition int_of_str (s : string) : option Z :=
  match strip_underscores "000" (PyStr.strip s) with
  | None => None
  | Some s0 =>
      let '(neg, s1) := sign s0 in
      match digits 0 0 s1 with
      | (n, S _, EmptyString) => Some (if neg then - n else n)%Z
      | _ => None
      end
  end.

End PyNum.

(* ================================================================== *)
(** ** JSON values, as [json.loads] returns them and [json.dump] writes them *)

Inductive json : Type :=
| JNull
| JBool (b : bool)
| JInt (n : Z)
| JFloat (x : PyFloat.float)
| JStr (s : string)
| JList (l : list json)
| JDict (d : list (string * json)).

Definition is_none (v : json) : bool :=
  match v with
  | JNull => true
  | _ => false
  end.

Definition of_option_float (o : option PyFloat.float) : json :=
  match o with
  | Some v => JFloat v
  | None => JNull
  end.

(** Truth value of an object: [if v:] *)
Definition truthy (v : json) : bool :=
  match v with
  | JNull => false
  | JBool b => b
  | JInt n => negb (n =? 0)%Z
  | JFloat x => negb (PyFloat.eqb x (S754_zero false))
  | JStr s => negb (String.eqb s "")
  | JList l => match l with [] => false | _ => true end
  | JDict d => match d with [] => false | _ => true end
  end.

(* ================================================================== *)
(** ** [datetime(yr, mo, dy, hr, mn, tzinfo=timezone.utc).isoformat()] *)

Module PyDatetime.

Definition is_leap (y : Z) : bool :=
  ((y mod 4 =? 0) && (negb (y mod 100 =? 0) || (y mod 400 =? 0)))%Z.

Definition days_in_month (y m : Z) : Z :=
  match m with
  | 2 => if is_leap y then 29 else 28
  | 4 | 6 | 9 | 11 => 30
  | _ => 31
  end%Z.

(** The arguments are converted to C [int] first. *)
Definition fits_c_int (n : Z) : bool := ((- 2 ^ 31 <=? n) && (n <? 2 ^ 31))%Z.

Definition zfill (width : nat) (n : Z) : string :=
  let s := NilEmpty.string_of_uint (N.to_uint (Z.to_N n)) in
  let s := match s with EmptyString => "0" | _ => s end in
  string_of_list_ascii (repeat "0"%char (width - String.length s)) ++ s.

Definition isoformat (yr mo dy hr mn : Z) : string :=
  zfill 4 yr ++ "-" ++ zfill 2 mo ++ "-" ++ zfill 2 dy ++ "T"
  ++ zfill 2 hr ++ ":" ++ zfill 2 mn ++ ":00+00:00".

(** [OverflowError] when an argument does not fit a C [int], [ValueError]
    when one is out of range, the ISO-8601 text otherwise. *)
Definition datetime_iso (yr mo dy hr mn : Z) : result string :=
  if negb (forallb fits_c_int [yr; mo; dy; hr; mn]) then Raise OverflowError
  else if ((1 <=? yr) && (yr <=? 9999) && (1 <=? mo) && (mo <=? 12)
           && (1 <=? dy) && (dy <=? days_in_month yr mo)
           && (0 <=? hr) && (hr <=? 23) && (0 <=? mn) && (mn <=? 59))%Z
  then Ok (isoformat yr mo dy hr mn)
  else Raise ValueError.

End PyDatetime.

(* ================================================================== *)
(** ** The operations of Python on decoded JSON *)

Module Py.

(** The exact value of a number as a fraction [n / 2 ^ k]; [None] for an
    infinity, a NaN or a value that is not a number. *)
Definition exact (v : json) : option (Z * Z) :=
  let signed (s : bool) (m : Z) := if s then (- m)%Z else m in
  match v with
  | JBool b => Some ((if b then 1 else 0)%Z, 0%Z)
  | JInt n => Some (n, 0%Z)
  | JFloat (S754_zero _) => Some (0%Z, 0%Z)
  | JFloat (S754_finite s m e) =>
      if (0 <=? e)%Z then Some (signed s (Zpos m * 2 ^ e)%Z, 0%Z)
      else Some (signed s (Zpos m), (- e)%Z)
  | _ => None
  end.

Definition is_number (v : json) : bool :=
  match v with
  | JBool _ | JInt _ | JFloat _ => true
  | _ => false
  end.

(** [a == b] on numbers: [int] and [float] are compared by value, a NaN
    differs from everything, an infinity equals itself only. *)
Definition num_eqb (a b : json) : bool :=
  match exact a, exact b with
  | Some (n1, k1), Some (n2, k2) => (n1 * 2 ^ k2 =? n2 * 2 ^ k1)%Z
  | _, _ =>
      match a, b with
      | JFloat (S754_infinity s1), JFloat (S754_infinity s2) => Bool.eqb s1 s2
      | _, _ => false
      end
  end.

(** [a == b] *)
Fixpoint eqb (a b : json) {struct a} : bool :=
  match a, b with
  | JNull, JNull => true
  | JStr s, JStr t => String.eqb s t
  | JList l, JList m =>
      (fix go (l m : list json) {struct l} : bool :=
         match l, m with
         | [], [] => true
         | x :: l', y :: m' => eqb x y && go l' m'
         | _, _ => false
         end) l m
  | JDict d, JDict e =>
      (List.length d =? List.length e)
      && (fix go (d : list (string * json)) {struct d} : bool :=
            match d with
            | [] => true
            | (k, v) :: d' =>
                match Dict.get k e with
                | Some w => eqb v w && go d'
                | None => false
                end
            end) d
  | _, _ => is_number a && is_number b && num_eqb a b
  end.

(** [a < b] on two numbers: [int] and [float] are compared by value; a NaN
    is smaller than nothing and nothing is smaller than a NaN. *)
Definition num_ltb (a b : json) : bool :=
  match exact a, exact b with
  | Some (n1, k1), Some (n2, k2) => (n1 * 2 ^ k2 <? n2 * 2 ^ k1)%Z
  | _, _ =>
      match a, b with
      | JFloat S754_nan, _ | _, JFloat S754_nan => false
      | JFloat (S754_infinity s1), JFloat (S754_infinity s2) => s1 && negb s2
      | JFloat (S754_infinity s1), _ => s1
      | _, JFloat (S754_infinity s2) => negb s2
      | _, _ => false
      end
  end.

(** [a < b], [None] where it raises [TypeError]: two numbers are compared by
    value, two strings character by character, two lists at the first items
    that are not equal, or by length when there are none; nothing else is
    ordered, [None] and a dict not even with themselves. *)
Fixpoint compare_lt (a b : json) {struct a} : option bool :=
  match a, b with
  | JStr s, JStr t => Some (String.ltb s t)
  | JList l, JList m =>
      (fix go (l m : list json) {struct l} : option bool :=
         match l, m with
         | [], [] => Some false
         | [], _ :: _ => Some true
         | _ :: _, [] => Some false
         | x :: l', y :: m' => if eqb x y then go l' m' else compare_lt x y
         end) l m
  | _, _ => if is_number a && is_number b then Some (num_ltb a b) else None
  end.

(** [a < b] *)
Definition lt (a b : json) : result bool :=
  match compare_lt a b with
  | Some r => Ok r
  | None => Raise TypeError
  end.

(** [obj.get(k, default)]: only a dict has the method. *)
Definition get (obj : json) (k : string) (default : json) : result json :=
  match obj with
  | JDict d => Ok (Dict.get_default k default d)
  | _ => Raise AttributeError
  end.

(** [obj[k]] for a string [k] *)
Definition getitem (obj : json) (k : string) : result json :=
  match obj with
  | JDict d =>
      match Dict.get k d with
      | Some v => Ok v
      | None => Raise KeyError
      end
  | _ => Raise TypeError
  end.

(** [len(obj)] *)
Definition len (obj : json) : result nat :=
  match obj with
  | JStr s => Ok (String.length s)
  | JList l => Ok (List.length l)
  | JDict d => Ok (List.length d)
  | _ => Raise TypeError
  end.

(** [obj[i]] for an index [0 <= i]; the keys of a decoded JSON object are
    strings, so a dict never has the key [i]. *)
Definition index (obj : json) (i : nat) : result json :=
  match obj with
  | JList l =>
      match nth_error l i with
      | Some v => Ok v
      | None => Raise IndexError
      end
  | JStr s =>
      match String.get i s with
      | Some c => Ok (JStr (String c ""))
      | None => Raise IndexError
      end
  | JDict _ => Raise KeyError
  | _ => Raise TypeError
  end.

(** [obj[-1]] *)
Definition last (obj : json) : result json :=
  match len obj with
  | Ok (S n) => index obj n
  | Ok O => index obj 0
  | Raise e => Raise e
  end.

(** [obj[:n]] *)
Definition slice_to (obj : json) (n : nat) : result json :=
  match obj with
  | JStr s => Ok (JStr (PyStr.take n s))
  | JList l => Ok (JList (firstn n l))
  | _ => Raise TypeError
  end.

(** [l[-n:]] on a list *)
Definition lastn {A : Type} (n : nat) (l : list A) : list A :=
  skipn (List.length l - n) l.

(** [for x in obj]: the elements of a list, the characters of a string, the
    keys of a dict. *)
Definition iter (obj : json) : result (list json) :=
  match obj with
  | JList l => Ok l
  | JStr s => Ok (map (fun c => JStr (String c "")) (list_ascii_of_string s))
  | JDict d => Ok (map (fun kv => JStr (fst kv)) d)
  | _ => Raise TypeError
  end.

(** [t in s] on strings *)
Fixpoint substring_in (t s : string) : bool :=
  String.prefix t s
  || match s with
     | EmptyString => false
     | String _ s' => substring_in t s'
     end.

(** [k in obj] for a string [k] *)
Definition contains (k : string) (obj : json) : result bool :=
  match obj with
  | JStr s => Ok (substring_in k s)
  | JList l => Ok (existsb (fun v => eqb v (JStr k)) l)
  | JDict d => Ok (Dict.mem k d)
  | _ => Raise TypeError
  end.

(** [obj.split(sep)[-1]] for a separator of one character *)
Definition split_last (sep : ascii) (obj : json) : result json :=
  match obj with
  | JStr s => Ok (JStr (List.last (PyStr.split sep s) ""))
  | _ => Raise AttributeError
  end.

(** [round(x, ndigits)]: an [int] rounds to itself when [0 <= ndigits]. *)
Definition round (x : json) (ndigits : nat) : result json :=
  match x with
  | JFloat v => Ok (JFloat (PyFloat.round v ndigits))
  | JInt n => Ok (JInt n)
  | JBool b => Ok (JInt (if b then 1 else 0))
  | _ => Raise TypeError
  end.

(** [float(x)] *)
Definition float (x : json) : result PyFloat.float :=
  match x with
  | JFloat v => Ok v
  | JInt n =>
      match PyFloat.of_Z n with
      | S754_infinity _ => Raise OverflowError
      | v => Ok v
      end
  | JBool b => Ok (PyFloat.of_Z (if b then 1 else 0))
  | JStr s =>
      match PyNum.float_of_str s with
      | Some v => Ok v
      | None => Raise ValueError
      end
  | _ => Raise TypeError
  end.

(** [obj[-n:]] *)
Definition slice_last (obj : json) (n : nat) : result json :=
  match obj with
  | JStr s => Ok (JStr (string_of_list_ascii (lastn n (list_ascii_of_string s))))
  | JList l => Ok (JList (lastn n l))
  | _ => Raise TypeError
  end.

(** [obj.lower()] *)
Definition lower (obj : json) : result string :=
  match obj with
  | JStr s => Ok (PyStr.lower s)
  | _ => Raise AttributeError
  end.

Definition as_int (v : json) : option Z :=
  match v with
  | JInt n => Some n
  | JBool b => Some (if b then 1 else 0)%Z
  | _ => None
  end.

(** [a + b]: the sum of two [int], the rounded sum of two numbers one of
    which is a [float], the concatenation of two strings or two lists. *)
Definition add (a b : json) : result json :=
  match as_int a, as_int b with
  | Some m, Some n => Ok (JInt (m + n))
  | _, _ =>
      match a, b with
      | JStr s, JStr t => Ok (JStr (s ++ t))
      | JList l, JList m => Ok (JList (l ++ m))
      | _, _ =>
          if is_number a && is_number b then
            x <- float a ;; y <- float b ;;
            Ok (JFloat (SFadd PyFloat.prec PyFloat.emax x y))
          else Raise TypeError
      end
  end.

(** [a / 2]: the quotient of an [int] is rounded once. *)
Definition halve (a : json) : result json :=
  match as_int a with
  | Some n =>
      match PyFloat.of_decimal (n <? 0)%Z (Z.abs n * 5) (-1) with
      | S754_infinity _ => Raise OverflowError
      | v => Ok (JFloat v)
      end
  | None =>
      match a with
      | JFloat x => Ok (JFloat (SFdiv PyFloat.prec PyFloat.emax x (PyFloat.of_Z 2)))
      | _ => Raise TypeError
      end
  end.

(** [obj[k] = v] for a string [k] *)
Definition setitem (obj : json) (k : string) (v : json) : result json :=
  match obj with
  | JDict d => Ok (JDict (Dict.set k v d))
  | _ => Raise TypeError
  end.

End Py.

(** [for x in l: st = body x st], stopped by the first exception. *)
Fixpoint for_each {A S : Type} (body : A -> S -> result S) (l : list A) (st : S)
  : result S :=
  match l with
  | [] => Ok st
  | x :: l' => st' <- body x st ;; for_each body l' st'
  end.

(* ================================================================== *)
(** ** The network *)

(** The URL templates of the scripts, with the value substituted in each. *)
Inductive url : Type :=
| NDBC_OCEAN_URL (station : json)
| NDBC_TXT_URL (station : json)
| COOPS_URL (station : json)
| GLIDER_URL (erddap_base : string) (dataset_id : json)
| DRIFTER_URL (erddap_base : string).

(** What a run receives: [fetch_url] returns the text or [None],
    [fetch_json] the decoded text or [None]. *)
Record network : Type := mk_network {
  fetch_url : url -> option string;
  fetch_json : url -> option json
}.

(* ================================================================== *)
(** ** What the feed parsers of both scripts share *)

Module Feed.

(** [text.strip().split("\n")] *)
Definition lines_of (text : string) : list string :=
  PyStr.split "010" (PyStr.strip text).

(** [{h: i for i, h in enumerate(headers)}]: a name that occurs twice in the
    header row keeps its place in the dict and takes the later index. *)
Fixpoint col_map_from (i : nat) (headers : list string) (col_map : Dict.t nat)
  : Dict.t nat :=
  match headers with
  | [] => col_map
  | h :: headers' => col_map_from (S i) headers' (Dict.set h i col_map)
  end.

Definition col_map_of (headers : list string) : Dict.t nat :=
  col_map_from 0 headers [].

(** [s in (a, b, ...)] *)
Definition str_in (s : string) (l : list string) : bool :=
  existsb (String.eqb s) l.

Definition sentinels : list string :=
  ["MM"; "99.0"; "999.0"; "9999.0"; "99.00"; "999"; "9999"].

(** [lines[a:b]] for [a <= b] *)
Definition slice {A : Type} (a b : nat) (l : list A) : list A :=
  firstn (b - a) (skipn a l).

(** [int(parts[idx])], [None] for the [ValueError] and [IndexError] that the
    caller catches alike. *)
Definition int_at (parts : list string) (idx : nat) : option Z :=
  match nth_error parts idx with
  | Some s => PyNum.int_of_str s
  | None => None
  end.

Definition f99 : PyFloat.float := PyFloat.of_Z 99.
Definition f999 : PyFloat.float := PyFloat.of_Z 999.
Definition f50 : PyFloat.float := PyFloat.of_Z 50.

End Feed.

(* ================================================================== *)
(** ** [update_data.py] *)

Module update_data.

Import Feed.

(** *** The feed parsers *)

(** The closure [get_val] of [_parse_ocean_feed], with the [col_map] and the
    [parts] it captures. *)
Definition get_val (col_map : Dict.t nat) (parts : list string)
  (col_name : string) : option PyFloat.float :=
  match Dict.get col_name col_map with
  | None => None
  | Some idx =>
      if List.length parts <=? idx then None
      else
        let val_str := nth idx parts "" in
        if str_in val_str sentinels then None
        else
          match PyNum.float_of_str val_str with
          | Some v =>
              if PyFloat.geb v f99 && negb (str_in col_name ["DEPTH"]) then None
              else Some v
          | None => None
          end
  end.

(** State of the scan of [_parse_ocean_feed]. *)
Record ocean_state : Type := mk_ocean_state {
  readings : Dict.t json;
  timestamp : option string
}.

Definition readings0 : Dict.t json :=
  [("do", JNull); ("temp", JNull); ("sal", JNull); ("ph", JNull); ("turb", JNull)].

(** [readings[key] is None] *)
Definition reading_is_none (key : string) (r : Dict.t json) : bool :=
  is_none (Dict.get_default key JNull r).

(** [if readings[key] is None: readings[key] = get_val(col)] *)
Definition fill (col_map : Dict.t nat) (parts : list string)
  (key col : string) (r : Dict.t json) : Dict.t json :=
  if reading_is_none key r
  then Dict.set key (of_option_float (get_val col_map parts col)) r
  else r.

(** The five [int(parts[...])] of one row; [None] when the row is skipped. *)
Definition row_date (col_map : Dict.t nat) (parts : list string)
  : option (Z * Z * Z * Z * Z) :=
  match int_at parts (Dict.get_default "#YY" (Dict.get_default "YY" 0 col_map) col_map) with
  | None => None
  | Some yr =>
  match int_at parts (Dict.get_default "MM" 1 col_map) with
  | None => None
  | Some mo =>
  match int_at parts (Dict.get_default "DD" 2 col_map) with
  | None => None
  | Some dy =>
  match int_at parts (Dict.get_default "hh" 3 col_map) with
  | None => None
  | Some hr =>
  match int_at parts (Dict.get_default "mm" 4 col_map) with
  | None => None
  | Some mn => Some (yr, mo, dy, hr, mn)
  end end end end end.

(** The body of [if timestamp is None: try: ... except ValueError: pass]. *)
Definition set_timestamp (d : Z * Z * Z * Z * Z) (ts : option string)
  : result (option string) :=
  match ts with
  | Some _ => Ok ts
  | None =>
      let '(yr, mo, dy, hr, mn) := d in
      match PyDatetime.datetime_iso yr mo dy hr mn with
      | Ok iso => Ok (Some iso)
      | Raise ValueError => Ok None
      | Raise e => Raise e
      end
  end.

(** [for line in lines[2:50]: ...], with its [continue] and [break]. *)
Fixpoint scan_ocean (col_map : Dict.t nat) (rows : list string) (st : ocean_state)
  : result ocean_state :=
  match rows with
  | [] => Ok st
  | line :: rows' =>
      let parts := PyStr.split_ws line in
      if List.length parts <? 5 then scan_ocean col_map rows' st
      else
        match row_date col_map parts with
        | None => scan_ocean col_map rows' st
        | Some d =>
            ts <- set_timestamp d (timestamp st) ;;
            let r := readings st in
            let r := fill col_map parts "do" "O2PPM" r in
            let r := fill col_map parts "temp" "OTMP" r in
            let r := fill col_map parts "sal" "SAL" r in
            let r := fill col_map parts "ph" "PH" r in
            let r := fill col_map parts "turb" "TURB" r in
            let st' := mk_ocean_state r ts in
            if negb (reading_is_none "do" r) && negb (reading_is_none "temp" r)
            then Ok st'
            else scan_ocean col_map rows' st'
        end
  end.

(** [{k: v for k, v in readings.items() if v is not None}] *)
Definition drop_none (r : Dict.t json) : Dict.t json :=
  filter (fun kv => negb (is_none (snd kv))) r.

(** The end of [_parse_ocean_feed]: the readings found, the timestamp when
    there is one, and [None] for an empty dict. *)
Definition ocean_result (st : ocean_state) : option (Dict.t json) :=
  let result := drop_none (readings st) in
  let result :=
    match timestamp st with
    | Some ts => if negb (String.eqb ts "") then Dict.set "timestamp" (JStr ts) result
                 else result
    | None => result
    end in
  match result with
  | [] => None
  | _ => Some result
  end.

(** [_parse_ocean_feed(text)] up to the end of its loop: [None] where the
    function returns early, the state the loop ends in otherwise; [text] is
    [None] when the fetch failed. *)
Definition ocean_scan (text : option string) : result (option ocean_state) :=
  match text with
  | None => Ok None
  | Some "" => Ok None
  | Some text =>
      let lines := lines_of text in
      if List.length lines <? 3 then Ok None
      else
        let headers := PyStr.split_ws (nth 0 lines "") in
        let col_map := col_map_of headers in
        st <- scan_ocean col_map (slice 2 50 lines) (mk_ocean_state readings0 None) ;;
        Ok (Some st)
  end.

(** [_parse_ocean_feed(text)] *)
Definition _parse_ocean_feed (text : option string)
  : result (option (Dict.t json)) :=
  st <- ocean_scan text ;;
  match st with
  | None => Ok None
  | Some st => Ok (ocean_result st)
  end.

(** One row of [_parse_txt_feed]: [Some v] when the row returns [{"temp": v}]. *)
Definition txt_row (col_map : Dict.t nat) (parts : list string)
  : option PyFloat.float :=
  if List.length parts <? 5 then None
  else
    match Dict.get "WTMP" col_map with
    | None => None
    | Some wtmp_idx =>
        if negb (wtmp_idx =? 0) && (wtmp_idx <? List.length parts) then
          let s := nth wtmp_idx parts "" in
          match PyNum.float_of_str s with
          | Some v =>
              if PyFloat.ltb v f50 && negb (String.eqb s "MM") then Some v
              else None
          | None => None
          end
        else None
    end.

(** [for line in lines[2:10]: ...] *)
Fixpoint scan_txt (col_map : Dict.t nat) (rows : list string)
  : option (Dict.t json) :=
  match rows with
  | [] => None
  | line :: rows' =>
      match txt_row col_map (PyStr.split_ws line) with
      | Some v => Some [("temp", JFloat v)]
      | None => scan_txt col_map rows'
      end
  end.

(** [_parse_txt_feed(text)] *)
Definition _parse_txt_feed (text : option string) : option (Dict.t json) :=
  match text with
  | None => None
  | Some "" => None
  | Some text =>
      let lines := lines_of text in
      if List.length lines <? 3 then None
      else
        let headers := PyStr.split_ws (nth 0 lines "") in
        let col_map := col_map_of headers in
        scan_txt col_map (slice 2 10 lines)
  end.

(** The closure [get] of [_parse_ndbc_met_txt]. *)
Definition get (col_map : Dict.t nat) (parts : list string) (name : string)
  : option PyFloat.float :=
  match Dict.get name col_map with
  | None => None
  | Some idx =>
      if List.length parts <=? idx then None
      else
        let s := nth idx parts "" in
        if str_in s sentinels then None
        else
          match PyNum.float_of_str s with
          | Some v => if PyFloat.ltb v f999 then Some v else None
          | None => None
          end
  end.

(** [if key not in readings: v = get(name); if v is not None: readings[key] = v] *)
Definition put (col_map : Dict.t nat) (parts : list string)
  (key name : string) (r : Dict.t json) : Dict.t json :=
  if negb (Dict.mem key r) then
    match get col_map parts name with
    | Some v => Dict.set key (JFloat v) r
    | None => r
    end
  else r.

(** [for line in lines[2:6]: ...] *)
Fixpoint scan_met (col_map : Dict.t nat) (rows : list string) (r : Dict.t json)
  : Dict.t json :=
  match rows with
  | [] => r
  | line :: rows' =>
      let parts := PyStr.split_ws line in
      if List.length parts <? 10 then scan_met col_map rows' r
      else
        let r := put col_map parts "wspd" "WSPD" r in
        let r := put col_map parts "wdir" "WDIR" r in
        let r := put col_map parts "wvht" "WVHT" r in
        let r := put col_map parts "dpd" "DPD" r in
        let r := put col_map parts "pres" "PRES" r in
        let r := put col_map parts "atmp" "ATMP" r in
        let r := put col_map parts "wtmp" "WTMP" r in
        if 4 <=? List.length r then r else scan_met col_map rows' r
  end.

(** [_parse_ndbc_met_txt(text)] *)
Definition _parse_ndbc_met_txt (text : option string) : option (Dict.t json) :=
  match text with
  | None => None
  | Some "" => None
  | Some text =>
      let lines := lines_of text in
      if List.length lines <? 3 then None
      else
        let headers := PyStr.split_ws (nth 0 lines "") in
        let col_map := col_map_of headers in
        match scan_met col_map (slice 2 6 lines) [] with
        | [] => None
        | readings => Some readings
        end
  end.

(* ---------------------------------------------------------------- *)
(** *** The hypoxia stations and the extractors *)

(** [for key, val in readings.items(): ...] on [station["current"]] *)
Fixpoint merge_readings (items : list (string * json)) (current : json)
  : result json :=
  match items with
  | [] => Ok current
  | (key, val) :: items' =>
      current' <- (if String.eqb key "timestamp"
                   then Py.setitem current "last_obs" val
                   else Py.setitem current key val) ;;
      merge_readings items' current'
  end.

(** The body of [if readings:] for one station, a dict. *)
Definition merge_station (station : Dict.t json) (readings : Dict.t json)
  : result (Dict.t json) :=
  let station :=
    if negb (Dict.mem "current" station)
       || is_none (Dict.get_default "current" JNull station)
    then Dict.set "current" (JDict []) station
    else station in
  current <- merge_readings readings (Dict.get_default "current" JNull station) ;;
  Ok (Dict.set "current" current station).

(** The body of [for station in data["stations"]:] *)
Definition update_station (net : network) (station : json) : result json :=
  sid <- Py.getitem station "id" ;;
  readings <- _parse_ocean_feed (fetch_url net (NDBC_OCEAN_URL sid)) ;;
  let readings :=
    match readings with
    | Some (kv :: r) => readings
    | _ => _parse_txt_feed (fetch_url net (NDBC_TXT_URL sid))
    end in
  match readings, station with
  | Some (kv :: r), JDict d => d' <- merge_station d (kv :: r) ;; Ok (JDict d')
  | _, _ => Ok station
  end.

Fixpoint update_stations (net : network) (stations : list json)
  : result (list json) :=
  match stations with
  | [] => Ok []
  | station :: stations' =>
      station' <- update_station net station ;;
      rest <- update_stations net stations' ;;
      Ok (station' :: rest)
  end.

(** [update_ndbc_hypoxia()]: [file] is the content of [latest.json], [None]
    when the file does not exist; the result is the document written. *)
Definition update_ndbc_hypoxia (net : network) (now : string) (file : option json)
  : result (option json) :=
  match file with
  | None => Ok None
  | Some data =>
      stations <- Py.getitem data "stations" ;;
      _ <- Py.len stations ;;
      l <- Py.iter stations ;;
      l' <- update_stations net l ;;
      let stations' := match stations with JList _ => JList l' | _ => stations end in
      data <- Py.setitem data "stations" stations' ;;
      data <- Py.setitem data "updated" (JStr now) ;;
      Ok (Some data)
  end.

(** [{"updated": now, "count": len(records), key: records}] *)
Definition document (now key : string) (records : list json) : json :=
  JDict [("updated", JStr now);
         ("count", JInt (Z.of_nat (List.length records)));
         (key, JList records)].

(** [geom.get("type") == name] *)
Definition type_is (geom : json) (name : string) : result bool :=
  ty <- Py.get geom "type" JNull ;;
  Ok (Py.eqb ty (JStr name)).

(** [geom.get("type") != "Point" or len(coords) < 2] *)
Definition not_a_point (geom coords : json) : result bool :=
  is_point <- type_is geom "Point" ;;
  if negb is_point then Ok true
  else n <- Py.len coords ;; Ok (n <? 2).

(** [sid.split("_")[-1] if "_" in sid else sid] *)
Definition station_id_of (sid : json) : result json :=
  has <- Py.contains "_" sid ;;
  if has then Py.split_last "_" sid else Ok sid.

(** [lat, lon = coords[1], coords[0]] *)
Definition lat_lon (coords : json) : result (json * json) :=
  lat <- Py.index coords 1 ;;
  lon <- Py.index coords 0 ;;
  Ok (lat, lon).

(** [props.get(k, default)[:n]] *)
Definition get_cut (props : json) (k : string) (default : json) (n : nat)
  : result json :=
  v <- Py.get props k default ;;
  Py.slice_to v n.

(* ---------------------------------------------------------------- *)

(** The body of the loop of [update_ioos_sensors]. *)
Definition ioos_item (item : json) (sensors : list json) : result (list json) :=
  props <- Py.get item "properties" (JDict []) ;;
  geom <- Py.get item "geometry" (JDict []) ;;
  coords <- Py.get geom "coordinates" (JList [JNull; JNull]) ;;
  is_point <- type_is geom "Point" ;;
  point_ok <- (if is_point then n <- Py.len coords ;; Ok (2 <=? n) else Ok false) ;;
  lon_lat <-
    (if point_ok then
       lon <- Py.index coords 0 ;; lat <- Py.index coords 1 ;; Ok (Some (lon, lat))
     else
       is_multi <- type_is geom "MultiPoint" ;;
       if is_multi && truthy coords then
         c0 <- Py.index coords 0 ;; lon <- Py.index c0 0 ;;
         c0 <- Py.index coords 0 ;; lat <- Py.index c0 1 ;; Ok (Some (lon, lat))
       else Ok None) ;;
  match lon_lat with
  | None => Ok sensors
  | Some (lon, lat) =>
      variables <- Py.get props "aquaview:variables" (JList []) ;;
      source_url <- Py.get props "aquaview:source_url" (JStr "") ;;
      id_or_unknown <- Py.get item "id" (JStr "Unknown") ;;
      title <- Py.get props "title" id_or_unknown ;;
      id <- Py.get item "id" (JStr "") ;;
      title80 <- Py.slice_to title 80 ;;
      rlat <- Py.round lat 4 ;;
      rlon <- Py.round lon 4 ;;
      vars10 <- Py.slice_to variables 10 ;;
      src200 <- Py.slice_to source_url 200 ;;
      org <- Py.get props "aquaview:organization" (JStr "") ;;
      Ok (sensors ++ [JDict [("id", id); ("title", title80); ("lat", rlat);
                             ("lon", rlon); ("vars", vars10); ("src", src200);
                             ("org", org)]])
  end.

(** [update_ioos_sensors()], from the items of the discovery query to the
    document saved. *)
Definition update_ioos_sensors (now : string) (items : list json) : result json :=
  sensors <- for_each ioos_item items [] ;;
  Ok (document now "sensors" sensors).

(* ---------------------------------------------------------------- *)

(** State of the loop of [update_ndbc_met]; [requests] lists the telemetry
    URLs fetched, in order. *)
Record met_state : Type := mk_met_state {
  buoys : list json;
  fetched : nat;
  requests : list url
}.

(** The body of the loop of [update_ndbc_met]. *)
Definition met_item (net : network) (item : json) (st : met_state)
  : result met_state :=
  props <- Py.get item "properties" (JDict []) ;;
  geom <- Py.get item "geometry" (JDict []) ;;
  coords <- Py.get geom "coordinates" (JList [JNull; JNull]) ;;
  skip <- not_a_point geom coords ;;
  if skip then Ok st
  else
    sid <- Py.get item "id" (JStr "") ;;
    station_id <- station_id_of sid ;;
    '(lat, lon) <- lat_lon coords ;;
    variables <- Py.get props "aquaview:variables" (JList []) ;;
    rlat <- Py.round lat 4 ;;
    rlon <- Py.round lon 4 ;;
    title80 <- get_cut props "title" station_id 80 ;;
    vars8 <- Py.slice_to variables 8 ;;
    let buoy := [("id", station_id); ("lat", rlat); ("lon", rlon);
                 ("title", title80); ("vars", vars8)] in
    if fetched st <? 200 then
      let u := NDBC_TXT_URL station_id in
      match _parse_ndbc_met_txt (fetch_url net u) with
      | Some readings =>
          Ok (mk_met_state (buoys st ++ [JDict (Dict.set "current" (JDict readings) buoy)])
                           (S (fetched st)) (requests st ++ [u]))
      | None =>
          Ok (mk_met_state (buoys st ++ [JDict buoy]) (fetched st) (requests st ++ [u]))
      end
    else Ok (mk_met_state (buoys st ++ [JDict buoy]) (fetched st) (requests st)).

Definition met_loop (net : network) (items : list json) : result met_state :=
  for_each (met_item net) items (mk_met_state [] 0 []).

(** [update_ndbc_met()] *)
Definition update_ndbc_met (net : network) (now : string) (items : list json)
  : result json :=
  st <- met_loop net items ;;
  Ok (document now "buoys" (buoys st)).

(* ---------------------------------------------------------------- *)

(** The body of the first loop of [update_coops]. *)
Definition coops_item (item : json) (stations : list json) : result (list json) :=
  props <- Py.get item "properties" (JDict []) ;;
  geom <- Py.get item "geometry" (JDict []) ;;
  coords <- Py.get geom "coordinates" (JList [JNull; JNull]) ;;
  skip <- not_a_point geom coords ;;
  if skip then Ok stations
  else
    sid <- Py.get item "id" (JStr "") ;;
    station_id <- station_id_of sid ;;
    '(lat, lon) <- lat_lon coords ;;
    rlat <- Py.round lat 4 ;;
    rlon <- Py.round lon 4 ;;
    title80 <- get_cut props "title" station_id 80 ;;
    vars6 <- get_cut props "aquaview:variables" (JList []) 6 ;;
    src200 <- get_cut props "aquaview:source_url" (JStr "") 200 ;;
    Ok (stations ++ [JDict [("id", station_id); ("lat", rlat); ("lon", rlon);
                            ("title", title80); ("vars", vars6); ("src", src200)]]).

(** The [try] block of the second loop of [update_coops], from the decoded
    answer to the [current] mapping it assigns, [None] when it assigns none. *)
Definition coops_current (data : option json) : result (option json) :=
  match data with
  | None => Ok None
  | Some data =>
      if negb (truthy data) then Ok None
      else
        has <- Py.contains "data" data ;;
        if negb has then Ok None
        else
          readings <- Py.getitem data "data" ;;
          if negb (truthy readings) then Ok None
          else
            latest <- Py.last readings ;;
            v <- Py.get latest "v" (JInt 0) ;;
            wl <- Py.float v ;;
            t <- Py.get latest "t" (JStr "") ;;
            Ok (Some (JDict [("wl", JFloat wl); ("time", t)]))
  end.

(** The body of the second loop of [update_coops], with its
    [except Exception: pass]. *)
Definition coops_live (net : network) (s : json) : json :=
  try_except
    (id <- Py.getitem s "id" ;;
     current <- coops_current (fetch_json net (COOPS_URL id)) ;;
     match current with
     | Some c => Py.setitem s "current" c
     | None => Ok s
     end)
    s.

(** The URLs the second loop of [update_coops] asks for. *)
Definition coops_requests (stations : list json) : list url :=
  map (fun s => COOPS_URL (try_except (Py.getitem s "id") JNull)) (firstn 100 stations).

(** The records of [update_coops]: [for s in stations[:100]] updates the
    first hundred in place. *)
Definition coops_stations (net : network) (items : list json) : result (list json) :=
  stations <- for_each coops_item items [] ;;
  Ok (map (coops_live net) (firstn 100 stations) ++ skipn 100 stations).

(** [update_coops()] *)
Definition update_coops (net : network) (now : string) (items : list json)
  : result json :=
  stations <- coops_stations net items ;;
  Ok (document now "stations" stations).

(* ---------------------------------------------------------------- *)

(** [next((l.get("href", "") for l in links if l.get("rel") == "alternate"), "")] *)
Fixpoint alternate_href (links : list json) : result json :=
  match links with
  | [] => Ok (JStr "")
  | l :: links' =>
      rel <- Py.get l "rel" JNull ;;
      if Py.eqb rel (JStr "alternate") then Py.get l "href" (JStr "")
      else alternate_href links'
  end.

(** The body of the loop of [update_incidents]. *)
Definition incident_item (item : json) (incidents : list json) : result (list json) :=
  props <- Py.get item "properties" (JDict []) ;;
  geom <- Py.get item "geometry" (JDict []) ;;
  coords <- Py.get geom "coordinates" (JList [JNull; JNull]) ;;
  skip <- not_a_point geom coords ;;
  if skip then Ok incidents
  else
    '(lat, lon) <- lat_lon coords ;;
    id <- Py.get item "id" (JStr "") ;;
    title120 <- get_cut props "title" (JStr "Unknown Incident") 120 ;;
    rlat <- Py.round lat 4 ;;
    rlon <- Py.round lon 4 ;;
    start <- Py.get props "start_datetime" (JStr "") ;;
    date <- Py.get props "datetime" start ;;
    desc300 <- get_cut props "description" (JStr "") 300 ;;
    links <- Py.get item "links" (JList []) ;;
    links <- Py.iter links ;;
    href <- alternate_href links ;;
    Ok (incidents ++ [JDict [("id", id); ("title", title120); ("lat", rlat);
                             ("lon", rlon); ("date", date); ("desc", desc300);
                             ("url", href)]]).

(** [x.get("date", "")] for a record of [incidents] *)
Definition date_key (x : json) : json :=
  try_except (Py.get x "date" (JStr "")) JNull.

(** Insertion of [x] with key [kx] into a list in descending order of the
    keys: after the records whose key is greater, before those whose key is
    equal or smaller, as a stable sort with [reverse=True] places it. *)
Fixpoint insert_desc (kx x : json) (l : list (json * json))
  : result (list (json * json)) :=
  match l with
  | [] => Ok [(kx, x)]
  | (ky, y) :: l' =>
      less <- Py.lt kx ky ;;
      if less then rest <- insert_desc kx x l' ;; Ok ((ky, y) :: rest)
      else Ok ((kx, x) :: l)
  end.

Fixpoint sort_desc (l : list (json * json)) : result (list (json * json)) :=
  match l with
  | [] => Ok []
  | (kx, x) :: l' => rest <- sort_desc l' ;; insert_desc kx x rest
  end.

(** [incidents.sort(key=lambda x: x.get("date", ""), reverse=True)]: no key is
    compared in a list of fewer than two records; in a longer list the keys
    are compared with [<], and a comparison that raises ends the sort. Where
    [<] orders the keys, as it does when all are strings or all are numbers
    none of which is a NaN, the result is the one stable descending order,
    whatever comparisons [list.sort] makes; where a key is [None] or a dict,
    or strings, numbers and lists are mixed, every run of comparisons meets a
    [TypeError]. The comparisons made here are those of an insertion from
    the right, which can differ from those of [list.sort] in the cases that
    are left only: a NaN among the keys, or lists that compare with some of
    the keys and not with others. *)
Definition sort_by_date_desc (incidents : list json) : result (list json) :=
  match incidents with
  | [] | [_] => Ok incidents
  | _ =>
      sorted <- sort_desc (map (fun x => (date_key x, x)) incidents) ;;
      Ok (map snd sorted)
  end.

(** [update_incidents()] *)
Definition update_incidents (now : string) (items : list json) : result json :=
  incidents <- for_each incident_item items [] ;;
  incidents <- sort_by_date_desc incidents ;;
  Ok (document now "incidents" incidents).

(* ---------------------------------------------------------------- *)

(** The body of the loop of [update_pmel]. *)
Definition pmel_item (item : json) (probes : list json) : result (list json) :=
  props <- Py.get item "properties" (JDict []) ;;
  geom <- Py.get item "geometry" (JDict []) ;;
  coords <- Py.get geom "coordinates" (JList [JNull; JNull]) ;;
  skip <- not_a_point geom coords ;;
  if skip then Ok probes
  else
    '(lat, lon) <- lat_lon coords ;;
    id <- Py.get item "id" (JStr "") ;;
    id' <- Py.get item "id" (JStr "") ;;
    title80 <- get_cut props "title" id' 80 ;;
    rlat <- Py.round lat 4 ;;
    rlon <- Py.round lon 4 ;;
    vars6 <- get_cut props "aquaview:variables" (JList []) 6 ;;
    start <- Py.get props "start_datetime" (JStr "") ;;
    date <- Py.get props "datetime" start ;;
    src200 <- get_cut props "aquaview:source_url" (JStr "") 200 ;;
    Ok (probes ++ [JDict [("id", id); ("title", title80); ("lat", rlat);
                          ("lon", rlon); ("vars", vars6); ("date", date);
                          ("src", src200)]]).

(** [update_pmel()] *)
Definition update_pmel (now : string) (items : list json) : result json :=
  probes <- for_each pmel_item items [] ;;
  Ok (document now "probes" probes).

(* ---------------------------------------------------------------- *)

(** [range(0, stop, step)] for [0 < step] *)
Definition range0 (stop step : nat) : list nat :=
  map (fun k => k * step) (seq 0 ((stop + step - 1) / step)).

(** [_time, lat, lon = row] *)
Definition unpack3 (row : json) : result (json * json * json) :=
  l <- Py.iter row ;;
  match l with
  | [a; b; c] => Ok (a, b, c)
  | _ => Raise ValueError
  end.

(** The point [[round(lon, 4), round(lat, 4)]] of a row [[time, lat, lon]],
    [None] when a coordinate is [None]. *)
Definition glider_point (row : json) : result (option json) :=
  '(_time, lat, lon) <- unpack3 row ;;
  if negb (is_none lat) && negb (is_none lon) then
    rlon <- Py.round lon 4 ;;
    rlat <- Py.round lat 4 ;;
    Ok (Some (JList [rlon; rlat]))
  else Ok None.

(** The body of [for i in range(0, len(rows), step):] *)
Definition glider_step (rows : json) (i : nat) (track : list json)
  : result (list json) :=
  row <- Py.index rows i ;;
  p <- glider_point row ;;
  match p with
  | Some pt => Ok (track ++ [pt])
  | None => Ok track
  end.

(** [if not track or track[-1] != last_pt: track.append(last_pt)] *)
Definition append_last (track : list json) (last_pt : json) : list json :=
  match track with
  | [] => track ++ [last_pt]
  | _ => if negb (Py.eqb (List.last track JNull) last_pt)
         then track ++ [last_pt] else track
  end.

(** The [try] block of [fetch_glider_track] after the answer is decoded. *)
Definition glider_track (data : json) : result (list json) :=
  table <- Py.get data "table" (JDict []) ;;
  rows <- Py.get table "rows" (JList []) ;;
  if negb (truthy rows) then Ok []
  else
    n <- Py.len rows ;;
    let step := Nat.max 1 (n / 200) in
    track <- for_each (glider_step rows) (range0 n step) [] ;;
    last_row <- Py.last rows ;;
    last <- glider_point last_row ;;
    match last with
    | Some last_pt => Ok (append_last track last_pt)
    | None => Ok track
    end.

(** [fetch_glider_track(dataset_id, erddap_base)]: the answer of the request
    is [fetch_json net], [None] for a failure or a status that is not 200;
    every exception gives the empty track. *)
Definition fetch_glider_track (net : network) (dataset_id : json)
  (erddap_base : string) : list json :=
  match fetch_json net (GLIDER_URL erddap_base dataset_id) with
  | None => []
  | Some data => try_except (glider_track data) []
  end.

(** [r[0] is not None and r[1] is not None] *)
Definition drifter_row_ok (r : json) : result bool :=
  lat <- Py.index r 0 ;;
  if is_none lat then Ok false
  else lon <- Py.index r 1 ;; Ok (negb (is_none lon)).

(** The body of the list comprehension of [update_drifters], rows being
    [[lat, lon, time]]. *)
Definition drifter_step (r : json) (track : list json) : result (list json) :=
  ok <- drifter_row_ok r ;;
  if ok then
    lon <- Py.index r 1 ;;
    rlon <- Py.round lon 4 ;;
    lat <- Py.index r 0 ;;
    rlat <- Py.round lat 4 ;;
    Ok (track ++ [JList [rlon; rlat]])
  else Ok track.

(** [[[round(r[1], 4), round(r[0], 4)] for r in rows if ...]] *)
Definition drifter_points (rows : json) : result (list json) :=
  l <- Py.iter rows ;;
  for_each drifter_step l [].

(** The ["track"] entry of a drifter record: [track[-200:]]. *)
Definition drifter_track (rows : json) : result (list json) :=
  track <- drifter_points rows ;;
  Ok (Py.lastn 200 track).

(* ---------------------------------------------------------------- *)

(** [[round(c[0], 4), round(c[1], 4)]] *)
Definition lon_lat_point (c : json) : result json :=
  c0 <- Py.index c 0 ;;
  r0 <- Py.round c0 4 ;;
  c1 <- Py.index c 1 ;;
  r1 <- Py.round c1 4 ;;
  Ok (JList [r0; r1]).

(** [[[round(c[0], 4), round(c[1], 4)] for c in coords[-100:]]] *)
Definition last_100_points (coords : json) : result (list json) :=
  tail <- Py.slice_last coords 100 ;;
  l <- Py.iter tail ;;
  for_each (fun c track => p <- lon_lat_point c ;; Ok (track ++ [p])) l [].

(** The live track of a drifter: the points of the rows of the answer, [None]
    where the code goes on to the geometry of the item. *)
Definition drifter_live (net : network) (source_url : json)
  : result (option (list json)) :=
  if negb (truthy source_url) then Ok None
  else
    has <- Py.contains "erddap" source_url ;;
    if negb has then Ok None
    else
      match source_url with
      | JStr url =>
          let erddap_base := PyStr.rstrip_chr "/" url in
          let dataset_id :=
            if PyStr.contains "/" erddap_base
            then List.last (PyStr.split "/" erddap_base) ""
            else "" in
          if String.eqb dataset_id "" then Ok None
          else
            match fetch_json net (DRIFTER_URL erddap_base) with
            | None => Ok None
            | Some data =>
                if negb (truthy data) then Ok None
                else
                  has_table <- Py.contains "table" data ;;
                  if negb has_table then Ok None
                  else
                    table <- Py.getitem data "table" ;;
                    rows <- Py.get table "rows" (JList []) ;;
                    if negb (truthy rows) then Ok None
                    else
                      track <- drifter_points rows ;;
                      match track with
                      | [] => Ok None
                      | _ => Ok (Some track)
                      end
            end
      | _ => Raise AttributeError
      end.

(** The body of the loop of [update_drifters]. *)
Definition drifter_item (net : network) (item : json) (drifters : list json)
  : result (list json) :=
  props <- Py.get item "properties" (JDict []) ;;
  geom <- Py.get item "geometry" (JDict []) ;;
  id <- Py.get item "id" (JStr "") ;;
  title <- Py.get props "title" id ;;
  source_url <- Py.get props "aquaview:source_url" (JStr "") ;;
  live <- drifter_live net source_url ;;
  match live with
  | Some track =>
      title80 <- Py.slice_to title 80 ;;
      src200 <- Py.slice_to source_url 200 ;;
      Ok (drifters ++ [JDict [("id", id); ("title", title80);
                              ("track", JList (Py.lastn 200 track));
                              ("count", JInt (Z.of_nat (List.length track)));
                              ("src", src200)]])
  | None =>
      coords <- Py.get geom "coordinates" (JList []) ;;
      geom_type <- Py.get geom "type" (JStr "") ;;
      is_point <- (if Py.eqb geom_type (JStr "Point")
                   then n <- Py.len coords ;; Ok (2 <=? n) else Ok false) ;;
      if is_point then
        title80 <- Py.slice_to title 80 ;;
        p <- lon_lat_point coords ;;
        src200 <- Py.slice_to source_url 200 ;;
        Ok (drifters ++ [JDict [("id", id); ("title", title80);
                                ("track", JList [p]); ("count", JInt 1);
                                ("src", src200)]])
      else Ok drifters
  end.

(** [update_drifters()] *)
Definition update_drifters (net : network) (now : string) (items : list json)
  : result json :=
  drifters <- for_each (drifter_item net) items [] ;;
  Ok (document now "drifters" drifters).

(* ---------------------------------------------------------------- *)

Definition glider_keywords : list string :=
  ["glider"; "slocum"; "spray"; "seaglider"; "sg"; "ru"; "usf"].

(** The track taken from the item itself when the trajectory has fewer than
    two points; [None] where the item is skipped. *)
Definition glider_fallback (item geom : json) : result (option (list json)) :=
  coords <- Py.get geom "coordinates" (JList []) ;;
  geom_type <- Py.get geom "type" (JStr "") ;;
  is_line <- (if Py.eqb geom_type (JStr "LineString")
              then n <- Py.len coords ;; Ok (2 <=? n) else Ok false) ;;
  if is_line then track <- last_100_points coords ;; Ok (Some track)
  else if Py.eqb geom_type (JStr "Point") then
    p <- lon_lat_point coords ;; Ok (Some [p])
  else if Py.eqb geom_type (JStr "MultiPoint") then
    track <- last_100_points coords ;; Ok (Some track)
  else
    bbox <- Py.get item "bbox" JNull ;;
    has_bbox <- (if truthy bbox then n <- Py.len bbox ;; Ok (4 <=? n) else Ok false) ;;
    if has_bbox then
      b0 <- Py.index bbox 0 ;; b2 <- Py.index bbox 2 ;;
      sx <- Py.add b0 b2 ;; cx <- Py.halve sx ;;
      b1 <- Py.index bbox 1 ;; b3 <- Py.index bbox 3 ;;
      sy <- Py.add b1 b3 ;; cy <- Py.halve sy ;;
      rx <- Py.round cx 4 ;; ry <- Py.round cy 4 ;;
      Ok (Some [JList [rx; ry]])
    else Ok None.

(** The body of the loop of [update_gliders]; [urlparse] gives the
    ["scheme://netloc"] of a source URL, [None] where it raises. *)
Definition glider_item (net : network) (urlparse : json -> option string)
  (item : json) (gliders : list json) : result (list json) :=
  props <- Py.get item "properties" (JDict []) ;;
  geom <- Py.get item "geometry" (JDict []) ;;
  id <- Py.get item "id" (JStr "") ;;
  title <- Py.get props "title" id ;;
  lowered <- Py.lower title ;;
  if negb (existsb (fun kw => Py.substring_in kw lowered) glider_keywords)
  then Ok gliders
  else
    dataset_id <- Py.get item "id" (JStr "") ;;
    erddap_src <- Py.get props "aquaview:source_url" (JStr "") ;;
    has <- Py.contains "erddap" erddap_src ;;
    let erddap_base :=
      if has then
        match urlparse erddap_src with
        | Some origin => (origin ++ "/erddap")%string
        | None => "https://gliders.ioos.us/erddap"
        end
      else "https://gliders.ioos.us/erddap" in
    let track := fetch_glider_track net dataset_id erddap_base in
    track <- (if 1 <? List.length track then Ok (Some track)
              else glider_fallback item geom) ;;
    match track with
    | None => Ok gliders
    | Some track =>
        title80 <- Py.slice_to title 80 ;;
        vars6 <- get_cut props "aquaview:variables" (JList []) 6 ;;
        datetime <- Py.get props "datetime" (JStr "") ;;
        start <- Py.get props "start_datetime" datetime ;;
        end_ <- Py.get props "end_datetime" (JStr "") ;;
        src200 <- Py.slice_to erddap_src 200 ;;
        Ok (gliders ++ [JDict [("id", dataset_id); ("title", title80);
                               ("track", JList track); ("vars", vars6);
                               ("start", start); ("end", end_); ("src", src200)]])
    end.

(** [update_gliders()] *)
Definition update_gliders (net : network) (urlparse : json -> option string)
  (now : string) (items : list json) : result json :=
  gliders <- for_each (glider_item net urlparse) items [] ;;
  Ok (document now "gliders" gliders).

End update_data.

(* ================================================================== *)
(** ** [update_stations.py] *)

Module update_stations.

(** The two parsers of [update_stations.py] are, statement for statement,
    those of [update_data.py]; the column map is filled by a loop there, which
    builds the same dict as the comprehension. *)
Definition parse_ocean_feed := update_data._parse_ocean_feed.
Definition parse_txt_feed := update_data._parse_txt_feed.

(** [fetch_url(url)] of [update_stations.py] catches [URLError], [HTTPError],
    [TimeoutError] and [OSError] only, where [fetch_url] of [update_data.py]
    catches every [Exception]. A request that raises another exception, an
    [http.client.InvalidURL] for a blank in the station id or an
    [IncompleteRead] for a body cut short (both [HTTPException]), gives [None]
    there and raises here: [escapes u] is the exception of such a request,
    [None] for a request that returns or raises one of the four. *)
Definition fetch_url (net : network) (escapes : url -> option pyexc) (u : url)
  : result (option string) :=
  match escapes u with
  | Some e => Raise e
  | None => Ok (fetch_url net u)
  end.

(** [update_station(station)] *)
Definition update_station (net : network) (escapes : url -> option pyexc)
  (station : json) : result (option (Dict.t json)) :=
  station_id <- Py.getitem station "id" ;;
  ocean_text <- fetch_url net escapes (NDBC_OCEAN_URL station_id) ;;
  readings <- parse_ocean_feed ocean_text ;;
  match readings with
  | Some (kv :: r) => Ok readings
  | _ =>
      txt_text <- fetch_url net escapes (NDBC_TXT_URL station_id) ;;
      Ok (parse_txt_feed txt_text)
  end.

(** The body of [for station in data["stations"]:] of [main]; its merge is,
    statement for statement, that of [update_ndbc_hypoxia]. *)
Definition main_station (net : network) (escapes : url -> option pyexc)
  (station : json) : result json :=
  readings <- update_station net escapes station ;;
  match readings, station with
  | Some (kv :: r), JDict d => d' <- update_data.merge_station d (kv :: r) ;; Ok (JDict d')
  | _, _ => Ok station
  end.

End update_stations.


(* ================================================================== *)
(** ** Trajectories whose rows are well formed *)

Module Track.

(** A coordinate of a row: a number or [None]. *)
Definition is_coord (v : json) : bool := is_none v || Py.is_number v.

(** [round(v, 4)] on a number *)
Definition round4 (v : json) : json :=
  match v with
  | JFloat x => JFloat (PyFloat.round x 4)
  | JBool b => JInt (if b then 1 else 0)
  | _ => v
  end.

(** The point [[lon, lat]] of a row, [None] when a coordinate is [None]. *)
Definition point (lat lon : json) : option json :=
  if negb (is_none lat) && negb (is_none lon)
  then Some (JList [round4 lon; round4 lat])
  else None.

(** A row [[time, lat, lon]] of a glider trajectory. *)
Definition glider_row (r : json * json * json) : json :=
  let '(time, lat, lon) := r in JList [time; lat; lon].

Definition glider_coords_ok (r : json * json * json) : bool :=
  let '(_, lat, lon) := r in is_coord lat && is_coord lon.

Definition glider_point_of (r : json * json * json) : option json :=
  let '(_, lat, lon) := r in point lat lon.

(** A row [[lat, lon, time]] of a drifter trajectory. *)
Definition drifter_row (r : json * json * json) : json :=
  let '(lat, lon, time) := r in JList [lat; lon; time].

Definition drifter_coords_ok (r : json * json * json) : bool :=
  let '(lat, lon, _) := r in is_coord lat && is_coord lon.

Definition drifter_point_of (r : json * json * json) : option json :=
  let '(lat, lon, _) := r in point lat lon.

(** The answer of the trajectory endpoint for the rows [rows]. *)
Definition answer (rows : list json) : json :=
  JDict [("table", JDict [("columnNames", JList [JStr "time"; JStr "latitude"; JStr "longitude"]);
                          ("rows", JList rows)])].

Definition to_list {A : Type} (o : option A) : list A :=
  match o with
  | Some a => [a]
  | None => []
  end.

(** The points of the rows at the indices [idxs], in order. *)
Definition sel (pts : list (option json)) (idxs : list nat) : list json :=
  flat_map (fun i => to_list (nth i pts None)) idxs.

(** The row at index [i] has a point. *)
Definition has (pts : list (option json)) (i : nat) : bool :=
  match nth i pts None with
  | Some _ => true
  | None => false
  end.

(** The points of all rows, in order. *)
Definition somes (pts : list (option json)) : list json :=
  flat_map to_list pts.

(** The indices, counted from [base], of the rows that have a point. *)
Fixpoint idx_somes (base : nat) (pts : list (option json)) : list nat :=
  match pts with
  | [] => []
  | Some _ :: pts' => base :: idx_somes (S base) pts'
  | None :: pts' => idx_somes (S base) pts'
  end.

(** Each point of [track] is the point of the row whose index stands at the
    same place in [idxs]. *)
Definition picks (pts : list (option json)) (idxs : list nat) (track : list json)
  : Prop :=
  Forall2 (fun i p => nth_error pts i = Some (Some p)) idxs track.

(** [track] comes from rows of strictly increasing index. *)
Definition in_row_order (pts : list (option json)) (track : list json) : Prop :=
  exists idxs, StronglySorted lt idxs /\ picks pts idxs track.

(** [track] ends with [p], or with a point that [==] finds equal to [p]. *)
Definition ends_with (track : list json) (p : json) : Prop :=
  track <> []
  /\ (List.last track JNull = p \/ Py.eqb (List.last track JNull) p = true).

Fixpoint increasing (l : list nat) : bool :=
  match l with
  | a :: (b :: _) as l' => (a <? b) && increasing l'
  | _ => true
  end.

End Track.

(* ================================================================== *)
(** ** Concrete inputs *)

Module Inputs.

Definition nl : string := String "010"%char "".

(** The number [n * 10 ^ k] as JSON decodes it. *)
Definition num (n k : Z) : json := JFloat (PyFloat.of_decimal (n <? 0)%Z (Z.abs n) k).

(** The float that [s] denotes, NaN when it denotes none. *)
Definition lit (s : string) : PyFloat.float :=
  match PyNum.float_of_str s with
  | Some v => v
  | None => S754_nan
  end.

(** *** The hypoxia merge *)

Definition current_do_temp : Dict.t json := [("do", JInt 5); ("temp", JInt 20)].
Definition reading_temp_sal : Dict.t json := [("temp", JInt 21); ("sal", JInt 30)].
Definition merged_do_temp_sal : Dict.t json :=
  [("do", JInt 5); ("temp", JInt 21); ("sal", JInt 30)].

Definition station_42001 : Dict.t json :=
  [("id", JStr "42001"); ("name", JStr "Mid Gulf"); ("current", JDict current_do_temp)].

Definition current_with_obs : Dict.t json :=
  [("do", JInt 5); ("last_obs", JStr "2024-01-01T00:00:00+00:00")].
Definition reading_with_timestamp : Dict.t json :=
  [("temp", JInt 21); ("timestamp", JStr "2024-01-15T12:30:00+00:00")].

(** *** Telemetry texts *)

Definition ocean_header : string :=
  "#YY  MM DD hh mm   DEPTH  OTMP   COND   SAL   O2%   O2PPM  CLCON  TURB  PH  EH".
Definition ocean_units : string :=
  "#yr  mo dy hr mn       m  degC  mS/cm   psu     %     ppm   ug/l   FTU   -  mv".

(** An ocean feed whose only row has a date and no valid reading. *)
Definition ocean_all_missing : string :=
  ocean_header ++ nl ++ ocean_units ++ nl ++
  "2024 01 15 12 30     1.0  MM    MM   MM    MM      MM     MM    MM  MM  MM" ++ nl.

Definition met_header : string :=
  "#YY  MM DD hh mm WDIR WSPD GST  WVHT   DPD   APD MWD   PRES  ATMP  WTMP  DEWP  VIS PTDY  TIDE".
Definition met_units : string :=
  "#yr  mo dy hr mn degT m/s  m/s     m   sec   sec degT   hPa  degC  degC  degC  nmi  hPa    ft".
Definition met_row : string :=
  "2024 01 15 12 30 150  5.0  7.0   1.2     8   5.5 140 1013.2  20.1  22.3  18.0   MM   MM    MM".

(** A meteorological feed with a wind direction of 150 degrees. *)
Definition met_text : string :=
  met_header ++ nl ++ met_units ++ nl ++ met_row ++ nl.

(** A feed whose header row names WTMP first, with water temperatures
    below 50 in every row. *)
Definition wtmp_first_text : string :=
  "WTMP #YY MM DD hh mm" ++ nl ++
  "degC #yr mo dy hr mn" ++ nl ++
  "22.3 2024 01 15 12 30" ++ nl ++
  "22.1 2024 01 15 12 00" ++ nl.

(** A row that has the sentinel [999.0] in the column WTMP. *)
Definition sentinel_headers : list string := ["#YY"; "MM"; "DD"; "hh"; "mm"; "WTMP"].
Definition sentinel_parts : list string := ["2024"; "01"; "15"; "12"; "30"; "999.0"].
Definition reading_98_9 : list string := ["2024"; "01"; "15"; "12"; "30"; "98.9"].

Definition ocean_all_missing_state : update_data.ocean_state :=
  update_data.mk_ocean_state update_data.readings0 (Some "2024-01-15T12:30:00+00:00").

(** *** Discovery and live answers *)

Definition dec (i : nat) : string := NilEmpty.string_of_uint (Nat.to_uint i).

(** A feature with a point geometry, as the discovery endpoint returns it. *)
Definition point_feature (sid : string) (lon lat : PyFloat.float) (title : string)
  : json :=
  JDict [("id", JStr sid);
         ("geometry", JDict [("type", JStr "Point");
                             ("coordinates", JList [JFloat lon; JFloat lat])]);
         ("properties", JDict [("title", JStr title)])].

(** The feature of the end-to-end scenario. *)
Definition buoy_42001 (sid : string) : json :=
  point_feature sid (lit "-90.1234567") (lit "25.7654321") "Buoy 42001".

(** 201 buoys, [NDBC_0] to [NDBC_200]. *)
Definition buoys_201 : list json :=
  map (fun i => point_feature ("NDBC_" ++ dec i) (lit "-90.5") (lit "27.25")
                  ("Station " ++ dec i))
      (seq 0 201).

(** A run in which the telemetry of station 0 cannot be fetched and every
    other station answers. *)
Definition net_first_fails : network :=
  mk_network
    (fun u =>
       match u with
       | NDBC_TXT_URL (JStr "0") => None
       | NDBC_TXT_URL _ => Some met_text
       | _ => None
       end)
    (fun _ => None).

(** An answer of the tide-level API whose latest reading has no value. *)
Definition coops_answer_without_v : json :=
  JDict [("metadata", JDict [("id", JStr "8761724"); ("name", JStr "Grand Isle")]);
         ("data", JList [JDict [("t", JStr "2024-01-15 12:00"); ("s", JStr "0.000");
                                ("f", JStr "1,0,0,0"); ("q", JStr "p")]])].

Definition net_coops_without_v : network :=
  mk_network (fun _ => None) (fun _ => Some coops_answer_without_v).

Definition tide_station : json :=
  point_feature "COOPS_8761724" (lit "-89.9567") (lit "29.2633") "Grand Isle".

(** What the run of [net_first_fails] on [buoys_201] is checked for: 201
    requests, the last of them for station 200, 200 readings obtained, and a
    live reading in the record of station 200, the one after the first 200. *)
Definition cap_exceeded (r : result update_data.met_state) : bool :=
  match r with
  | Ok st =>
      (List.length (update_data.requests st) =? 201)
      && (update_data.fetched st =? 200)
      && match nth_error (update_data.requests st) 200 with
         | Some (NDBC_TXT_URL (JStr s)) => String.eqb s "200"
         | _ => false
         end
      && match nth_error (update_data.buoys st) 200 with
         | Some (JDict record) =>
             Dict.mem "current" record
             && match Dict.get "id" record with
                | Some (JStr s) => String.eqb s "200"
                | _ => false
                end
         | _ => false
         end
  | Raise _ => false
  end.

(** *** Trajectories *)

(** A trajectory of 1000 rows, all with coordinates, no two alike. *)
Definition rows_1000 : list (json * json * json) :=
  map (fun i => (JStr ("2024-01-15T" ++ dec i),
                 num (2500 + Z.of_nat i) (-2), num (- 9000 - Z.of_nat i) (-2)))
      (seq 0 1000).

Definition glider_base : string := "https://gliders.ioos.us/erddap".

Definition net_glider_1000 : network :=
  mk_network (fun _ => None)
             (fun u =>
                match u with
                | GLIDER_URL _ _ => Some (Track.answer (map Track.glider_row rows_1000))
                | _ => None
                end).

End Inputs.

(* ================================================================== *)
(** ** The vocabulary of the statements *)

(** What the claim says of the merged mapping, key by key. *)
Definition merge_law (current readings merged : Dict.t json) : Prop :=
  forall k,
    Dict.get k merged =
    match Dict.get k readings with
    | Some v => Some v
    | None => Dict.get k current
    end.

(** The key a reading is stored under. *)
Definition stored_key (key : string) : string :=
  if String.eqb key "timestamp" then "last_obs" else key.

(** The items of the reading under the keys they are stored under, the last
    one written first. *)
Definition stored (items : Dict.t json) : Dict.t json :=
  map (fun kv => (stored_key (fst kv), snd kv)) (rev items).

(** The timestamp of a scan is [None] or a text that is not empty. *)
Definition timestamp_ok (ts : option string) : Prop :=
  forall s, ts = Some s -> String.eqb s "" = false.

(** The document holds a list of records under [key] and its length under
    [count]. *)
Definition count_matches (doc : json) (key : string) : Prop :=
  exists records,
    Py.getitem doc key = Ok (JList records)
    /\ Py.getitem doc "count" = Ok (JInt (Z.of_nat (List.length records))).

(** The record of a feature that has a point geometry, two coordinates that
    are floats, a title and no list of variables. *)
Definition buoy_record (sid : string) (lon lat : PyFloat.float) (title : string)
  : Dict.t json :=
  [("id", JStr (List.last (PyStr.split "_" sid) ""));
   ("lat", JFloat (PyFloat.round lat 4));
   ("lon", JFloat (PyFloat.round lon 4));
   ("title", JStr (PyStr.take 80 title));
   ("vars", JList [])].

(** A record without live reading. *)
Definition no_current (s : json) : Prop :=
  exists d, s = JDict d /\ Dict.mem "current" d = false.

(* ================================================================== *)
(** ** The drivers of the two scripts *)

(** What a run of a script receives from outside: the telemetry and tide
    answers, the answer of the discovery query of each collection, the text of
    the current-vector grid, the clock read when a category is written, and
    [urlparse]. *)
Record environment : Type := mk_environment {
  net : network;
  discovery : string -> option json;
  currents : option string;
  clock : string -> string;
  urlparse : json -> option string
}.

(** The files under [docs/data]: [None] for a file that does not exist. *)
Record files : Type := mk_files {
  latest_json : option json;
  currents_json : option string;
  ioos_sensors_json : option json;
  ndbc_met_json : option json;
  coops_json : option json;
  gliders_json : option json;
  drifters_json : option json;
  incidents_json : option json;
  pmel_json : option json
}.

(** What a run of [update_stations.py] receives besides: the exceptions that
    its [fetch_url] does not catch, [escapes u] for the request of a feed and
    [currents_escape] for the request of the current vectors; [None] for a
    request that returns or raises an exception that is caught. *)
Record uncaught : Type := mk_uncaught {
  escapes : url -> option pyexc;
  currents_escape : option pyexc
}.

Module update_data_main.

(** [fetch_aquaview_items(collection, limit, extra_params)], from the answer
    [data] of [fetch_json]. *)
Definition fetch_aquaview_items (data : option json) : result json :=
  match data with
  | None => Ok (JList [])
  | Some data =>
      if negb (truthy data) then Ok (JList [])
      else
        has <- Py.contains "features" data ;;
        if has then
          items <- Py.getitem data "features" ;;
          _ <- Py.len items ;;
          Ok items
        else Ok (JList [])
  end.

(** [items = fetch_aquaview_items(...)] followed by [for item in items:] *)
Definition items_of (data : option json) : result (list json) :=
  items <- fetch_aquaview_items data ;;
  Py.iter items.

(** [update_currents()]: the file after the call and the value returned. *)
Definition update_currents (data : option string) (file : option string)
  : option string * bool :=
  match data with
  | Some (String c text) => (Some (String c text), true)
  | _ => (file, false)
  end.

(** The seven extractors, from the discovery answer to the document that
    [save_json] writes. *)
Definition ioos_sensors (env : environment) : result json :=
  items <- items_of (discovery env "IOOS_SENSORS") ;;
  update_data.update_ioos_sensors (clock env "ioos_sensors.json") items.

Definition ndbc_met (env : environment) : result json :=
  items <- items_of (discovery env "NDBC") ;;
  update_data.update_ndbc_met (net env) (clock env "ndbc_met.json") items.

Definition coops (env : environment) : result json :=
  items <- items_of (discovery env "COOPS") ;;
  update_data.update_coops (net env) (clock env "coops.json") items.

Definition gliders (env : environment) : result json :=
  items <- items_of (discovery env "IOOS") ;;
  update_data.update_gliders (net env) (urlparse env) (clock env "gliders.json") items.

Definition drifters (env : environment) : result json :=
  items <- items_of (discovery env "NOAA_GDP") ;;
  update_data.update_drifters (net env) (clock env "drifters.json") items.

Definition incidents (env : environment) : result json :=
  items <- items_of (discovery env "INCIDENT_NEWS") ;;
  update_data.update_incidents (clock env "incidents.json") items.

Definition pmel (env : environment) : result json :=
  items <- items_of (discovery env "PMEL") ;;
  update_data.update_pmel (clock env "pmel.json") items.

(** [try: update_x() except Exception: print(...)] on the file of the
    category: written when the extractor returns, left as it is when the
    extractor raises. *)
Definition written (doc : result json) (file : option json) : option json :=
  match doc with
  | Ok d => Some d
  | Raise _ => file
  end.

(** The same for the hypoxia stations, which write nothing when
    [latest.json] does not exist. *)
Definition written_latest (doc : result (option json)) (file : option json)
  : option json :=
  match doc with
  | Ok (Some d) => Some d
  | _ => file
  end.

(** [main()] of [update_data.py]: the nine categories in their order, each
    in its own [try]. *)
Definition main (env : environment) (fs : files) : files :=
  mk_files
    (written_latest
       (update_data.update_ndbc_hypoxia (net env) (clock env "latest.json")
          (latest_json fs))
       (latest_json fs))
    (fst (update_currents (currents env) (currents_json fs)))
    (written (ioos_sensors env) (ioos_sensors_json fs))
    (written (ndbc_met env) (ndbc_met_json fs))
    (written (coops env) (coops_json fs))
    (written (gliders env) (gliders_json fs))
    (written (drifters env) (drifters_json fs))
    (written (incidents env) (incidents_json fs))
    (written (pmel env) (pmel_json fs)).

End update_data_main.

Module update_stations_main.

(** The loop of [main] over the stations. *)
Fixpoint stations_loop (net : network) (escapes : url -> option pyexc)
  (stations : list json) : result (list json) :=
  match stations with
  | [] => Ok []
  | station :: stations' =>
      _ <- Py.getitem station "id" ;;
      station' <- update_stations.main_station net escapes station ;;
      rest <- stations_loop net escapes stations' ;;
      Ok (station' :: rest)
  end.

(** [main()] from the load of [latest.json] to the document it writes back:
    [None] when the file does not exist, an exception when one is raised,
    since nothing is caught there. *)
Definition updated_latest (env : environment) (unc : uncaught) (file : option json)
  : result (option json) :=
  match file with
  | None => Ok None
  | Some data =>
      stations <- Py.getitem data "stations" ;;
      _ <- Py.len stations ;;
      _ <- Py.get data "updated" (JStr "unknown") ;;
      l <- Py.iter stations ;;
      l' <- stations_loop (net env) (escapes unc) l ;;
      let stations' := match stations with JList _ => JList l' | _ => stations end in
      data <- Py.setitem data "stations" stations' ;;
      data <- Py.setitem data "updated" (JStr (clock env "latest.json")) ;;
      Ok (Some data)
  end.

(** [main()] of [update_stations.py]: the files it leaves and the exception
    that ends it, if one does. An exception of the loop leaves every file as
    it was; [latest.json] is written before the current vectors are asked
    for, so an exception of that request leaves the new [latest.json]. *)
Definition main (env : environment) (unc : uncaught) (fs : files)
  : files * option pyexc :=
  match updated_latest env unc (latest_json fs) with
  | Raise e => (fs, Some e)
  | Ok None => (fs, None)
  | Ok (Some data) =>
      let written (currents_file : option string) :=
        mk_files (Some data) currents_file
          (ioos_sensors_json fs) (ndbc_met_json fs) (coops_json fs)
          (gliders_json fs) (drifters_json fs) (incidents_json fs) (pmel_json fs) in
      match currents_escape unc with
      | Some e => (written (currents_json fs), Some e)
      | None =>
          (written (fst (update_data_main.update_currents (currents env)
                           (currents_json fs))),
           None)
      end
  end.

End update_stations_main.

(* ================================================================== *)
(** ** The vocabulary of the further statements *)

(** The number of occurrences of [c] in [s]. *)
Fixpoint count_chr (c : ascii) (s : string) : nat :=
  match s with
  | EmptyString => 0
  | String d s' => (if Ascii.eqb d c then 1 else 0) + count_chr c s'
  end.

Definition newline : ascii := "010".

(** The fields of the three feed parsers. *)
Definition ocean_names : list string := ["do"; "temp"; "sal"; "ph"; "turb"].
Definition met_names : list string :=
  ["wspd"; "wdir"; "wvht"; "dpd"; "pres"; "atmp"; "wtmp"].

(** A float for which [x >= bound] is false. *)
Definition float_not_ge (bound : PyFloat.float) (v : json) : Prop :=
  exists x, v = JFloat x /\ PyFloat.geb x bound = false.

(** A float for which [x < bound] is true. *)
Definition float_lt (bound : PyFloat.float) (v : json) : Prop :=
  exists x, v = JFloat x /\ PyFloat.ltb x bound = true.

(** The lines [l] as one text. *)
Fixpoint join_lines (l : list string) : string :=
  match l with
  | [] => ""
  | [x] => x
  | x :: l' => x ++ String newline (join_lines l')
  end.

(** An ocean feed of 48 rows without reading, followed by the row [last]. *)
Definition ocean_feed_49_rows (last : string) : string :=
  join_lines
    (Inputs.ocean_header :: Inputs.ocean_units
     :: repeat "2024 01 15 12 30 1.0 MM MM MM MM MM MM MM MM MM" 48 ++ [last]).

(** An entry of the mapping that the ocean feed parser returns. *)
Definition ocean_entry (kv : string * json) : Prop :=
  (fst kv = "timestamp" /\ exists s, snd kv = JStr s /\ s <> "")
  \/ (In (fst kv) ocean_names /\ float_not_ge Feed.f99 (snd kv)).

(** What the scan of the ocean feed keeps true of [readings]. *)
Definition ocean_inv (r : Dict.t json) : Prop :=
  Dict.keys r = ocean_names
  /\ Forall (fun kv => snd kv = JNull \/ float_not_ge Feed.f99 (snd kv)) r.

(** An entry of the mapping that the meteorological parser returns. *)
Definition met_entry (kv : string * json) : Prop :=
  In (fst kv) met_names /\ float_lt Feed.f999 (snd kv).

(** An ocean feed: a row without reading, a row with oxygen, temperature and
    salinity, and an older row that has a pH as well. *)
Definition ocean_feed_with_readings : string :=
  join_lines
    [Inputs.ocean_header; Inputs.ocean_units;
     "2024 01 15 12 30 1.0 MM MM MM MM MM MM MM MM MM";
     "2024 01 15 12 00 1.0 21.5 MM 35.1 MM 6.2 MM MM MM MM";
     "2024 01 15 11 30 1.0 22.0 MM 35.0 MM 6.0 MM MM 8.1 MM"].

(** The dissolved oxygen and the temperature are both found. *)
Definition both_found (st : update_data.ocean_state) : bool :=
  negb (update_data.reading_is_none "do" (update_data.readings st))
  && negb (update_data.reading_is_none "temp" (update_data.readings st)).

(** What the scan of the meteorological feed keeps true of [readings]. *)
Definition met_inv (r : Dict.t json) : Prop :=
  NoDup (Dict.keys r) /\ Forall met_entry r.


(** The record has a live reading. *)
Definition has_current (record : json) : bool :=
  match record with
  | JDict d => Dict.mem "current" d
  | _ => false
  end.

(** The number of records that have a live reading. *)
Definition count_live (records : list json) : nat :=
  List.length (filter has_current records).

(** What the loop of [update_ndbc_met] keeps true of its state. *)
Definition met_loop_inv (st : update_data.met_state) : Prop :=
  update_data.fetched st <= 200
  /\ update_data.fetched st = count_live (update_data.buoys st)
  /\ update_data.fetched st <= List.length (update_data.requests st)
  /\ List.length (update_data.requests st) <= List.length (update_data.buoys st).

(** The feature has [null] for geometry. *)
Definition null_geometry (item : json) : Prop :=
  exists d, item = JDict d /\ Dict.get "geometry" d = Some JNull.

(** The feature has a point geometry and no coordinates. *)
Definition point_without_coordinates (item : json) : Prop :=
  exists d g,
    item = JDict d
    /\ Dict.get "geometry" d = Some (JDict g)
    /\ Dict.get "type" g = Some (JStr "Point")
    /\ Dict.get "coordinates" g = None.

(** The entry [key] of the record is a string or a list of at most [n]
    characters or elements. *)
Definition capped (key : string) (n : nat) (record : json) : Prop :=
  exists v m, Py.getitem record key = Ok v /\ Py.len v = Ok m /\ m <= n.

(** The discovery query failed, or its answer has no [features]. *)
Definition no_features (data : option json) : Prop :=
  data = None \/ exists d, data = Some (JDict d) /\ Dict.mem "features" d = false.

(** The date of the first record is not before the date of the second. *)
Definition not_before (x y : json) : Prop :=
  exists kx ky,
    update_data.date_key x = JStr kx /\ update_data.date_key y = JStr ky
    /\ String.ltb kx ky = false.

(** The keys of the two pairs are strings, and the key of the first is not
    smaller than the key of the second. *)
Definition key_not_before (p q : json * json) : Prop :=
  exists kp kq,
    fst p = JStr kp /\ fst q = JStr kq /\ String.ltb kp kq = false.

(** The key of the pair is a string. *)
Definition string_keyed (p : json * json) : Prop := exists s, fst p = JStr s.

(** The date of the record is a string. *)
Definition string_date (x : json) : Prop :=
  exists s, update_data.date_key x = JStr s.

(** Further inputs of the statements. *)
Module MoreInputs.

(** An incident with a range of dates, its [datetime] being [null]. *)
Definition incident_without_datetime (sid : string) : json :=
  JDict [("id", JStr sid);
         ("geometry", JDict [("type", JStr "Point");
                             ("coordinates",
                              JList [JFloat (Inputs.lit "-90.5"); JFloat (Inputs.lit "27.25")])]);
         ("properties", JDict [("title", JStr "Spill");
                               ("datetime", JNull);
                               ("start_datetime", JStr "2024-01-10T00:00:00Z")])].

(** The record [update_incidents] builds for it. *)
Definition incident_record (sid : string) : json :=
  JDict [("id", JStr sid); ("title", JStr "Spill");
         ("lat", JFloat (Inputs.lit "27.25")); ("lon", JFloat (Inputs.lit "-90.5"));
         ("date", JNull); ("desc", JStr ""); ("url", JStr "")].

(** A run in which the [.ocean] feed of every station has a date and only
    missing values, and the [.txt] feed has a water temperature of 22.3. *)
Definition net_ocean_all_missing : network :=
  mk_network
    (fun u =>
       match u with
       | NDBC_OCEAN_URL _ => Some Inputs.ocean_all_missing
       | NDBC_TXT_URL _ => Some Inputs.met_text
       | _ => None
       end)
    (fun _ => None).

(** A trajectory of 399 rows, and a run that answers with it. *)
Definition rows_399 : list (json * json * json) := firstn 399 Inputs.rows_1000.

Definition net_glider_399 : network :=
  mk_network (fun _ => None)
             (fun u =>
                match u with
                | GLIDER_URL _ _ => Some (Track.answer (map Track.glider_row rows_399))
                | _ => None
                end).

End MoreInputs.

(** When the extractor returns, it returns the document of [key] with
    records that all satisfy [P]. *)
Definition returns_records (r : result json) (now key : string) (P : json -> Prop)
  : Prop :=
  forall doc, r = Ok doc ->
    exists records, doc = update_data.document now key records /\ Forall P records.

(** The answer of a discovery query whose [features] are [items]. *)
Definition features_are (data : option json) (items : list json) : Prop :=
  exists d, data = Some (JDict d) /\ Dict.get "features" d = Some (JList items).

(** The answer of a trajectory request whose rows are [rows]. *)
Definition rows_are (data : option json) (rows : list json) : Prop :=
  exists d t,
    data = Some (JDict d)
    /\ Dict.get "table" d = Some (JDict t)
    /\ Dict.get "rows" t = Some (JList rows).

(** An environment in which no discovery query is answered. *)
Definition silent : environment :=
  mk_environment (mk_network (fun _ => None) (fun _ => None))
                 (fun _ => None) None (fun _ => "2024-01-15T12:05:00Z")
                 (fun _ => None).

(** No file under [docs/data]. *)
Definition no_files : files :=
  mk_files None None None None None None None None None.

(** The drifter [item] names an ERDDAP dataset whose request is answered with
    [rows]. *)
Definition drifter_rows_are (net : network) (item : json) (rows : list json)
  : Prop :=
  exists d p url,
    item = JDict d
    /\ Dict.get "properties" d = Some (JDict p)
    /\ Dict.get "aquaview:source_url" p = Some (JStr url)
    /\ Py.substring_in "erddap" url = true
    /\ PyStr.contains "/" (PyStr.rstrip_chr "/" url) = true
    /\ List.last (PyStr.split "/" (PyStr.rstrip_chr "/" url)) "" <> ""
    /\ rows_are (fetch_json net (DRIFTER_URL (PyStr.rstrip_chr "/" url))) rows.

(* ================================================================== *)
(** ** Tactics *)

(** Opens the [bind]s and tests of a hypothesis [H : ... = Ok _]. *)
Ltac bind_inv H :=
  match type of H with
  | bind ?m _ = Ok _ =>
      let E := fresh "E" in
      destruct m eqn:E; cbn [bind] in H; [|discriminate H]; bind_inv H
  | (if ?b then _ else _) = Ok _ => destruct b; bind_inv H
  | match ?p with (_, _) => _ end = Ok _ => destruct p; bind_inv H
  | _ => idtac
  end.

(* ================================================================== *)
(** ** Dicts *)

Lemma dict_get_set_same {V : Type} (k : string) (v : V) (d : Dict.t V) :
  Dict.get k (Dict.set k v d) = Some v.
Proof.
  induction d as [|[k' v'] d IH]; simpl.
  - now rewrite String.eqb_refl.
  - destruct (String.eqb k k') eqn:E; simpl; rewrite E; auto.
Qed.

Lemma dict_get_set_other {V : Type} (k k0 : string) (v : V) (d : Dict.t V) :
  k <> k0 -> Dict.get k (Dict.set k0 v d) = Dict.get k d.
Proof.
  intros Hne. induction d as [|[k' v'] d IH]; simpl.
  - destruct (String.eqb k k0) eqn:E; auto.
    apply String.eqb_eq in E. contradiction.
  - destruct (String.eqb k0 k') eqn:E0; simpl.
    + apply String.eqb_eq in E0. subst k'.
      destruct (String.eqb k k0) eqn:E; auto.
      apply String.eqb_eq in E. contradiction.
    + destruct (String.eqb k k'); auto.
Qed.

Lemma dict_get_default_set_same {V : Type} (k : string) (v dflt : V) (d : Dict.t V) :
  Dict.get_default k dflt (Dict.set k v d) = v.
Proof. unfold Dict.get_default. now rewrite dict_get_set_same. Qed.

Lemma dict_get_none_notin {V : Type} (k : string) (d : Dict.t V) :
  ~ In k (Dict.keys d) -> Dict.get k d = None.
Proof.
  induction d as [|[k' v'] d IH]; simpl; auto.
  intros H. destruct (String.eqb k k') eqn:E.
  - apply String.eqb_eq in E. subst. tauto.
  - apply IH. tauto.
Qed.

(* ================================================================== *)
(** ** The hypoxia merge *)

Lemma merge_readings_cons (key : string) (val : json) (items current : Dict.t json) :
  update_data.merge_readings ((key, val) :: items) (JDict current)
  = update_data.merge_readings items (JDict (Dict.set (stored_key key) val current)).
Proof.
  simpl. unfold stored_key. destruct (String.eqb key "timestamp"); reflexivity.
Qed.

Lemma dict_get_app {V : Type} (k : string) (d1 d2 : Dict.t V) :
  Dict.get k (d1 ++ d2) =
  match Dict.get k d1 with
  | Some v => Some v
  | None => Dict.get k d2
  end.
Proof.
  induction d1 as [|[k' v'] d1 IH]; simpl; auto.
  destruct (String.eqb k k'); auto.
Qed.

Lemma merge_readings_dict (items : Dict.t json) (current : Dict.t json) :
  exists merged,
    update_data.merge_readings items (JDict current) = Ok (JDict merged)
    /\ forall k,
         Dict.get k merged =
         match Dict.get k (stored items) with
         | Some v => Some v
         | None => Dict.get k current
         end.
Proof.
  revert current. induction items as [|[key val] items IH]; intros current.
  - exists current. split; [reflexivity|]. intros k. reflexivity.
  - rewrite merge_readings_cons.
    destruct (IH (Dict.set (stored_key key) val current)) as [merged [Hm Hget]].
    exists merged. split; [exact Hm|]. intros k. rewrite Hget.
    unfold stored. simpl rev. rewrite map_app, dict_get_app. simpl.
    destruct (Dict.get k (map (fun kv => (stored_key (fst kv), snd kv)) (rev items)));
      [reflexivity|].
    destruct (String.eqb k (stored_key key)) eqn:E.
    + apply String.eqb_eq in E. subst k. apply dict_get_set_same.
    + apply dict_get_set_other. intros ->. now rewrite String.eqb_refl in E.
Qed.

Lemma dict_get_some_in {V : Type} (k : string) (v : V) (d : Dict.t V) :
  Dict.get k d = Some v -> In k (Dict.keys d).
Proof.
  induction d as [|[k' v'] d IH]; simpl; [discriminate|].
  destruct (String.eqb k k') eqn:E.
  - apply String.eqb_eq in E. auto.
  - auto.
Qed.

Lemma dict_get_rev {V : Type} (k : string) (d : Dict.t V) :
  NoDup (Dict.keys d) -> Dict.get k (rev d) = Dict.get k d.
Proof.
  induction d as [|[k' v'] d IH]; intros Hnd; [reflexivity|].
  inversion Hnd as [|? ? Hnotin Hnd']; subst.
  simpl rev. rewrite dict_get_app, IH by assumption. simpl.
  destruct (Dict.get k d) eqn:G.
  - destruct (String.eqb k k') eqn:E; [|reflexivity].
    apply String.eqb_eq in E. subst k'.
    apply dict_get_some_in in G. contradiction.
  - destruct (String.eqb k k'); reflexivity.
Qed.

Lemma stored_key_other (k key : string) :
  k <> "timestamp" -> k <> "last_obs" ->
  String.eqb k (stored_key key) = String.eqb k key.
Proof.
  intros Ht Hl. unfold stored_key.
  destruct (String.eqb key "timestamp") eqn:E; [|reflexivity].
  apply String.eqb_eq in E. subst key.
  destruct (String.eqb k "last_obs") eqn:E1; [apply String.eqb_eq in E1; contradiction|].
  destruct (String.eqb k "timestamp") eqn:E2; [apply String.eqb_eq in E2; contradiction|].
  reflexivity.
Qed.

Lemma get_renamed_other (k : string) (d : Dict.t json) :
  k <> "timestamp" -> k <> "last_obs" ->
  Dict.get k (map (fun kv => (stored_key (fst kv), snd kv)) d) = Dict.get k d.
Proof.
  intros Ht Hl. induction d as [|[k' v'] d IH]; simpl; [reflexivity|].
  rewrite stored_key_other, IH by assumption. reflexivity.
Qed.

Lemma get_renamed_timestamp (d : Dict.t json) :
  Dict.get "timestamp" (map (fun kv => (stored_key (fst kv), snd kv)) d) = None.
Proof.
  induction d as [|[k' v'] d IH]; cbn [Dict.get map fst snd]; [reflexivity|].
  rewrite IH. unfold stored_key.
  destruct (String.eqb k' "timestamp") eqn:E; [reflexivity|].
  rewrite String.eqb_sym, E. reflexivity.
Qed.

Lemma get_renamed_last_obs (d : Dict.t json) :
  Dict.get "last_obs" d = None ->
  Dict.get "last_obs" (map (fun kv => (stored_key (fst kv), snd kv)) d)
  = Dict.get "timestamp" d.
Proof.
  induction d as [|[k' v'] d IH]; cbn [Dict.get map fst snd]; [reflexivity|].
  destruct (String.eqb "last_obs" k') eqn:E; [discriminate|]. intros Hd.
  unfold stored_key. rewrite (String.eqb_sym "timestamp" k').
  destruct (String.eqb k' "timestamp"); [reflexivity|].
  rewrite E. auto.
Qed.

Lemma keys_rev {V : Type} (d : Dict.t V) : Dict.keys (rev d) = rev (Dict.keys d).
Proof. unfold Dict.keys. now rewrite map_rev. Qed.

(** C2, as the spec states it, fails on a reading that carries a timestamp:
    the key [last_obs], absent from the reading, is overwritten, and the key
    [timestamp] of the reading is not added. *)
Lemma hypoxia_merge_renames_timestamp :
  exists merged,
    update_data.merge_readings Inputs.reading_with_timestamp (JDict Inputs.current_with_obs)
    = Ok (JDict merged)
    /\ ~ merge_law Inputs.current_with_obs Inputs.reading_with_timestamp merged.
Proof.
  eexists. split; [reflexivity|].
  intros H. specialize (H "last_obs"). vm_compute in H. discriminate.
Qed.

(** C2 (amended): for a station whose [current] is a mapping, the merge
    replaces [current] alone; in it every key of the reading other than
    [timestamp] holds the reading's value, every other key except [last_obs]
    keeps its old value, the key [timestamp] is never written, and the
    reading's timestamp is stored under [last_obs]. Merging
    [{do: 5, temp: 20}] with [{temp: 21, sal: 30}] gives
    [{do: 5, temp: 21, sal: 30}]. *)
Theorem hypoxia_merge :
  (forall station current readings : Dict.t json,
     Dict.get "current" station = Some (JDict current) ->
     NoDup (Dict.keys readings) ->
     exists merged,
       update_data.merge_station station readings
       = Ok (Dict.set "current" (JDict merged) station)
       /\ (forall k, k <> "timestamp" -> k <> "last_obs" ->
             Dict.get k merged =
             match Dict.get k readings with
             | Some v => Some v
             | None => Dict.get k current
             end)
       /\ Dict.get "timestamp" merged = Dict.get "timestamp" current
       /\ (Dict.get "last_obs" readings = None ->
           Dict.get "last_obs" merged =
           match Dict.get "timestamp" readings with
           | Some ts => Some ts
           | None => Dict.get "last_obs" current
           end))
  /\ update_data.merge_readings Inputs.reading_temp_sal (JDict Inputs.current_do_temp)
     = Ok (JDict Inputs.merged_do_temp_sal).
Proof.
  split; [|reflexivity].
  intros station current readings Hcur Hnd.
  destruct (merge_readings_dict readings current) as [merged [Hm Hget]].
  exists merged. split; [|split; [|split]].
  - unfold update_data.merge_station, Dict.mem, Dict.get_default.
    rewrite Hcur. simpl. rewrite Hcur, Hm. reflexivity.
  - intros k Ht Hl. rewrite Hget. unfold stored.
    rewrite get_renamed_other, dict_get_rev by assumption. reflexivity.
  - rewrite Hget. unfold stored. now rewrite get_renamed_timestamp.
  - intros Hno. rewrite Hget. unfold stored.
    rewrite get_renamed_last_obs by (now rewrite dict_get_rev).
    rewrite dict_get_rev by assumption. reflexivity.
Qed.

Lemma hypoxia_merge_witness :
  exists merged,
    update_data.merge_station Inputs.station_42001 Inputs.reading_temp_sal
    = Ok (Dict.set "current" (JDict merged) Inputs.station_42001)
    /\ Dict.get "sal" merged = Some (JInt 30)
    /\ Dict.get "do" merged = Some (JInt 5).
Proof.
  destruct (proj1 hypoxia_merge Inputs.station_42001 Inputs.current_do_temp
              Inputs.reading_temp_sal) as [merged [H1 [H2 _]]].
  - reflexivity.
  - unfold Inputs.reading_temp_sal. simpl.
    constructor; [simpl; intros [H|[]]; discriminate|].
    constructor; [simpl; tauto|constructor].
  - exists merged. split; [exact H1|]. split.
    + rewrite H2; [reflexivity|discriminate|discriminate].
    + rewrite H2; [reflexivity|discriminate|discriminate].
Defined.

(* ================================================================== *)
(** ** The feed parsers *)

Lemma sentinel_str_in (S : string) : In S Feed.sentinels -> Feed.str_in S Feed.sentinels = true.
Proof.
  intros H. unfold Feed.str_in. apply existsb_exists. exists S.
  split; [assumption|apply String.eqb_refl].
Qed.

Lemma nth_error_lookup {A : Type} (l : list A) (i : nat) (x d : A) :
  nth_error l i = Some x -> (List.length l <=? i) = false /\ nth i l d = x.
Proof.
  intros H. split.
  - apply Nat.leb_gt. apply nth_error_Some. congruence.
  - now apply nth_error_nth.
Qed.

(** No sentinel passes the test of the fallback parser on the value it reads. *)
Lemma sentinel_not_plausible (S : string) :
  In S Feed.sentinels ->
  match PyNum.float_of_str S with
  | Some v => if PyFloat.ltb v Feed.f50 && negb (String.eqb S "MM") then Some v else None
  | None => None
  end = None.
Proof.
  unfold Feed.sentinels. simpl.
  intros [H|[H|[H|[H|[H|[H|[H|[]]]]]]]]; subst S; vm_compute; reflexivity.
Qed.

(** C3: a field whose text is one of the sentinel strings is absent, whatever
    the column, in the closure [get_val] of the ocean feed parser (of both
    scripts), in the closure [get] of the meteorological parser and in a row
    of the fallback parser. *)
Theorem sentinel_is_absent (S : string) (col_map : Dict.t nat)
  (parts : list string) (col : string) (idx : nat) :
  In S Feed.sentinels ->
  Dict.get col col_map = Some idx ->
  nth_error parts idx = Some S ->
  update_data.get_val col_map parts col = None
  /\ update_data.get col_map parts col = None
  /\ (col = "WTMP" -> update_data.txt_row col_map parts = None).
Proof.
  intros HS Hcol Hnth.
  destruct (nth_error_lookup parts idx S "" Hnth) as [Hlen Hval].
  split; [|split].
  - unfold update_data.get_val. rewrite Hcol, Hlen, Hval.
    now rewrite sentinel_str_in.
  - unfold update_data.get. rewrite Hcol, Hlen, Hval.
    now rewrite sentinel_str_in.
  - intros ->. unfold update_data.txt_row. rewrite Hcol, Hval.
    destruct (List.length parts <? 5); [reflexivity|].
    destruct (negb (idx =? 0) && (idx <? List.length parts)); [|reflexivity].
    now apply sentinel_not_plausible.
Qed.

Lemma sentinel_is_absent_witness :
  update_data.get_val (Feed.col_map_of Inputs.sentinel_headers) Inputs.sentinel_parts "WTMP" = None
  /\ update_data.get (Feed.col_map_of Inputs.sentinel_headers) Inputs.sentinel_parts "WTMP" = None
  /\ update_data.txt_row (Feed.col_map_of Inputs.sentinel_headers) Inputs.sentinel_parts = None.
Proof.
  destruct (sentinel_is_absent "999.0" (Feed.col_map_of Inputs.sentinel_headers)
              Inputs.sentinel_parts "WTMP" 5) as [H1 [H2 H3]].
  - simpl. tauto.
  - reflexivity.
  - reflexivity.
  - split; [exact H1|]. split; [exact H2|]. apply H3. reflexivity.
Defined.

(** C4, as the spec states it, fails in the meteorological parser: a wind
    direction of 150 is a value of a field that is not depth, it is not below
    99, and the parser keeps it. *)
Lemma met_parser_keeps_150 :
  exists v r,
    PyNum.float_of_str "150" = Some v
    /\ PyFloat.geb v Feed.f99 = true
    /\ update_data.get (Feed.col_map_of (PyStr.split_ws Inputs.met_header))
         (PyStr.split_ws Inputs.met_row) "WDIR" = Some v
    /\ update_data._parse_ndbc_met_txt (Some Inputs.met_text) = Some r
    /\ Dict.get "wdir" r = Some (JFloat v).
Proof.
  exists (Inputs.lit "150").
  destruct (update_data._parse_ndbc_met_txt (Some Inputs.met_text)) as [r|] eqn:E;
    [|vm_compute in E; discriminate].
  exists r.
  split; [vm_compute; reflexivity|].
  split; [vm_compute; reflexivity|].
  split; [vm_compute; reflexivity|].
  split; [reflexivity|].
  vm_compute in E. injection E as <-. vm_compute. reflexivity.
Qed.

(** C4 (amended): in the ocean feed parser a value that is at least 99 in a
    column other than DEPTH is absent; 98.9 is kept and 99.0 is not, in both
    parsers. The meteorological parser drops a value that is not spelled as
    a sentinel exactly when it is not below 999. *)
Theorem numeric_sentinel_threshold :
  (forall col_map parts col idx v,
     Dict.get col col_map = Some idx ->
     idx < List.length parts ->
     PyNum.float_of_str (nth idx parts "") = Some v ->
     PyFloat.geb v Feed.f99 = true ->
     col <> "DEPTH" ->
     update_data.get_val col_map parts col = None)
  /\ (forall col_map parts col idx,
        Dict.get col col_map = Some idx ->
        nth_error parts idx = Some "98.9" ->
        update_data.get_val col_map parts col = Some (Inputs.lit "98.9")
        /\ update_data.get col_map parts col = Some (Inputs.lit "98.9"))
  /\ (forall col_map parts col idx,
        Dict.get col col_map = Some idx ->
        nth_error parts idx = Some "99.0" ->
        update_data.get_val col_map parts col = None
        /\ update_data.get col_map parts col = None)
  /\ (forall col_map parts name idx v,
        Dict.get name col_map = Some idx ->
        idx < List.length parts ->
        Feed.str_in (nth idx parts "") Feed.sentinels = false ->
        PyNum.float_of_str (nth idx parts "") = Some v ->
        update_data.get col_map parts name
        = if PyFloat.ltb v Feed.f999 then Some v else None).
Proof.
  split; [|split; [|split]].
  - intros col_map parts col idx v Hcol Hidx Hv Hge Hne.
    unfold update_data.get_val. rewrite Hcol.
    apply Nat.leb_gt in Hidx. rewrite Hidx, Hv, Hge.
    destruct (Feed.str_in (nth idx parts "") Feed.sentinels); [reflexivity|].
    assert (Hd : Feed.str_in col ["DEPTH"] = false).
    { unfold Feed.str_in. simpl. rewrite orb_false_r.
      apply String.eqb_neq. exact Hne. }
    rewrite Hd. reflexivity.
  - intros col_map parts col idx Hcol Hnth.
    destruct (nth_error_lookup parts idx "98.9" "" Hnth) as [Hlen Hval].
    unfold update_data.get_val, update_data.get. rewrite Hcol, Hlen, Hval.
    split; reflexivity.
  - intros col_map parts col idx Hcol Hnth.
    destruct (nth_error_lookup parts idx "99.0" "" Hnth) as [Hlen Hval].
    unfold update_data.get_val, update_data.get. rewrite Hcol, Hlen, Hval.
    split; reflexivity.
  - intros col_map parts name idx v Hcol Hidx Hs Hv.
    unfold update_data.get. rewrite Hcol.
    apply Nat.leb_gt in Hidx. rewrite Hidx, Hs, Hv. reflexivity.
Qed.

Lemma numeric_sentinel_threshold_witness :
  update_data.get_val (Feed.col_map_of Inputs.sentinel_headers)
    ["2024"; "01"; "15"; "12"; "30"; "99.5"] "WTMP" = None
  /\ update_data.get_val (Feed.col_map_of Inputs.sentinel_headers)
       Inputs.reading_98_9 "WTMP" = Some (Inputs.lit "98.9")
  /\ update_data.get_val (Feed.col_map_of Inputs.sentinel_headers)
       ["2024"; "01"; "15"; "12"; "30"; "99.0"] "WTMP" = None
  /\ update_data.get (Feed.col_map_of Inputs.sentinel_headers)
       ["2024"; "01"; "15"; "12"; "30"; "99.5"] "WTMP" = Some (Inputs.lit "99.5").
Proof.
  destruct numeric_sentinel_threshold as [H1 [H2 [H3 H4]]].
  split; [|split; [|split]].
  - apply (H1 _ _ _ 5 (Inputs.lit "99.5")).
    + reflexivity.
    + simpl. lia.
    + reflexivity.
    + reflexivity.
    + discriminate.
  - apply (H2 _ _ _ 5); reflexivity.
  - apply (H3 _ _ _ 5); reflexivity.
  - rewrite (H4 _ _ _ 5 (Inputs.lit "99.5")).
    + reflexivity.
    + reflexivity.
    + simpl. lia.
    + reflexivity.
    + reflexivity.
Defined.

Lemma col_map_from_notin (k : string) (headers : list string) :
  ~ In k headers ->
  forall i col_map,
    Dict.get k (Feed.col_map_from i headers col_map) = Dict.get k col_map.
Proof.
  induction headers as [|h headers IH]; intros Hnotin i col_map; [reflexivity|].
  simpl in *. rewrite IH by tauto.
  apply dict_get_set_other. intros ->. tauto.
Qed.

(** A header row that names a column first, and only there, maps it to 0. *)
Lemma col_map_first (k : string) (rest : list string) :
  ~ In k rest -> Dict.get k (Feed.col_map_of (k :: rest)) = Some 0.
Proof.
  intros H. unfold Feed.col_map_of. simpl.
  rewrite col_map_from_notin by assumption. simpl.
  now rewrite String.eqb_refl.
Qed.

Lemma scan_txt_wtmp_at_0 (col_map : Dict.t nat) (rows : list string) :
  Dict.get "WTMP" col_map = Some 0 -> update_data.scan_txt col_map rows = None.
Proof.
  intros H. induction rows as [|line rows IH]; [reflexivity|].
  cbn [update_data.scan_txt]. unfold update_data.txt_row. rewrite H.
  cbn [Nat.eqb negb andb]. rewrite IH.
  destruct (List.length (PyStr.split_ws line) <? 5); reflexivity.
Qed.

(** C10: when the header row places WTMP at index 0, that is when the column
    map built from it sends WTMP to 0, as it does when WTMP is the first name
    and no other, the fallback parser of either script returns [None],
    whatever the rows hold. *)
Theorem wtmp_at_index_0_is_never_read (text : string) :
  let headers := PyStr.split_ws (nth 0 (Feed.lines_of text) "") in
  (Dict.get "WTMP" (Feed.col_map_of headers) = Some 0 ->
   update_data._parse_txt_feed (Some text) = None
   /\ update_stations.parse_txt_feed (Some text) = None)
  /\ (forall rest,
        headers = "WTMP" :: rest -> ~ In "WTMP" rest ->
        update_data._parse_txt_feed (Some text) = None
        /\ update_stations.parse_txt_feed (Some text) = None).
Proof.
  intros headers.
  assert (G : Dict.get "WTMP" (Feed.col_map_of headers) = Some 0 ->
              update_data._parse_txt_feed (Some text) = None).
  { intros H. unfold update_data._parse_txt_feed.
    destruct text as [|c text']; [reflexivity|].
    destruct (List.length (Feed.lines_of (String c text')) <? 3); [reflexivity|].
    now apply scan_txt_wtmp_at_0. }
  split.
  - intros H. split; exact (G H).
  - intros rest Hrow Hnotin.
    assert (H : Dict.get "WTMP" (Feed.col_map_of headers) = Some 0)
      by (rewrite Hrow; now apply col_map_first).
    split; exact (G H).
Qed.

Lemma wtmp_at_index_0_witness :
  update_data._parse_txt_feed (Some Inputs.wtmp_first_text) = None
  /\ update_data.txt_row [("WTMP", 5)] ["2024"; "01"; "15"; "12"; "30"; "22.3"]
     = Some (Inputs.lit "22.3").
Proof.
  split.
  - apply (proj2 (wtmp_at_index_0_is_never_read Inputs.wtmp_first_text)
             ["#YY"; "MM"; "DD"; "hh"; "mm"]).
    + reflexivity.
    + simpl. intros H. repeat (destruct H as [H|H]; [discriminate|]). exact H.
  - reflexivity.
Defined.

(* ---------------------------------------------------------------- *)

Lemma isoformat_not_empty (yr mo dy hr mn : Z) :
  String.eqb (PyDatetime.isoformat yr mo dy hr mn) "" = false.
Proof.
  unfold PyDatetime.isoformat.
  destruct (PyDatetime.zfill 4 yr); reflexivity.
Qed.

Lemma set_timestamp_ok (d : Z * Z * Z * Z * Z) (ts ts' : option string) :
  timestamp_ok ts -> update_data.set_timestamp d ts = Ok ts' -> timestamp_ok ts'.
Proof.
  intros Hok. unfold update_data.set_timestamp.
  destruct ts as [s|].
  - intros [= <-]. exact Hok.
  - destruct d as [[[[yr mo] dy] hr] mn]. unfold PyDatetime.datetime_iso.
    destruct (negb _); [discriminate|].
    destruct (_ && _)%bool.
    + intros [= <-]. intros s [= <-]. apply isoformat_not_empty.
    + intros [= <-]. exact Hok.
Qed.

Lemma scan_ocean_timestamp_ok (col_map : Dict.t nat) (rows : list string) :
  forall st st',
    timestamp_ok (update_data.timestamp st) ->
    update_data.scan_ocean col_map rows st = Ok st' ->
    timestamp_ok (update_data.timestamp st').
Proof.
  induction rows as [|line rows IH]; intros st st' Hok; cbn [update_data.scan_ocean].
  - intros [= <-]. exact Hok.
  - destruct (List.length (PyStr.split_ws line) <? 5); [now apply IH|].
    destruct (update_data.row_date col_map (PyStr.split_ws line)) as [d|]; [|now apply IH].
    destruct (update_data.set_timestamp d (update_data.timestamp st)) as [ts|e] eqn:Ets;
      [|discriminate].
    cbn [bind]. apply set_timestamp_ok in Ets; [|exact Hok].
    destruct (_ && _)%bool.
    + intros [= <-]. exact Ets.
    + apply IH. exact Ets.
Qed.

Lemma ocean_scan_timestamp_ok (text : option string) (st : update_data.ocean_state) :
  update_data.ocean_scan text = Ok (Some st) -> timestamp_ok (update_data.timestamp st).
Proof.
  unfold update_data.ocean_scan.
  destruct text as [[|c text']|]; try discriminate.
  destruct (List.length _ <? 3); [discriminate|].
  destruct (update_data.scan_ocean _ _ _) as [st'|e] eqn:E; [|discriminate].
  intros [= <-]. eapply scan_ocean_timestamp_ok; [|exact E].
  intros s. discriminate.
Qed.

(** C7: on a feed whose row has a date and only missing values the ocean
    feed parser extracts no field and still returns a mapping, the one that
    holds the timestamp. The caller takes it for a reading: it leaves the
    [.txt] feed unused, which has a water temperature of 22.3, and gives the
    station a new [last_obs] over the readings it had. *)
Theorem ocean_feed_timestamp_only :
  (exists st,
     update_data.ocean_scan (Some Inputs.ocean_all_missing) = Ok (Some st)
     /\ update_data.drop_none (update_data.readings st) = []
     /\ update_data._parse_ocean_feed (Some Inputs.ocean_all_missing)
        = Ok (Some [("timestamp", JStr "2024-01-15T12:30:00+00:00")]))
  /\ update_data._parse_txt_feed
       (fetch_url MoreInputs.net_ocean_all_missing (NDBC_TXT_URL (JStr "42001")))
     = Some [("temp", JFloat (Inputs.lit "22.3"))]
  /\ update_data.update_station MoreInputs.net_ocean_all_missing
       (JDict Inputs.station_42001)
     = Ok (JDict [("id", JStr "42001"); ("name", JStr "Mid Gulf");
                  ("current",
                   JDict [("do", JInt 5); ("temp", JInt 20);
                          ("last_obs", JStr "2024-01-15T12:30:00+00:00")])]).
Proof.
  split; [|split].
  - eexists. split; [|split]; vm_compute; reflexivity.
  - vm_compute. reflexivity.
  - vm_compute. reflexivity.
Qed.

(** What the ocean feed parser returns when the scan of a text extracts no
    field: [None] if no row gave a timestamp and the mapping that holds the
    timestamp alone otherwise; and it never returns an empty mapping. *)
Theorem ocean_feed_without_fields (text : option string) :
  (forall st,
     update_data.ocean_scan text = Ok (Some st) ->
     update_data.drop_none (update_data.readings st) = [] ->
     update_data._parse_ocean_feed text
     = Ok match update_data.timestamp st with
          | Some ts => Some [("timestamp", JStr ts)]
          | None => None
          end)
  /\ (forall r, update_data._parse_ocean_feed text = Ok (Some r) -> r <> []).
Proof.
  split.
  - intros st Hscan Hnone.
    pose proof (ocean_scan_timestamp_ok text st Hscan) as Hts.
    unfold update_data._parse_ocean_feed. rewrite Hscan. cbn [bind].
    unfold update_data.ocean_result. rewrite Hnone.
    destruct (update_data.timestamp st) as [ts|]; [|reflexivity].
    rewrite (Hts ts eq_refl). reflexivity.
  - intros r. unfold update_data._parse_ocean_feed.
    destruct (update_data.ocean_scan text) as [[st|]|e]; cbn [bind]; try discriminate.
    unfold update_data.ocean_result.
    match goal with |- Ok (match ?x with _ => _ end) = _ -> _ => destruct x eqn:E end;
      [discriminate|].
    intros [= <-]. discriminate.
Qed.

Lemma ocean_feed_without_fields_witness :
  update_data._parse_ocean_feed (Some Inputs.ocean_all_missing)
  = Ok (Some [("timestamp", JStr "2024-01-15T12:30:00+00:00")]).
Proof.
  apply (proj1 (ocean_feed_without_fields (Some Inputs.ocean_all_missing))
           Inputs.ocean_all_missing_state).
  - vm_compute. reflexivity.
  - reflexivity.
Defined.

(* ================================================================== *)
(** ** The output documents *)

Lemma document_count_matches (now key : string) (records : list json) :
  String.eqb key "updated" = false -> String.eqb key "count" = false ->
  count_matches (update_data.document now key records) key.
Proof.
  intros H1 H2. exists records. unfold update_data.document, Py.getitem.
  cbn [Dict.get]. rewrite H1, H2, String.eqb_refl. split; reflexivity.
Qed.

(** Opens the [bind]s of an extractor that returned a document. *)
Ltac document_written :=
  match goal with
  | |- bind ?m _ = Ok _ -> _ =>
      destruct m; cbn [bind]; [|discriminate]; try document_written
  | |- Ok _ = Ok _ -> _ =>
      intros [= <-]; now apply document_count_matches
  end.

(** C5: in the document every extractor writes, [count] is the length of the
    list of records. *)
Theorem count_is_length (net : network) (urlparse : json -> option string)
  (now : string) (items : list json) (doc : json) :
  (update_data.update_ioos_sensors now items = Ok doc -> count_matches doc "sensors")
  /\ (update_data.update_ndbc_met net now items = Ok doc -> count_matches doc "buoys")
  /\ (update_data.update_coops net now items = Ok doc -> count_matches doc "stations")
  /\ (update_data.update_gliders net urlparse now items = Ok doc -> count_matches doc "gliders")
  /\ (update_data.update_drifters net now items = Ok doc -> count_matches doc "drifters")
  /\ (update_data.update_incidents now items = Ok doc -> count_matches doc "incidents")
  /\ (update_data.update_pmel now items = Ok doc -> count_matches doc "probes").
Proof.
  unfold update_data.update_ioos_sensors, update_data.update_ndbc_met, update_data.update_coops,
    update_data.update_gliders, update_data.update_drifters, update_data.update_incidents,
    update_data.update_pmel.
  repeat split; document_written.
Qed.

Lemma count_is_length_witness :
  exists doc,
    update_data.update_coops Inputs.net_coops_without_v "2024-01-15T12:05:00Z"
      [Inputs.tide_station] = Ok doc
    /\ count_matches doc "stations".
Proof.
  eexists. split.
  - vm_compute. reflexivity.
  - apply (count_is_length Inputs.net_coops_without_v (fun _ => None)
             "2024-01-15T12:05:00Z" [Inputs.tide_station]).
    vm_compute. reflexivity.
Defined.

(* ================================================================== *)
(** ** The buoy extractor *)

Lemma string_app_assoc_chr (a : string) (c : ascii) (b : string) :
  ((a ++ String c "") ++ b)%string = (a ++ String c b)%string.
Proof. induction a as [|d a IH]; simpl; [reflexivity|now rewrite IH]. Qed.

Lemma string_of_list_ascii_snoc (l : list ascii) (c : ascii) :
  string_of_list_ascii (l ++ [c]) = (string_of_list_ascii l ++ String c "")%string.
Proof. induction l as [|d l IH]; simpl; [reflexivity|now rewrite IH]. Qed.

Lemma string_app_empty (a : string) : (a ++ "")%string = a.
Proof. induction a as [|d a IH]; simpl; [reflexivity|now rewrite IH]. Qed.

Lemma prefix_chr (c d : ascii) (s : string) :
  String.prefix (String c "") (String d s) = Ascii.eqb d c.
Proof.
  simpl. destruct (ascii_dec c d) as [->|Hne].
  - rewrite Ascii.eqb_refl. now destruct s.
  - symmetry. apply Ascii.eqb_neq. congruence.
Qed.

(** [c in s] as a substring is [c in s] as a character. *)
Lemma substring_in_chr (c : ascii) (s : string) :
  Py.substring_in (String c "") s = PyStr.contains c s.
Proof.
  induction s as [|d s IH]; [reflexivity|].
  cbn [Py.substring_in PyStr.contains]. now rewrite prefix_chr, IH.
Qed.

(** A string without the separator is the one segment of its split. *)
Lemma split_go_no_sep (sep : ascii) (s : string) :
  PyStr.contains sep s = false ->
  forall tok, PyStr.split_go sep tok s = [(PyStr.of_rev tok ++ s)%string].
Proof.
  induction s as [|d s IH]; intros Hno tok.
  - simpl. now rewrite string_app_empty.
  - simpl in Hno. apply orb_false_iff in Hno as [Hd Hs].
    simpl. rewrite Hd, (IH Hs). unfold PyStr.of_rev. simpl rev.
    now rewrite string_of_list_ascii_snoc, string_app_assoc_chr.
Qed.

(** The station id is the last segment of the feature id split on ["_"],
    whether the feature id has the separator or not. *)
Lemma station_id_is_last_segment (sid : string) :
  update_data.station_id_of (JStr sid) = Ok (JStr (List.last (PyStr.split "_" sid) "")).
Proof.
  unfold update_data.station_id_of, Py.contains. cbn [bind].
  rewrite substring_in_chr.
  destruct (PyStr.contains "_" sid) eqn:E; [reflexivity|].
  unfold PyStr.split. rewrite (split_go_no_sep _ _ E). reflexivity.
Qed.

Lemma met_item_point (net : network) (sid : string) (lon lat : PyFloat.float)
  (title : string) (st : update_data.met_state) :
  exists current : Dict.t json,
    (current = [] \/ exists readings, current = [("current", JDict readings)])
    /\ exists fetched requests,
         update_data.met_item net (Inputs.point_feature sid lon lat title) st
         = Ok (update_data.mk_met_state
                 (update_data.buoys st ++ [JDict (buoy_record sid lon lat title ++ current)])
                 fetched requests).
Proof.
  unfold update_data.met_item, Inputs.point_feature.
  cbn [Py.get bind Dict.get_default Dict.get String.eqb Ascii.eqb Bool.eqb
       update_data.not_a_point update_data.type_is Py.eqb Py.len List.length Nat.ltb
       Nat.leb negb update_data.lat_lon Py.index nth_error Py.round update_data.get_cut
       Py.slice_to firstn].
  rewrite station_id_is_last_segment. cbn [bind].
  match goal with |- context [if ?b then _ else _] => destruct b end.
  - destruct (update_data._parse_ndbc_met_txt _) as [readings|].
    + exists [("current", JDict readings)]. split; [right; now exists readings|].
      eexists. eexists. reflexivity.
    + exists []. split; [now left|]. eexists. eexists.
      unfold buoy_record. rewrite app_nil_r. reflexivity.
  - exists []. split; [now left|]. eexists. eexists.
    unfold buoy_record. rewrite app_nil_r. reflexivity.
Qed.

(** C6: for the feature with a point geometry at [-90.1234567, 25.7654321]
    and the title "Buoy 42001", whatever its id and the telemetry of the run,
    the buoy extractor writes one record, with [lat = 25.7654],
    [lon = -90.1235] and, as [id], the last segment of the feature id split
    on ["_"]. *)
Theorem buoy_42001_record (net : network) (now sid : string) :
  exists buoy,
    update_data.update_ndbc_met net now [Inputs.buoy_42001 sid]
    = Ok (update_data.document now "buoys" [JDict buoy])
    /\ Dict.get "lat" buoy = Some (JFloat (Inputs.lit "25.7654"))
    /\ Dict.get "lon" buoy = Some (JFloat (Inputs.lit "-90.1235"))
    /\ Dict.get "id" buoy = Some (JStr (List.last (PyStr.split "_" sid) "")).
Proof.
  unfold update_data.update_ndbc_met, update_data.met_loop, Inputs.buoy_42001.
  cbn [for_each].
  destruct (met_item_point net sid (Inputs.lit "-90.1234567") (Inputs.lit "25.7654321")
              "Buoy 42001" (update_data.mk_met_state [] 0 []))
    as [current [_ [fetched [requests Hitem]]]].
  rewrite Hitem. cbn [bind update_data.buoys app].
  eexists. split; [reflexivity|].
  unfold buoy_record. cbn [app Dict.get String.eqb Ascii.eqb Bool.eqb].
  repeat split.
Qed.

(** C8, at 201 buoys of which the first has no telemetry: the loop counts the
    readings obtained, not the records tried, so it asks for the telemetry of
    all 201 records and the record after the first 200 gets a live reading. *)
Theorem buoy_cap_counts_readings :
  exists st record,
    update_data.met_loop Inputs.net_first_fails Inputs.buoys_201 = Ok st
    /\ List.length (update_data.requests st) = 201
    /\ nth_error (update_data.requests st) 200 = Some (NDBC_TXT_URL (JStr "200"))
    /\ update_data.fetched st = 200
    /\ nth_error (update_data.buoys st) 200 = Some (JDict record)
    /\ Dict.get "id" record = Some (JStr "200")
    /\ Dict.mem "current" record = true.
Proof.
  assert (H : Inputs.cap_exceeded
                (update_data.met_loop Inputs.net_first_fails Inputs.buoys_201) = true)
    by (vm_compute; reflexivity).
  destruct (update_data.met_loop Inputs.net_first_fails Inputs.buoys_201) as [st|e];
    [|discriminate].
  unfold Inputs.cap_exceeded in H.
  apply andb_prop in H as [H Hrec]. apply andb_prop in H as [H Hurl].
  apply andb_prop in H as [Hlen Hfetched].
  apply Nat.eqb_eq in Hlen, Hfetched.
  destruct (nth_error (update_data.requests st) 200) as [[| [| | | |s| |] | | |]|] eqn:Ereq;
    try discriminate.
  apply String.eqb_eq in Hurl. subst s.
  destruct (nth_error (update_data.buoys st) 200) as [[| | | | | |record]|] eqn:Ebuoy;
    try discriminate.
  apply andb_prop in Hrec as [Hcur Hid].
  destruct (Dict.get "id" record) as [[| | | |s| |]|] eqn:Eid; try discriminate.
  apply String.eqb_eq in Hid. subst s.
  exists st, record. repeat split; try assumption; reflexivity.
Qed.

(** C9, at an answer of the tide-level API whose latest reading has no value
    [v]: the station gets a water level of zero. *)
Theorem tide_level_defaults_to_zero :
  update_data.coops_current (Some Inputs.coops_answer_without_v)
  = Ok (Some (JDict [("wl", JFloat (S754_zero false));
                     ("time", JStr "2024-01-15 12:00")]))
  /\ exists station,
       update_data.coops_stations Inputs.net_coops_without_v [Inputs.tide_station]
       = Ok [JDict station]
       /\ Dict.get "current" station
          = Some (JDict [("wl", JFloat (S754_zero false));
                         ("time", JStr "2024-01-15 12:00")]).
Proof.
  split; [vm_compute; reflexivity|].
  eexists. split; vm_compute; reflexivity.
Qed.

(* ================================================================== *)
(** ** Tracks *)

Lemma round_number (v : json) :
  Py.is_number v = true -> Py.round v 4 = Ok (Track.round4 v).
Proof. destruct v; try discriminate; reflexivity. Qed.

Lemma coord_not_none (v : json) :
  Track.is_coord v = true -> is_none v = false -> Py.is_number v = true.
Proof. unfold Track.is_coord. intros H Hn. now rewrite Hn in H. Qed.

Lemma glider_point_typed (r : json * json * json) :
  Track.glider_coords_ok r = true ->
  update_data.glider_point (Track.glider_row r) = Ok (Track.glider_point_of r).
Proof.
  destruct r as [[time lat] lon]. cbn [Track.glider_coords_ok].
  intros H. apply andb_prop in H as [Hlat Hlon].
  unfold update_data.glider_point, Track.glider_row, Track.glider_point_of, Track.point.
  cbn [update_data.unpack3 Py.iter bind].
  destruct (is_none lat) eqn:Elat; [reflexivity|].
  destruct (is_none lon) eqn:Elon; [reflexivity|].
  cbn [negb andb].
  rewrite (round_number lon), (round_number lat) by now apply coord_not_none.
  reflexivity.
Qed.

Lemma drifter_step_typed (r : json * json * json) (track : list json) :
  Track.drifter_coords_ok r = true ->
  update_data.drifter_step (Track.drifter_row r) track
  = Ok (track ++ Track.to_list (Track.drifter_point_of r)).
Proof.
  destruct r as [[lat lon] time]. cbn [Track.drifter_coords_ok].
  intros H. apply andb_prop in H as [Hlat Hlon].
  unfold update_data.drifter_step, update_data.drifter_row_ok, Track.drifter_row,
    Track.drifter_point_of, Track.point.
  cbn [Py.index nth_error bind].
  destruct (is_none lat) eqn:Elat; cbn [bind negb andb Track.to_list].
  - now rewrite app_nil_r.
  - destruct (is_none lon) eqn:Elon; cbn [bind negb andb Track.to_list].
    + now rewrite app_nil_r.
    + rewrite (round_number lon), (round_number lat) by now apply coord_not_none.
      reflexivity.
Qed.

Lemma forallb_nth_error {A : Type} (f : A -> bool) (l : list A) (i : nat) (x : A) :
  forallb f l = true -> nth_error l i = Some x -> f x = true.
Proof.
  intros H Hn. rewrite forallb_forall in H. apply H.
  eapply nth_error_In. exact Hn.
Qed.

(** The loop of [fetch_glider_track] over the indices [idxs]. *)
Lemma glider_loop (rows : list (json * json * json)) (idxs : list nat) :
  forallb Track.glider_coords_ok rows = true ->
  Forall (fun i => i < List.length rows) idxs ->
  forall track,
    for_each (update_data.glider_step (JList (map Track.glider_row rows))) idxs track
    = Ok (track ++ Track.sel (map Track.glider_point_of rows) idxs).
Proof.
  intros Hok. induction idxs as [|i idxs IH]; intros Hlt track.
  - simpl. now rewrite app_nil_r.
  - inversion Hlt as [|? ? Hi Hlt']; subst.
    destruct (nth_error rows i) as [r|] eqn:Er;
      [|apply nth_error_None in Er; lia].
    cbn [for_each]. unfold update_data.glider_step at 1. cbn [Py.index].
    rewrite (map_nth_error Track.glider_row _ _ Er). cbn [bind].
    rewrite glider_point_typed by (eapply forallb_nth_error; eassumption).
    cbn [bind].
    assert (Hsel : Track.sel (map Track.glider_point_of rows) (i :: idxs)
                   = Track.to_list (Track.glider_point_of r)
                     ++ Track.sel (map Track.glider_point_of rows) idxs).
    { unfold Track.sel. cbn [flat_map].
      erewrite (nth_error_nth _ _ _ (map_nth_error Track.glider_point_of _ _ Er)).
      reflexivity. }
    rewrite Hsel.
    destruct (Track.glider_point_of r) as [pt|]; cbn [bind Track.to_list].
    + rewrite (IH Hlt'). now rewrite <- app_assoc.
    + rewrite (IH Hlt'). reflexivity.
Qed.

(** The list comprehension of [update_drifters]. *)
Lemma drifter_loop (rows : list (json * json * json)) :
  forallb Track.drifter_coords_ok rows = true ->
  forall track,
    for_each update_data.drifter_step (map Track.drifter_row rows) track
    = Ok (track ++ Track.somes (map Track.drifter_point_of rows)).
Proof.
  induction rows as [|r rows IH]; intros Hok track.
  - simpl. now rewrite app_nil_r.
  - simpl in Hok. apply andb_prop in Hok as [Hr Hrows].
    cbn [map for_each]. rewrite (drifter_step_typed r track Hr). cbn [bind].
    rewrite (IH Hrows). unfold Track.somes. cbn [flat_map].
    now rewrite app_assoc.
Qed.

Lemma nth_some_error {A : Type} (l : list (option A)) (i : nat) (p : A) :
  nth i l None = Some p -> nth_error l i = Some (Some p).
Proof.
  revert i. induction l as [|x l IH]; intros [|i]; simpl; try discriminate.
  - now intros ->.
  - apply IH.
Qed.

Lemma sel_length (pts : list (option json)) (idxs : list nat) :
  List.length (Track.sel pts idxs) <= List.length idxs.
Proof.
  induction idxs as [|i idxs IH]; simpl; [lia|].
  rewrite length_app. destruct (nth i pts None); simpl; lia.
Qed.

Lemma sel_picks (pts : list (option json)) (idxs : list nat) :
  Track.picks pts (filter (Track.has pts) idxs) (Track.sel pts idxs).
Proof.
  unfold Track.picks, Track.sel, Track.has.
  induction idxs as [|i idxs IH]; simpl; [constructor|].
  destruct (nth i pts None) as [p|] eqn:E; simpl; [|exact IH].
  constructor; [now apply nth_some_error|exact IH].
Qed.

Lemma increasing_sorted (l : list nat) :
  Track.increasing l = true -> StronglySorted lt l.
Proof.
  intros H. apply Sorted_StronglySorted; [intros x y z; apply Nat.lt_trans|].
  induction l as [|a l IH]; [constructor|].
  destruct l as [|b l]; [repeat constructor|].
  cbn [Track.increasing] in H. apply andb_prop in H as [Hab Hl].
  constructor; [now apply IH|]. constructor. now apply Nat.ltb_lt.
Qed.

Lemma sorted_filter (f : nat -> bool) (l : list nat) :
  StronglySorted lt l -> StronglySorted lt (filter f l).
Proof.
  induction 1 as [|a l Hl IH Ha]; simpl; [constructor|].
  destruct (f a); [|exact IH].
  constructor; [exact IH|].
  rewrite Forall_forall in *. intros x Hx. apply Ha.
  apply filter_In in Hx. tauto.
Qed.

Lemma sorted_snoc (l : list nat) (x : nat) :
  StronglySorted lt l -> Forall (fun i => i < x) l -> StronglySorted lt (l ++ [x]).
Proof.
  induction 1 as [|a l Hl IH Ha]; intros Hx; simpl.
  - repeat constructor.
  - inversion Hx as [|? ? Hax Hlx]; subst.
    constructor; [now apply IH|].
    apply Forall_app. split; [exact Ha|]. now repeat constructor.
Qed.

Lemma sorted_skipn (n : nat) (l : list nat) :
  StronglySorted lt l -> StronglySorted lt (skipn n l).
Proof.
  revert l. induction n as [|n IH]; intros l Hl; [exact Hl|].
  destruct l as [|a l]; [constructor|].
  simpl. apply IH. now inversion Hl.
Qed.

Lemma picks_skipn (pts : list (option json)) (n : nat) :
  forall idxs track,
    Track.picks pts idxs track -> Track.picks pts (skipn n idxs) (skipn n track).
Proof.
  unfold Track.picks. induction n as [|n IH]; intros idxs track H; [exact H|].
  destruct H; simpl; [constructor|]. now apply IH.
Qed.

Lemma picks_length (pts : list (option json)) (idxs : list nat) (track : list json) :
  Track.picks pts idxs track -> List.length idxs = List.length track.
Proof. induction 1; simpl; congruence. Qed.

Lemma picks_snoc (pts : list (option json)) (idxs : list nat) (track : list json)
  (i : nat) (p : json) :
  Track.picks pts idxs track -> nth_error pts i = Some (Some p) ->
  Track.picks pts (idxs ++ [i]) (track ++ [p]).
Proof.
  unfold Track.picks. induction 1; intros Hp; simpl.
  - repeat constructor. exact Hp.
  - constructor; auto.
Qed.

Lemma last_skipn {A : Type} (n : nat) (d : A) :
  forall l, n < List.length l -> List.last (skipn n l) d = List.last l d.
Proof.
  induction n as [|n IH]; intros l Hn; [reflexivity|].
  destruct l as [|a l]; [simpl in Hn; lia|].
  cbn [skipn]. rewrite IH by (simpl in Hn; lia).
  destruct l as [|b l]; [simpl in Hn; lia|]. reflexivity.
Qed.

(** The indices of the rows that have a point, and the points, side by side. *)
Lemma idx_somes_spec (pts : list (option json)) :
  forall base,
    Forall2 (fun i p => base <= i /\ nth_error pts (i - base) = Some (Some p))
      (Track.idx_somes base pts) (Track.somes pts).
Proof.
  induction pts as [|x pts IH]; intros base; [constructor|].
  assert (Htail : Forall2
                    (fun i p => base <= i /\ nth_error (x :: pts) (i - base) = Some (Some p))
                    (Track.idx_somes (S base) pts) (Track.somes pts)).
  { eapply Forall2_impl; [|apply (IH (S base))].
    intros i p [Hle Hn]. split; [lia|].
    replace (i - base) with (S (i - S base)) by lia. exact Hn. }
  destruct x as [p|]; cbn [Track.idx_somes Track.somes flat_map Track.to_list app].
  - constructor; [|exact Htail].
    split; [lia|]. now rewrite Nat.sub_diag.
  - exact Htail.
Qed.

Lemma idx_somes_sorted (pts : list (option json)) :
  forall base,
    StronglySorted lt (Track.idx_somes base pts)
    /\ Forall (fun i => base <= i) (Track.idx_somes base pts).
Proof.
  induction pts as [|x pts IH]; intros base; [split; constructor|].
  destruct (IH (S base)) as [Hs Hge].
  assert (Hge' : Forall (fun i => base <= i) (Track.idx_somes (S base) pts)).
  { eapply Forall_impl; [|exact Hge]. simpl. intros; lia. }
  destruct x as [p|]; cbn [Track.idx_somes].
  - split.
    + constructor; [exact Hs|]. eapply Forall_impl; [|exact Hge]. simpl. intros; lia.
    + constructor; [lia|exact Hge'].
  - split; assumption.
Qed.

Lemma somes_in_row_order (pts : list (option json)) :
  Track.picks pts (Track.idx_somes 0 pts) (Track.somes pts).
Proof.
  unfold Track.picks. eapply Forall2_impl; [|apply (idx_somes_spec pts 0)].
  intros i p [_ H]. now rewrite Nat.sub_0_r in H.
Qed.

Lemma somes_app (l1 l2 : list (option json)) :
  Track.somes (l1 ++ l2) = Track.somes l1 ++ Track.somes l2.
Proof. unfold Track.somes. apply flat_map_app. Qed.

(** When the last row has a point, the points of the rows end with it. *)
Lemma somes_last (pts : list (option json)) (p : json) :
  nth_error pts (List.length pts - 1) = Some (Some p) ->
  exists l, Track.somes pts = l ++ [p].
Proof.
  destruct pts as [|x pts] using rev_ind; [discriminate|]. clear IHpts.
  rewrite length_app. simpl.
  replace (List.length pts + 1 - 1) with (List.length pts) by lia.
  rewrite nth_error_app2, Nat.sub_diag by lia. simpl. intros [= ->].
  exists (Track.somes pts). now rewrite somes_app.
Qed.

Lemma range_1000 :
  forallb (fun i => i <? 999) (update_data.range0 1000 5) = true
  /\ Track.increasing (update_data.range0 1000 5) = true
  /\ List.length (update_data.range0 1000 5) = 200.
Proof. repeat split; vm_compute; reflexivity. Qed.

Lemma append_last_cases (track : list json) (p : json) :
  (update_data.append_last track p = track ++ [p])
  \/ (update_data.append_last track p = track /\ track <> []
      /\ Py.eqb (List.last track JNull) p = true).
Proof.
  unfold update_data.append_last. destruct track as [|q track]; [now left|].
  destruct (Py.eqb (List.last (q :: track) JNull) p) eqn:E; cbn [negb].
  - right. split; [reflexivity|]. split; [discriminate|reflexivity].
  - now left.
Qed.

(** The track of a trajectory of 1000 well-formed rows. *)
Lemma glider_track_1000 (rows : list (json * json * json)) (data table : json) :
  forallb Track.glider_coords_ok rows = true ->
  List.length rows = 1000 ->
  Py.get data "table" (JDict []) = Ok table ->
  Py.get table "rows" (JList []) = Ok (JList (map Track.glider_row rows)) ->
  exists track,
    update_data.glider_track data = Ok track
    /\ List.length track <= 201
    /\ Track.in_row_order (map Track.glider_point_of rows) track
    /\ forall p,
         nth_error (map Track.glider_point_of rows) 999 = Some (Some p) ->
         Track.ends_with track p.
Proof.
  intros Hok Hlen Htable Hrows.
  set (pts := map Track.glider_point_of rows).
  destruct range_1000 as [Hlt [Hinc Hcount]].
  assert (Hidx : Forall (fun i => i < 999) (update_data.range0 1000 5)).
  { apply Forall_forall. intros i Hi. rewrite forallb_forall in Hlt.
    apply Nat.ltb_lt. now apply Hlt. }
  assert (Hidx' : Forall (fun i => i < List.length rows) (update_data.range0 1000 5)).
  { rewrite Hlen. eapply Forall_impl; [|exact Hidx]. simpl. intros; lia. }
  assert (Htruthy : truthy (JList (map Track.glider_row rows)) = true).
  { destruct rows as [|r0 rows']; [|reflexivity].
    exfalso. clear -Hlen. simpl in Hlen. lia. }
  destruct (nth_error rows 999) as [r|] eqn:Er;
    [|apply nth_error_None in Er; lia].
  assert (Hlast : Py.last (JList (map Track.glider_row rows)) = Ok (Track.glider_row r)).
  { unfold Py.last, Py.len. rewrite length_map, Hlen. cbn [Py.index].
    now rewrite (map_nth_error Track.glider_row _ _ Er). }
  assert (Hpt : nth_error pts 999 = Some (Track.glider_point_of r)).
  { apply map_nth_error. exact Er. }
  set (track := Track.sel pts (update_data.range0 1000 5)).
  assert (Htrack : List.length track <= 200).
  { rewrite <- Hcount. apply sel_length. }
  assert (Hpicks : Track.picks pts (filter (Track.has pts) (update_data.range0 1000 5)) track)
    by apply sel_picks.
  assert (Hsorted : StronglySorted lt (filter (Track.has pts) (update_data.range0 1000 5))).
  { apply sorted_filter. now apply increasing_sorted. }
  assert (Hrun : update_data.glider_track data
                 = Ok match Track.glider_point_of r with
                      | Some last_pt => update_data.append_last track last_pt
                      | None => track
                      end).
  { unfold update_data.glider_track. rewrite Htable. cbn [bind]. rewrite Hrows. cbn [bind].
    rewrite Htruthy. cbn [negb]. unfold Py.len at 1. rewrite length_map, Hlen.
    cbn [bind]. change (Nat.max 1 (1000 / 200)) with 5.
    rewrite (glider_loop rows _ Hok Hidx'). cbn [bind app].
    rewrite Hlast. cbn [bind]. rewrite glider_point_typed
      by (eapply forallb_nth_error; eassumption).
    cbn [bind]. destruct (Track.glider_point_of r); reflexivity. }
  rewrite Hrun. clearbody track. clear Hrun.
  destruct (Track.glider_point_of r) as [last_pt|].
  - destruct (append_last_cases track last_pt) as [Happ|[Hsame [Hne Heq]]].
    + rewrite Happ. exists (track ++ [last_pt]). split; [reflexivity|].
      split; [rewrite length_app; simpl; lia|]. split.
      * exists (filter (Track.has pts) (update_data.range0 1000 5) ++ [999]). split.
        -- apply sorted_snoc; [exact Hsorted|].
           rewrite Forall_forall in *. intros i Hi. apply Hidx.
           apply filter_In in Hi. tauto.
        -- now apply picks_snoc.
      * intros p Hp. rewrite Hpt in Hp. injection Hp as <-. split.
        -- intros Hnil. apply app_eq_nil in Hnil as [_ Hnil]. discriminate.
        -- left. apply last_last.
    + rewrite Hsame. exists track. split; [reflexivity|].
      split; [lia|]. split.
      * eexists. split; eassumption.
      * intros p Hp. rewrite Hpt in Hp. injection Hp as <-. split; [exact Hne|now right].
  - exists track. split; [reflexivity|]. split; [lia|]. split.
    + eexists. split; eassumption.
    + intros p Hp. rewrite Hpt in Hp. discriminate.
Qed.

(** The track of a drifter whose rows are well formed. *)
Lemma drifter_track_rows (rows : list (json * json * json)) :
  forallb Track.drifter_coords_ok rows = true ->
  exists track,
    update_data.drifter_track (JList (map Track.drifter_row rows)) = Ok track
    /\ List.length track <= 200
    /\ Track.in_row_order (map Track.drifter_point_of rows) track
    /\ forall p,
         nth_error (map Track.drifter_point_of rows) (List.length rows - 1)
         = Some (Some p) ->
         track <> [] /\ List.last track JNull = p.
Proof.
  intros Hok. set (pts := map Track.drifter_point_of rows).
  exists (Py.lastn 200 (Track.somes pts)). split; [|split; [|split]].
  - unfold update_data.drifter_track, update_data.drifter_points. cbn [Py.iter bind].
    rewrite (drifter_loop rows Hok). reflexivity.
  - unfold Py.lastn. rewrite length_skipn. lia.
  - exists (Py.lastn 200 (Track.idx_somes 0 pts)). split.
    + apply sorted_skipn. apply idx_somes_sorted.
    + unfold Py.lastn.
      rewrite (picks_length _ _ _ (somes_in_row_order pts)).
      apply picks_skipn. apply somes_in_row_order.
  - intros p Hp.
    assert (Hp' : nth_error pts (List.length pts - 1) = Some (Some p)).
    { unfold pts at 2. now rewrite length_map. }
    destruct (somes_last pts p Hp') as [l Hl].
    unfold Py.lastn. rewrite Hl.
    assert (Hk : List.length (l ++ [p]) - 200 < List.length (l ++ [p])).
    { rewrite length_app. simpl. lia. }
    split.
    + intros Hnil. apply (f_equal (@List.length json)) in Hnil.
      rewrite length_skipn in Hnil. simpl in Hnil. lia.
    + rewrite last_skipn by exact Hk. apply last_last.
Qed.

(** C1: the subsampling of [fetch_glider_track] does not keep to 200
    points. A trajectory of 1000 rows whose points all differ gives 201
    points: the stride keeps 200 rows and the last row is appended. A
    trajectory of 399 rows gives 399 points: the stride [399 // 200] is 1 and
    every row is kept. *)
Theorem glider_track_exceeds_200_points :
  List.length Inputs.rows_1000 = 1000
  /\ List.length (update_data.fetch_glider_track Inputs.net_glider_1000 (JStr "ng645")
                    Inputs.glider_base) = 201
  /\ ~ (List.length (update_data.fetch_glider_track Inputs.net_glider_1000 (JStr "ng645")
                       Inputs.glider_base) <= 200)
  /\ List.length MoreInputs.rows_399 = 399
  /\ List.length (update_data.fetch_glider_track MoreInputs.net_glider_399 (JStr "ng645")
                    Inputs.glider_base) = 399.
Proof.
  assert (H : List.length (update_data.fetch_glider_track Inputs.net_glider_1000 (JStr "ng645")
                             Inputs.glider_base) = 201)
    by (vm_compute; reflexivity).
  split; [vm_compute; reflexivity|]. split; [exact H|].
  split; [rewrite H; lia|].
  split; vm_compute; reflexivity.
Qed.

(** What does hold of the tracks: the track fetched for a glider trajectory
    of 1000 well-formed rows has at most 201 points (at most 200 rows of the stride
    and the last row), its points come from rows of strictly increasing index
    and, when the last row has both coordinates, it ends with the point of
    the last row or with an equal point. The track of a drifter has at most
    200 points, from rows of strictly increasing index, and ends with the
    point of the last row when that row has both coordinates. *)
Theorem track_subsampling :
  (forall (net : network) (dataset_id : json) (erddap_base : string)
          (data table : json) (rows : list (json * json * json)),
     fetch_json net (GLIDER_URL erddap_base dataset_id) = Some data ->
     Py.get data "table" (JDict []) = Ok table ->
     Py.get table "rows" (JList []) = Ok (JList (map Track.glider_row rows)) ->
     forallb Track.glider_coords_ok rows = true ->
     List.length rows = 1000 ->
     let track := update_data.fetch_glider_track net dataset_id erddap_base in
     let pts := map Track.glider_point_of rows in
     List.length track <= 201
     /\ Track.in_row_order pts track
     /\ forall p, nth_error pts 999 = Some (Some p) -> Track.ends_with track p)
  /\ (forall rows : list (json * json * json),
        forallb Track.drifter_coords_ok rows = true ->
        exists track,
          update_data.drifter_track (JList (map Track.drifter_row rows)) = Ok track
          /\ List.length track <= 200
          /\ Track.in_row_order (map Track.drifter_point_of rows) track
          /\ forall p,
               nth_error (map Track.drifter_point_of rows) (List.length rows - 1)
               = Some (Some p) ->
               track <> [] /\ List.last track JNull = p).
Proof.
  split.
  - intros net dataset_id erddap_base data table rows Hfetch Htable Hrows Hok Hlen.
    destruct (glider_track_1000 rows data table Hok Hlen Htable Hrows)
      as [track [Hrun H]].
    unfold update_data.fetch_glider_track. rewrite Hfetch, Hrun. exact H.
  - exact drifter_track_rows.
Qed.

Lemma track_subsampling_witness :
  List.length (update_data.fetch_glider_track Inputs.net_glider_1000 (JStr "ng645")
                 Inputs.glider_base) <= 201
  /\ exists track,
       update_data.drifter_track
         (JList (map Track.drifter_row
                   [(Inputs.num 2725 (-2), Inputs.num (-9050) (-2), JStr "2024-01-15T12:00:00Z")]))
       = Ok track
       /\ List.length track <= 200.
Proof.
  split.
  - apply (proj1 track_subsampling Inputs.net_glider_1000 (JStr "ng645") Inputs.glider_base
             (Track.answer (map Track.glider_row Inputs.rows_1000))
             (JDict [("columnNames", JList [JStr "time"; JStr "latitude"; JStr "longitude"]);
                     ("rows", JList (map Track.glider_row Inputs.rows_1000))])
             Inputs.rows_1000).
    + reflexivity.
    + reflexivity.
    + reflexivity.
    + vm_compute. reflexivity.
    + vm_compute. reflexivity.
  - destruct (proj2 track_subsampling
                [(Inputs.num 2725 (-2), Inputs.num (-9050) (-2), JStr "2024-01-15T12:00:00Z")])
      as [track [Hrun [Hlen _]]].
    + reflexivity.
    + exists track. split; assumption.
Defined.

(* ================================================================== *)
(** ** The cap of the tide stations *)

Lemma coops_item_no_current (item : json) (stations built : list json) :
  Forall no_current stations ->
  update_data.coops_item item stations = Ok built ->
  Forall no_current built.
Proof.
  intros Hall H. unfold update_data.coops_item in H. bind_inv H.
  - injection H as <-. exact Hall.
  - injection H as <-. apply Forall_app. split; [exact Hall|].
    constructor; [|constructor]. eexists. split; reflexivity.
Qed.

Lemma coops_loop_no_current (items : list json) :
  forall stations built,
    Forall no_current stations ->
    for_each update_data.coops_item items stations = Ok built ->
    Forall no_current built.
Proof.
  induction items as [|item items IH]; intros stations built Hall H.
  - injection H as <-. exact Hall.
  - cbn [for_each] in H.
    destruct (update_data.coops_item item stations) as [stations'|] eqn:E; [|discriminate].
    cbn [bind] in H. eapply IH; [|exact H].
    eapply coops_item_no_current; eassumption.
Qed.

(** The tide stations, for comparison with the buoys: the live reading is
    asked for the first hundred records, and a record after them has none. *)
Lemma tide_cap_is_on_records (net : network) (items stations : list json)
  (i : nat) (s : json) :
  update_data.coops_stations net items = Ok stations ->
  100 <= i ->
  nth_error stations i = Some s ->
  no_current s.
Proof.
  unfold update_data.coops_stations. intros H Hi Hs.
  destruct (for_each update_data.coops_item items []) as [built|] eqn:E; [|discriminate].
  cbn [bind] in H.
  assert (Hst : stations = map (update_data.coops_live net) (firstn 100 built)
                           ++ skipn 100 built) by congruence.
  clear H. subst stations.
  pose proof (coops_loop_no_current items [] built (Forall_nil _) E) as Hall.
  assert (Hlen : i < List.length (map (update_data.coops_live net) (firstn 100 built)
                                  ++ skipn 100 built)).
  { apply nth_error_Some. congruence. }
  rewrite length_app, length_map, length_firstn, length_skipn in Hlen.
  rewrite nth_error_app2 in Hs by (rewrite length_map, length_firstn; lia).
  apply nth_error_In in Hs.
  assert (Hin : In s built).
  { rewrite <- (firstn_skipn 100 built). apply in_or_app. now right. }
  rewrite Forall_forall in Hall. now apply Hall.
Qed.

(* ================================================================== *)
(** ** The document of the hypoxia stations *)

Lemma update_stations_length (net : network) (l : list json) :
  forall l', update_data.update_stations net l = Ok l' -> List.length l' = List.length l.
Proof.
  induction l as [|station l IH]; intros l' H; cbn [update_data.update_stations] in H.
  - injection H as H. now subst l'.
  - destruct (update_data.update_station net station) as [station'|]; [|discriminate].
    cbn [bind] in H.
    destruct (update_data.update_stations net l) as [rest|]; [|discriminate].
    cbn [bind] in H. injection H as H. subst l'. simpl. now rewrite (IH rest).
Qed.

(** The hypoxia update rewrites its document with as many stations as it
    read and leaves a [count] the document has as it is. *)
Lemma hypoxia_keeps_count (net : network) (now : string) (d : Dict.t json)
  (l : list json) (doc : json) :
  Dict.get "stations" d = Some (JList l) ->
  update_data.update_ndbc_hypoxia net now (Some (JDict d)) = Ok (Some doc) ->
  exists l',
    Py.getitem doc "stations" = Ok (JList l')
    /\ List.length l' = List.length l
    /\ Py.getitem doc "count" = Py.getitem (JDict d) "count".
Proof.
  intros Hst H. unfold update_data.update_ndbc_hypoxia in H.
  cbn [Py.getitem] in H. rewrite Hst in H. cbn [bind Py.len Py.iter] in H.
  destruct (update_data.update_stations net l) as [l'|] eqn:E; [|discriminate].
  cbn [bind Py.setitem] in H.
  assert (Hdoc : doc = JDict (Dict.set "updated" (JStr now)
                                (Dict.set "stations" (JList l') d))) by congruence.
  subst doc. exists l'. cbn [Py.getitem].
  rewrite (dict_get_set_other "stations" "updated") by discriminate.
  rewrite dict_get_set_same.
  rewrite (dict_get_set_other "count" "updated"),
    (dict_get_set_other "count" "stations") by discriminate.
  split; [reflexivity|]. split; [|reflexivity].
  now apply (update_stations_length net l).
Qed.

(* ================================================================== *)
(** ** Further properties of the feed parsers *)

Lemma split_go_length (sep : ascii) (s : string) :
  forall tok, List.length (PyStr.split_go sep tok s) = S (count_chr sep s).
Proof.
  induction s as [|d s IH]; intros tok; [reflexivity|].
  cbn [PyStr.split_go count_chr].
  destruct (Ascii.eqb d sep); cbn [List.length]; rewrite IH; reflexivity.
Qed.

(** A text has one line more than it has line feeds once stripped. *)
Lemma lines_of_length (text : string) :
  List.length (Feed.lines_of text) = S (count_chr newline (PyStr.strip text)).
Proof. apply split_go_length. Qed.

(** Each parser is a function of the lines of the text. *)
Lemma ocean_feed_by_lines (text : string) :
  update_data._parse_ocean_feed (Some text)
  = if List.length (Feed.lines_of text) <? 3 then Ok None
    else
      st <- update_data.scan_ocean
              (Feed.col_map_of (PyStr.split_ws (nth 0 (Feed.lines_of text) "")))
              (Feed.slice 2 50 (Feed.lines_of text))
              (update_data.mk_ocean_state update_data.readings0 None) ;;
      Ok (update_data.ocean_result st).
Proof.
  unfold update_data._parse_ocean_feed, update_data.ocean_scan.
  destruct text as [|c text']; [reflexivity|].
  destruct (List.length (Feed.lines_of (String c text')) <? 3); [reflexivity|].
  destruct (update_data.scan_ocean _ _ _); reflexivity.
Qed.

Lemma txt_feed_by_lines (text : string) :
  update_data._parse_txt_feed (Some text)
  = if List.length (Feed.lines_of text) <? 3 then None
    else update_data.scan_txt
           (Feed.col_map_of (PyStr.split_ws (nth 0 (Feed.lines_of text) "")))
           (Feed.slice 2 10 (Feed.lines_of text)).
Proof.
  unfold update_data._parse_txt_feed. destruct text as [|c text']; reflexivity.
Qed.

Lemma met_feed_by_lines (text : string) :
  update_data._parse_ndbc_met_txt (Some text)
  = if List.length (Feed.lines_of text) <? 3 then None
    else match update_data.scan_met
                 (Feed.col_map_of (PyStr.split_ws (nth 0 (Feed.lines_of text) "")))
                 (Feed.slice 2 6 (Feed.lines_of text)) [] with
         | [] => None
         | readings => Some readings
         end.
Proof.
  unfold update_data._parse_ndbc_met_txt. destruct text as [|c text']; reflexivity.
Qed.

(** X1: a text that, once stripped, has fewer than two line feeds, so fewer
    than three lines, gives [None] in the three parsers of [update_data.py]
    and the two of [update_stations.py]. *)
Theorem fewer_than_three_lines (text : string) :
  count_chr newline (PyStr.strip text) < 2 ->
  update_data._parse_ocean_feed (Some text) = Ok None
  /\ update_data._parse_txt_feed (Some text) = None
  /\ update_data._parse_ndbc_met_txt (Some text) = None
  /\ update_stations.parse_ocean_feed (Some text) = Ok None
  /\ update_stations.parse_txt_feed (Some text) = None.
Proof.
  intros H.
  assert (Hlen : (List.length (Feed.lines_of text) <? 3) = true).
  { apply Nat.ltb_lt. rewrite lines_of_length. lia. }
  unfold update_stations.parse_ocean_feed, update_stations.parse_txt_feed.
  rewrite ocean_feed_by_lines, txt_feed_by_lines, met_feed_by_lines, Hlen.
  repeat split.
Qed.

Lemma fewer_than_three_lines_witness :
  update_data._parse_txt_feed
    (Some ("#YY MM DD hh mm WTMP" ++ String newline "2024 01 15 12 30 22.3"))%string
  = None.
Proof.
  apply (fewer_than_three_lines
           ("#YY MM DD hh mm WTMP" ++ String newline "2024 01 15 12 30 22.3")%string).
  vm_compute. lia.
Defined.

Lemma slice_firstn {A : Type} (a b : nat) (l : list A) :
  Feed.slice a b (firstn b l) = Feed.slice a b l.
Proof.
  unfold Feed.slice. rewrite skipn_firstn_comm, firstn_firstn.
  now rewrite Nat.min_id.
Qed.

Lemma window_agrees (w : nat) (l1 l2 : list string) :
  3 <= w -> firstn w l1 = firstn w l2 ->
  (List.length l1 <? 3) = (List.length l2 <? 3)
  /\ nth 0 l1 "" = nth 0 l2 ""
  /\ Feed.slice 2 w l1 = Feed.slice 2 w l2.
Proof.
  intros Hw H. split; [|split].
  - pose proof (f_equal (@List.length string) H) as Hl.
    rewrite !length_firstn in Hl.
    destruct (Nat.ltb_spec (List.length l1) 3), (Nat.ltb_spec (List.length l2) 3);
      try reflexivity; lia.
  - destruct w as [|w]; [lia|].
    destruct l1, l2; simpl in *; congruence.
  - rewrite <- (slice_firstn 2 w l1), <- (slice_firstn 2 w l2). now rewrite H.
Qed.

(** X2: a parser reads the header row and its window of rows only: two texts
    with the same first 50 lines give the same result in the ocean feed
    parser, with the same first 10 in the fallback parser, with the same
    first 6 in the meteorological parser. *)
Theorem only_the_window_is_read (text1 text2 : string) :
  (firstn 50 (Feed.lines_of text1) = firstn 50 (Feed.lines_of text2) ->
   update_data._parse_ocean_feed (Some text1) = update_data._parse_ocean_feed (Some text2))
  /\ (firstn 10 (Feed.lines_of text1) = firstn 10 (Feed.lines_of text2) ->
      update_data._parse_txt_feed (Some text1) = update_data._parse_txt_feed (Some text2))
  /\ (firstn 6 (Feed.lines_of text1) = firstn 6 (Feed.lines_of text2) ->
      update_data._parse_ndbc_met_txt (Some text1)
      = update_data._parse_ndbc_met_txt (Some text2)).
Proof.
  split; [|split]; intros H.
  - destruct (window_agrees 50 _ _ ltac:(lia) H) as [H1 [H2 H3]].
    rewrite !ocean_feed_by_lines, H1, H2, H3. reflexivity.
  - destruct (window_agrees 10 _ _ ltac:(lia) H) as [H1 [H2 H3]].
    rewrite !txt_feed_by_lines, H1, H2, H3. reflexivity.
  - destruct (window_agrees 6 _ _ ltac:(lia) H) as [H1 [H2 H3]].
    rewrite !met_feed_by_lines, H1, H2, H3. reflexivity.
Qed.

Lemma only_the_window_is_read_witness :
  update_data._parse_ocean_feed
    (Some (ocean_feed_49_rows "2024 01 14 12 30 1.0 21.5 MM 35.1 MM 6.2 MM MM MM MM"))
  = update_data._parse_ocean_feed
      (Some (ocean_feed_49_rows "2024 01 14 12 30 1.0 MM MM MM MM MM MM MM MM MM")).
Proof.
  apply (proj1 (only_the_window_is_read _ _)).
  vm_compute. reflexivity.
Defined.
(* ---------------------------------------------------------------- *)

Lemma dict_set_keys {V : Type} (k : string) (v : V) (d : Dict.t V) :
  In k (Dict.keys d) -> Dict.keys (Dict.set k v d) = Dict.keys d.
Proof.
  induction d as [|[k' v'] d IH]; simpl; [tauto|].
  intros [Hk|Hk].
  - subst k'. now rewrite String.eqb_refl.
  - destruct (String.eqb k k'); [reflexivity|]. simpl. now rewrite (IH Hk).
Qed.

Lemma dict_set_new {V : Type} (k : string) (v : V) (d : Dict.t V) :
  ~ In k (Dict.keys d) -> Dict.set k v d = d ++ [(k, v)].
Proof.
  induction d as [|[k' v'] d IH]; simpl; [reflexivity|].
  intros H. destruct (String.eqb k k') eqn:E.
  - apply String.eqb_eq in E. subst. tauto.
  - rewrite IH by tauto. reflexivity.
Qed.

Lemma dict_set_values {V : Type} (Q : V -> Prop) (k : string) (v : V) (d : Dict.t V) :
  Forall (fun kv => Q (snd kv)) d -> Q v ->
  Forall (fun kv => Q (snd kv)) (Dict.set k v d).
Proof.
  intros Hd Hv. induction Hd as [|[k' v'] d Hx Hd IH]; simpl.
  - now repeat constructor.
  - destruct (String.eqb k k'); constructor; auto.
Qed.

Lemma dict_mem_false {V : Type} (k : string) (d : Dict.t V) :
  Dict.mem k d = false -> ~ In k (Dict.keys d).
Proof.
  unfold Dict.mem. induction d as [|[k' v'] d IH]; simpl; [tauto|].
  destruct (String.eqb k k') eqn:E; [discriminate|].
  intros H [Hk|Hk]; [|now apply IH].
  subst k'. now rewrite String.eqb_refl in E.
Qed.

Lemma in_keys {V : Type} (kv : string * V) (d : Dict.t V) :
  In kv d -> In (fst kv) (Dict.keys d).
Proof. apply in_map. Qed.

Lemma nodup_keys_filter {V : Type} (f : string * V -> bool) (d : Dict.t V) :
  NoDup (Dict.keys d) -> NoDup (Dict.keys (filter f d)).
Proof.
  induction d as [|kv d IH]; simpl; [auto|].
  intros H. inversion H as [|? ? Hnotin Hnd]; subst.
  destruct (f kv); [|auto]. simpl. constructor; [|auto].
  intros Hin. apply Hnotin. unfold Dict.keys in *.
  apply in_map_iff in Hin as [x [Hx Hin]]. apply filter_In in Hin as [Hin _].
  apply in_map_iff. now exists x.
Qed.

Lemma get_val_not_ge (col_map : Dict.t nat) (parts : list string) (col : string)
  (v : PyFloat.float) :
  update_data.get_val col_map parts col = Some v ->
  Feed.str_in col ["DEPTH"] = false ->
  PyFloat.geb v Feed.f99 = false.
Proof.
  unfold update_data.get_val. intros H Hcol. rewrite Hcol in H.
  destruct (Dict.get col col_map) as [idx|]; [|discriminate].
  destruct (List.length parts <=? idx); [discriminate|].
  destruct (Feed.str_in _ Feed.sentinels); [discriminate|].
  destruct (PyNum.float_of_str _) as [x|]; [|discriminate].
  destruct (PyFloat.geb x Feed.f99) eqn:E; cbn [andb negb] in H; [discriminate|].
  now injection H as <-.
Qed.

Lemma fill_inv (col_map : Dict.t nat) (parts : list string) (key col : string)
  (r : Dict.t json) :
  ocean_inv r -> In key ocean_names -> Feed.str_in col ["DEPTH"] = false ->
  ocean_inv (update_data.fill col_map parts key col r).
Proof.
  intros [Hkeys Hvals] Hkey Hcol. unfold update_data.fill.
  destruct (update_data.reading_is_none key r); [|now split].
  split.
  - rewrite dict_set_keys; [exact Hkeys|]. now rewrite Hkeys.
  - apply (dict_set_values (fun v => v = JNull \/ float_not_ge Feed.f99 v));
      [exact Hvals|].
    destruct (update_data.get_val col_map parts col) as [v|] eqn:E; [|now left].
    right. exists v. split; [reflexivity|]. eapply get_val_not_ge; eassumption.
Qed.

Lemma scan_ocean_inv (col_map : Dict.t nat) (rows : list string) :
  forall st st',
    ocean_inv (update_data.readings st) ->
    update_data.scan_ocean col_map rows st = Ok st' ->
    ocean_inv (update_data.readings st').
Proof.
  induction rows as [|line rows IH]; intros st st' Hinv; cbn [update_data.scan_ocean].
  - now intros [= <-].
  - destruct (List.length (PyStr.split_ws line) <? 5); [now apply IH|].
    destruct (update_data.row_date col_map (PyStr.split_ws line)) as [d|]; [|now apply IH].
    destruct (update_data.set_timestamp d (update_data.timestamp st)) as [ts|e];
      [|discriminate].
    cbn [bind].
    set (r := update_data.fill col_map _ "turb" "TURB" _).
    assert (Hr : ocean_inv r).
    { unfold r. repeat (apply fill_inv; [|simpl; tauto|reflexivity]). exact Hinv. }
    clearbody r. destruct (_ && _)%bool.
    + now intros [= <-].
    + apply IH. exact Hr.
Qed.

Lemma ocean_result_entries (st : update_data.ocean_state) (r : Dict.t json) :
  ocean_inv (update_data.readings st) ->
  update_data.ocean_result st = Some r ->
  Forall ocean_entry r /\ NoDup (Dict.keys r).
Proof.
  intros [Hkeys Hvals] H. unfold update_data.ocean_result in H.
  set (fields := update_data.drop_none (update_data.readings st)) in *.
  assert (Hf : Forall ocean_entry fields).
  { apply Forall_forall. intros kv Hin. unfold fields, update_data.drop_none in Hin.
    apply filter_In in Hin as [Hin Hsome]. right. split.
    - rewrite <- Hkeys. now apply in_keys.
    - rewrite Forall_forall in Hvals. destruct (Hvals kv Hin) as [Hn|Hok]; [|exact Hok].
      rewrite Hn in Hsome. discriminate. }
  assert (Hnd : NoDup (Dict.keys fields)).
  { apply nodup_keys_filter. rewrite Hkeys. unfold ocean_names.
    repeat constructor; simpl; intuition discriminate. }
  assert (Hts : ~ In "timestamp" (Dict.keys fields)).
  { intros Hin. unfold Dict.keys in Hin. apply in_map_iff in Hin as [kv [Hk Hin]].
    rewrite Forall_forall in Hf. destruct (Hf kv Hin) as [[_ [s [Hs _]]]|[Hname _]].
    - unfold fields, update_data.drop_none in Hin.
      apply filter_In in Hin as [Hin _]. apply in_keys in Hin.
      rewrite Hkeys, Hk in Hin. simpl in Hin. intuition discriminate.
    - rewrite Hk in Hname. simpl in Hname. intuition discriminate. }
  clearbody fields.
  assert (Hres : forall ts,
             String.eqb ts "" = false ->
             Forall ocean_entry (Dict.set "timestamp" (JStr ts) fields)
             /\ NoDup (Dict.keys (Dict.set "timestamp" (JStr ts) fields))).
  { intros ts Hne. rewrite dict_set_new by exact Hts. split.
    - apply Forall_app. split; [exact Hf|]. constructor; [|constructor].
      left. split; [reflexivity|]. exists ts. split; [reflexivity|].
      now apply String.eqb_neq.
    - unfold Dict.keys. rewrite map_app. simpl.
      apply NoDup_app; [exact Hnd|repeat constructor; simpl; tauto|].
      intros x Hx [Hx'|[]]. subst x. now apply Hts. }
  destruct (update_data.timestamp st) as [ts|].
  - destruct (String.eqb ts "") eqn:Ets; cbn [negb] in H.
    + destruct fields; [discriminate|]. injection H as <-. now split.
    + destruct (Dict.set "timestamp" (JStr ts) fields) eqn:E; [discriminate|].
      injection H as <-. rewrite <- E. now apply Hres.
  - destruct fields; [discriminate|]. injection H as <-. now split.
Qed.

(** X3: in the mapping that the ocean feed parser returns, the keys are all
    different, an entry is the timestamp, a text that is not empty, or one of
    the five fields with a float for which [v >= 99] is false: no reading of
    99 or more is ever returned. *)
Theorem ocean_feed_entries (text : option string) (r : Dict.t json) :
  update_data._parse_ocean_feed text = Ok (Some r) ->
  Forall ocean_entry r /\ NoDup (Dict.keys r).
Proof.
  unfold update_data._parse_ocean_feed, update_data.ocean_scan.
  destruct text as [[|c text']|]; cbn [bind]; try discriminate.
  destruct (List.length _ <? 3); cbn [bind]; [discriminate|].
  destruct (update_data.scan_ocean _ _ _) as [st|e] eqn:E; cbn [bind]; [|discriminate].
  intros H. apply (ocean_result_entries st).
  - eapply scan_ocean_inv; [|exact E]. split; [reflexivity|].
    unfold update_data.readings0. cbn [update_data.readings].
    repeat constructor; now left.
  - congruence.
Qed.

Lemma ocean_feed_entries_witness :
  exists r,
    update_data._parse_ocean_feed (Some ocean_feed_with_readings) = Ok (Some r)
    /\ Forall ocean_entry r
    /\ List.length r = 4.
Proof.
  destruct (update_data._parse_ocean_feed (Some ocean_feed_with_readings))
    as [[r|]|] eqn:E; try (vm_compute in E; discriminate).
  exists r. split; [reflexivity|]. split.
  - apply (ocean_feed_entries (Some ocean_feed_with_readings) r E).
  - vm_compute in E. injection E as <-. reflexivity.
Defined.

(* ---------------------------------------------------------------- *)

Lemma fill_keeps (col_map : Dict.t nat) (parts : list string) (key col k : string)
  (v : json) (r : Dict.t json) :
  Dict.get k r = Some v -> is_none v = false ->
  Dict.get k (update_data.fill col_map parts key col r) = Some v.
Proof.
  intros Hget Hv. unfold update_data.fill, update_data.reading_is_none, Dict.get_default.
  destruct (String.eqb key k) eqn:E.
  - apply String.eqb_eq in E. subst key. rewrite Hget, Hv. exact Hget.
  - match goal with |- context [if ?b then _ else _] => destruct b end; [|exact Hget].
    rewrite dict_get_set_other; [exact Hget|].
    intros ->. now rewrite String.eqb_refl in E.
Qed.

Lemma put_keeps (col_map : Dict.t nat) (parts : list string) (key name k : string)
  (v : json) (r : Dict.t json) :
  Dict.get k r = Some v ->
  Dict.get k (update_data.put col_map parts key name r) = Some v.
Proof.
  intros Hget. unfold update_data.put, Dict.mem.
  destruct (String.eqb key k) eqn:E.
  - apply String.eqb_eq in E. subst key. rewrite Hget. exact Hget.
  - match goal with |- context [if ?b then _ else _] => destruct b end; [|exact Hget].
    destruct (update_data.get col_map parts name); [|exact Hget].
    rewrite dict_get_set_other; [exact Hget|].
    intros ->. now rewrite String.eqb_refl in E.
Qed.

(** X4: the first valid value wins. A reading that the scan of the ocean
    feed has found, and its timestamp, are those of the state the scan ends
    in, whatever the later rows hold; so is a reading that the scan of the
    meteorological feed has found. *)
Theorem first_valid_value_wins (col_map : Dict.t nat) (rows : list string) :
  (forall st st',
     update_data.scan_ocean col_map rows st = Ok st' ->
     (forall k v,
        Dict.get k (update_data.readings st) = Some v -> is_none v = false ->
        Dict.get k (update_data.readings st') = Some v)
     /\ (forall ts,
           update_data.timestamp st = Some ts -> update_data.timestamp st' = Some ts))
  /\ (forall r k v,
        Dict.get k r = Some v ->
        Dict.get k (update_data.scan_met col_map rows r) = Some v).
Proof.
  split.
  - induction rows as [|line rows IH]; intros st st'; cbn [update_data.scan_ocean].
    + intros [= <-]. split; auto.
    + destruct (List.length (PyStr.split_ws line) <? 5); [apply IH|].
      destruct (update_data.row_date col_map (PyStr.split_ws line)) as [d|]; [|apply IH].
      destruct (update_data.set_timestamp d (update_data.timestamp st)) as [ts'|e] eqn:Ets;
        [|discriminate].
      cbn [bind].
      set (r := update_data.fill col_map _ "turb" "TURB" _).
      assert (Hr : forall k v,
                 Dict.get k (update_data.readings st) = Some v -> is_none v = false ->
                 Dict.get k r = Some v).
      { intros k v Hget Hv. unfold r. repeat (apply fill_keeps; [|exact Hv]). exact Hget. }
      assert (Hts : forall ts, update_data.timestamp st = Some ts -> ts' = Some ts).
      { intros ts H. unfold update_data.set_timestamp in Ets. rewrite H in Ets.
        congruence. }
      clearbody r. destruct (_ && _)%bool.
      * intros [= <-]. cbn [update_data.readings update_data.timestamp]. split; auto.
      * intros H. destruct (IH _ _ H) as [H1 H2].
        cbn [update_data.readings update_data.timestamp] in *. split.
        -- intros k v Hget Hv. apply H1; auto.
        -- intros ts Hs. apply H2. auto.
  - induction rows as [|line rows IH]; intros r k v Hget; cbn [update_data.scan_met].
    + exact Hget.
    + destruct (List.length (PyStr.split_ws line) <? 10); [now apply IH|].
      set (r' := update_data.put col_map _ "wtmp" "WTMP" _).
      assert (Hr : Dict.get k r' = Some v).
      { unfold r'. repeat apply put_keeps. exact Hget. }
      clearbody r'. destruct (4 <=? List.length r'); [exact Hr|now apply IH].
Qed.

Lemma first_valid_value_wins_witness :
  Dict.get "wdir"
    (update_data.scan_met (Feed.col_map_of (PyStr.split_ws Inputs.met_header))
       ["2024 01 15 12 30 270  5.0  7.0   1.2     8   5.5 140 1013.2  20.1  22.3  18.0   MM   MM    MM"]
       [("wdir", JFloat (Inputs.lit "150"))])
  = Some (JFloat (Inputs.lit "150")).
Proof.
  apply (proj2 (first_valid_value_wins _ _)). reflexivity.
Defined.

(** X5: the scan of the ocean feed stops at the row that completes the pair
    of dissolved oxygen and temperature: when the scan of some rows ends with
    both found, from a state where they were not, rows that follow change
    nothing. *)
Theorem scan_stops_when_both_found (col_map : Dict.t nat) (rows more : list string) :
  forall st st',
    both_found st = false ->
    update_data.scan_ocean col_map rows st = Ok st' ->
    both_found st' = true ->
    update_data.scan_ocean col_map (rows ++ more) st = Ok st'.
Proof.
  induction rows as [|line rows IH]; intros st st' Hno; cbn [update_data.scan_ocean app].
  - intros [= <-] Hyes. congruence.
  - destruct (List.length (PyStr.split_ws line) <? 5); [now apply IH|].
    destruct (update_data.row_date col_map (PyStr.split_ws line)) as [d|]; [|now apply IH].
    destruct (update_data.set_timestamp d (update_data.timestamp st)) as [ts'|e];
      [|discriminate].
    cbn [bind].
    set (r := update_data.fill col_map _ "turb" "TURB" _). clearbody r.
    destruct (negb (update_data.reading_is_none "do" r)
              && negb (update_data.reading_is_none "temp" r))%bool eqn:E.
    + auto.
    + apply IH. exact E.
Qed.

Lemma scan_stops_when_both_found_witness :
  let col_map := Feed.col_map_of (PyStr.split_ws Inputs.ocean_header) in
  let rows := ["2024 01 15 12 30 1.0 MM MM MM MM MM MM MM MM MM";
               "2024 01 15 12 00 1.0 21.5 MM 35.1 MM 6.2 MM MM MM MM"] in
  let more := ["2024 01 15 11 30 1.0 22.0 MM 35.0 MM 6.0 MM MM 8.1 MM"] in
  let st := update_data.mk_ocean_state update_data.readings0 None in
  exists st',
    update_data.scan_ocean col_map rows st = Ok st'
    /\ update_data.scan_ocean col_map (rows ++ more) st = Ok st'.
Proof.
  intros col_map rows more st.
  destruct (update_data.scan_ocean col_map rows st) as [st'|] eqn:E;
    [|vm_compute in E; discriminate].
  exists st'. split; [reflexivity|].
  apply scan_stops_when_both_found.
  - reflexivity.
  - exact E.
  - vm_compute in E. injection E as <-. reflexivity.
Defined.

(* ---------------------------------------------------------------- *)

Lemma met_get_lt (col_map : Dict.t nat) (parts : list string) (name : string)
  (v : PyFloat.float) :
  update_data.get col_map parts name = Some v -> PyFloat.ltb v Feed.f999 = true.
Proof.
  unfold update_data.get.
  destruct (Dict.get name col_map) as [idx|]; [|discriminate].
  destruct (List.length parts <=? idx); [discriminate|].
  destruct (Feed.str_in _ Feed.sentinels); [discriminate|].
  destruct (PyNum.float_of_str _) as [x|]; [|discriminate].
  destruct (PyFloat.ltb x Feed.f999) eqn:E; [|discriminate].
  now intros [= <-].
Qed.

Lemma put_inv (col_map : Dict.t nat) (parts : list string) (key name : string)
  (r : Dict.t json) :
  met_inv r -> In key met_names -> met_inv (update_data.put col_map parts key name r).
Proof.
  intros [Hnd Hall] Hkey. unfold update_data.put.
  destruct (Dict.mem key r) eqn:Hmem; cbn [negb]; [now split|].
  destruct (update_data.get col_map parts name) as [v|] eqn:E; [|now split].
  apply dict_mem_false in Hmem. rewrite dict_set_new by exact Hmem. split.
  - unfold Dict.keys in *. rewrite map_app. simpl.
    apply NoDup_app; [exact Hnd|repeat constructor; simpl; tauto|].
    intros x Hx [Hx'|[]]. subst x. now apply Hmem.
  - apply Forall_app. split; [exact Hall|]. constructor; [|constructor].
    split; [exact Hkey|]. exists v. split; [reflexivity|].
    eapply met_get_lt. exact E.
Qed.

Lemma scan_met_inv (col_map : Dict.t nat) (rows : list string) :
  forall r, met_inv r -> met_inv (update_data.scan_met col_map rows r).
Proof.
  induction rows as [|line rows IH]; intros r Hr; cbn [update_data.scan_met];
    [exact Hr|].
  destruct (List.length (PyStr.split_ws line) <? 10); [now apply IH|].
  set (r' := update_data.put col_map _ "wtmp" "WTMP" _).
  assert (Hr' : met_inv r').
  { unfold r'. repeat (apply put_inv; [|simpl; tauto]). exact Hr. }
  clearbody r'. destruct (4 <=? List.length r'); [exact Hr'|now apply IH].
Qed.

(** X6: the mapping that the meteorological parser returns is not empty and
    has at most seven entries; its keys are all different and among [wspd],
    [wdir], [wvht], [dpd], [pres], [atmp] and [wtmp]; every value is a float
    below 999 (so never a NaN). *)
Theorem met_feed_entries (text : option string) (r : Dict.t json) :
  update_data._parse_ndbc_met_txt text = Some r ->
  r <> [] /\ List.length r <= 7 /\ NoDup (Dict.keys r) /\ Forall met_entry r.
Proof.
  unfold update_data._parse_ndbc_met_txt.
  destruct text as [[|c text']|]; try discriminate.
  destruct (List.length _ <? 3); [discriminate|].
  set (cm := Feed.col_map_of _). set (rows := Feed.slice 2 6 _).
  pose proof (scan_met_inv cm rows [] (conj (NoDup_nil _) (Forall_nil _))) as [Hnd Hall].
  destruct (update_data.scan_met cm rows []) as [|kv r'] eqn:E; [discriminate|].
  intros [= <-]. split; [discriminate|]. split; [|now split].
  change 7 with (List.length met_names).
  rewrite <- (length_map fst (kv :: r')).
  apply NoDup_incl_length; [exact Hnd|].
  intros k Hk. apply in_map_iff in Hk as [x [<- Hx]].
  rewrite Forall_forall in Hall. now apply Hall.
Qed.

Lemma met_feed_entries_witness :
  exists r,
    update_data._parse_ndbc_met_txt (Some Inputs.met_text) = Some r
    /\ List.length r <= 7
    /\ Dict.get "pres" r = None.
Proof.
  destruct (update_data._parse_ndbc_met_txt (Some Inputs.met_text)) as [r|] eqn:E;
    [|vm_compute in E; discriminate].
  exists r. split; [reflexivity|]. split.
  - apply (met_feed_entries (Some Inputs.met_text) r E).
  - vm_compute in E. injection E as <-. reflexivity.
Defined.

Lemma scan_txt_entry (col_map : Dict.t nat) (rows : list string) (r : Dict.t json) :
  update_data.scan_txt col_map rows = Some r ->
  exists v, r = [("temp", JFloat v)] /\ PyFloat.ltb v Feed.f50 = true.
Proof.
  induction rows as [|line rows IH]; cbn [update_data.scan_txt]; [discriminate|].
  destruct (update_data.txt_row col_map (PyStr.split_ws line)) as [v|] eqn:E; [|exact IH].
  intros [= <-]. exists v. split; [reflexivity|].
  unfold update_data.txt_row in E.
  destruct (List.length _ <? 5); [discriminate|].
  destruct (Dict.get "WTMP" col_map) as [idx|]; [|discriminate].
  destruct (negb (idx =? 0) && _)%bool; [|discriminate].
  destruct (PyNum.float_of_str _) as [x|]; [|discriminate].
  destruct (PyFloat.ltb x Feed.f50) eqn:Hlt; cbn [andb] in E; [|discriminate].
  destruct (negb _); [|discriminate]. now injection E as <-.
Qed.

(** X7: the fallback parser of either script returns nothing or the mapping
    that holds [temp] alone, a float below 50: a missing-value marker such as
    99.0 or 999.0 is never returned as a water temperature. *)
Theorem txt_feed_entry (text : option string) (r : Dict.t json) :
  update_data._parse_txt_feed text = Some r
  \/ update_stations.parse_txt_feed text = Some r ->
  exists v, r = [("temp", JFloat v)] /\ PyFloat.ltb v Feed.f50 = true.
Proof.
  unfold update_stations.parse_txt_feed. intros H.
  assert (H' : update_data._parse_txt_feed text = Some r) by tauto. clear H.
  unfold update_data._parse_txt_feed in H'.
  destruct text as [[|c text']|]; try discriminate.
  destruct (List.length _ <? 3); [discriminate|].
  eapply scan_txt_entry. exact H'.
Qed.

Lemma txt_feed_entry_witness :
  exists v,
    update_data._parse_txt_feed (Some Inputs.met_text) = Some [("temp", JFloat v)]
    /\ PyFloat.ltb v Feed.f50 = true.
Proof.
  destruct (txt_feed_entry (Some Inputs.met_text) [("temp", JFloat (Inputs.lit "22.3"))])
    as [v [Hr Hv]].
  - left. vm_compute. reflexivity.
  - exists v. split; [|exact Hv]. rewrite <- Hr. vm_compute. reflexivity.
Defined.

(* ================================================================== *)
(** ** Further properties of the hypoxia stations *)

Lemma dict_set_set {V : Type} (k : string) (v1 v2 : V) (d : Dict.t V) :
  Dict.set k v2 (Dict.set k v1 d) = Dict.set k v2 d.
Proof.
  induction d as [|[k' v'] d IH]; simpl.
  - now rewrite String.eqb_refl.
  - destruct (String.eqb k k') eqn:E; simpl; rewrite E; [reflexivity|now rewrite IH].
Qed.

(** X8: a station that has no [current], or whose [current] is [None], gets
    a new mapping: it holds the reading's values under the reading's keys,
    the timestamp under [last_obs], and nothing under [timestamp]. *)
Theorem merge_creates_current (station readings : Dict.t json) :
  Dict.get "current" station = None \/ Dict.get "current" station = Some JNull ->
  NoDup (Dict.keys readings) ->
  exists merged,
    update_data.merge_station station readings
    = Ok (Dict.set "current" (JDict merged) station)
    /\ (forall k, k <> "timestamp" -> k <> "last_obs" ->
          Dict.get k merged = Dict.get k readings)
    /\ Dict.get "timestamp" merged = None
    /\ (Dict.get "last_obs" readings = None ->
        Dict.get "last_obs" merged = Dict.get "timestamp" readings).
Proof.
  intros Hcur Hnd.
  destruct (merge_readings_dict readings []) as [merged [Hm Hget]].
  exists merged. split; [|split; [|split]].
  - unfold update_data.merge_station, Dict.mem, Dict.get_default.
    destruct Hcur as [Hcur|Hcur]; rewrite Hcur; cbn [negb orb is_none];
      rewrite dict_get_set_same, Hm; cbn [bind]; now rewrite dict_set_set.
  - intros k Ht Hl. rewrite Hget. unfold stored.
    rewrite get_renamed_other, dict_get_rev by assumption.
    now destruct (Dict.get k readings).
  - rewrite Hget. unfold stored. now rewrite get_renamed_timestamp.
  - intros Hno. rewrite Hget. unfold stored.
    rewrite get_renamed_last_obs by (now rewrite dict_get_rev).
    rewrite dict_get_rev by assumption.
    now destruct (Dict.get "timestamp" readings).
Qed.

Lemma merge_creates_current_witness :
  exists merged,
    update_data.merge_station [("id", JStr "42001"); ("current", JNull)]
      Inputs.reading_with_timestamp
    = Ok [("id", JStr "42001"); ("current", JDict merged)]
    /\ Dict.get "temp" merged = Some (JInt 21)
    /\ Dict.get "last_obs" merged = Some (JStr "2024-01-15T12:30:00+00:00").
Proof.
  destruct (merge_creates_current [("id", JStr "42001"); ("current", JNull)]
              Inputs.reading_with_timestamp) as [merged [H1 [H2 [_ H4]]]].
  - right. reflexivity.
  - unfold Inputs.reading_with_timestamp. simpl.
    constructor; [simpl; intros [H|[]]; discriminate|].
    constructor; [simpl; tauto|constructor].
  - exists merged. split; [exact H1|]. split.
    + rewrite H2; [reflexivity|discriminate|discriminate].
    + rewrite H4; reflexivity.
Defined.

(** X9: when the [current] of a station is neither a mapping nor [None], the
    merge of a reading that is not empty raises [TypeError]: the station
    file is then not rewritten. *)
Theorem merge_into_non_mapping_raises (station readings : Dict.t json) (c : json) :
  Dict.get "current" station = Some c ->
  is_none c = false ->
  (forall d, c <> JDict d) ->
  readings <> [] ->
  update_data.merge_station station readings = Raise TypeError.
Proof.
  intros Hcur Hnone Hdict Hne.
  unfold update_data.merge_station, Dict.mem, Dict.get_default.
  rewrite Hcur, Hnone. cbn [negb orb]. rewrite Hcur.
  destruct readings as [|[key val] readings]; [congruence|].
  cbn [update_data.merge_readings].
  destruct c; try discriminate Hnone;
    try (exfalso; eapply Hdict; reflexivity);
    destruct (String.eqb key "timestamp"); reflexivity.
Qed.

Lemma merge_into_non_mapping_raises_witness :
  update_data.merge_station [("id", JStr "42001"); ("current", JList [])]
    Inputs.reading_temp_sal
  = Raise TypeError.
Proof.
  apply (merge_into_non_mapping_raises _ _ (JList [])).
  - reflexivity.
  - reflexivity.
  - discriminate.
  - discriminate.
Defined.

(** X10: merging the same reading a second time changes no key of the
    mapping. *)
Theorem merge_twice (readings current merged : Dict.t json) :
  update_data.merge_readings readings (JDict current) = Ok (JDict merged) ->
  exists again,
    update_data.merge_readings readings (JDict merged) = Ok (JDict again)
    /\ forall k, Dict.get k again = Dict.get k merged.
Proof.
  intros H.
  destruct (merge_readings_dict readings current) as [m1 [Hm1 Hget1]].
  assert (m1 = merged) by congruence. subst m1.
  destruct (merge_readings_dict readings merged) as [again [Hm2 Hget2]].
  exists again. split; [exact Hm2|]. intros k.
  rewrite Hget2, Hget1. now destruct (Dict.get k (stored readings)).
Qed.

Lemma merge_twice_witness :
  exists again,
    update_data.merge_readings Inputs.reading_with_timestamp
      (JDict [("do", JInt 5); ("last_obs", JStr "2024-01-15T12:30:00+00:00");
              ("temp", JInt 21)])
    = Ok (JDict again)
    /\ forall k,
         Dict.get k again
         = Dict.get k [("do", JInt 5); ("last_obs", JStr "2024-01-15T12:30:00+00:00");
                       ("temp", JInt 21)].
Proof.
  apply (merge_twice Inputs.reading_with_timestamp Inputs.current_with_obs).
  reflexivity.
Defined.

Lemma merge_station_other_keys (station readings station' : Dict.t json) :
  update_data.merge_station station readings = Ok station' ->
  forall k, k <> "current" -> Dict.get k station' = Dict.get k station.
Proof.
  unfold update_data.merge_station. intros H k Hk.
  destruct (update_data.merge_readings _ _) as [current|]; [|discriminate].
  cbn [bind] in H. injection H as <-.
  rewrite dict_get_set_other by exact Hk.
  destruct (_ || _)%bool; [|reflexivity].
  now apply dict_get_set_other.
Qed.

(** X11: the update of a hypoxia station touches [current] alone: the
    station stays a mapping with every other key as it was; and a station
    for which neither feed yields a reading is left exactly as it was. *)
Theorem update_station_keeps_the_station (net : network) (d : Dict.t json) (s' : json) :
  update_data.update_station net (JDict d) = Ok s' ->
  (exists d', s' = JDict d'
              /\ forall k, k <> "current" -> Dict.get k d' = Dict.get k d)
  /\ (forall sid,
        Dict.get "id" d = Some sid ->
        update_data._parse_ocean_feed (fetch_url net (NDBC_OCEAN_URL sid)) = Ok None ->
        update_data._parse_txt_feed (fetch_url net (NDBC_TXT_URL sid)) = None ->
        s' = JDict d).
Proof.
  unfold update_data.update_station. cbn [Py.getitem].
  destruct (Dict.get "id" d) as [sid|]; cbn [bind]; [|discriminate].
  destruct (update_data._parse_ocean_feed _) as [ocean|] eqn:Eo; cbn [bind];
    [|discriminate].
  intros H. split.
  - match type of H with
    | match ?r with _ => _ end = _ => destruct r as [[|kv r']|] eqn:Er
    end.
    + injection H as <-. exists d. now split.
    + destruct (update_data.merge_station d (kv :: r')) as [d'|] eqn:Em; [|discriminate].
      cbn [bind] in H. injection H as <-. exists d'. split; [reflexivity|].
      now apply (merge_station_other_keys d (kv :: r')).
    + injection H as <-. exists d. now split.
  - intros sid' [= <-] Hocean Htxt. rewrite Hocean in Eo. injection Eo as <-.
    rewrite Htxt in H. congruence.
Qed.

Lemma update_station_keeps_the_station_witness :
  update_data.update_station (mk_network (fun _ => None) (fun _ => None))
    (JDict Inputs.station_42001)
  = Ok (JDict Inputs.station_42001).
Proof.
  destruct (update_data.update_station (mk_network (fun _ => None) (fun _ => None))
              (JDict Inputs.station_42001)) as [s'|] eqn:E;
    [|vm_compute in E; discriminate].
  f_equal.
  apply (proj2 (update_station_keeps_the_station _ _ _ E) (JStr "42001"));
    reflexivity.
Defined.

Lemma main_station_is_update_station (net : network) (escapes : url -> option pyexc)
    (station : json) :
  (forall u, escapes u = None) ->
  update_stations.main_station net escapes station
  = update_data.update_station net station.
Proof.
  intros Hnone.
  unfold update_stations.main_station, update_stations.update_station,
    update_stations.fetch_url, update_data.update_station,
    update_stations.parse_ocean_feed, update_stations.parse_txt_feed.
  destruct (Py.getitem station "id") as [sid|]; cbn [bind]; [|reflexivity].
  rewrite !Hnone. cbn [bind].
  destruct (update_data._parse_ocean_feed _) as [[[|kv r]|]|]; cbn [bind]; reflexivity.
Qed.

Lemma stations_loop_is_update_stations (net : network)
    (escapes : url -> option pyexc) (l : list json) :
  (forall u, escapes u = None) ->
  update_stations_main.stations_loop net escapes l = update_data.update_stations net l.
Proof.
  intros Hnone. induction l as [|station l IH];
    cbn [update_stations_main.stations_loop update_data.update_stations]; [reflexivity|].
  rewrite (main_station_is_update_station _ _ _ Hnone), IH.
  destruct (Py.getitem station "id") as [sid|e] eqn:E; cbn [bind]; [reflexivity|].
  unfold update_data.update_station. rewrite E. reflexivity.
Qed.

(** X12: the two scripts agree on the station file as long as no request
    of [update_stations.py] raises an exception that its [fetch_url] does not
    catch: from the same file, the same answers of [fetch_url] and the same
    clock, [main] of [update_stations.py] computes for [latest.json] what
    [update_ndbc_hypoxia] of [update_data.py] computes and raises where it
    raises, and the run leaves in [latest.json] what the run of
    [update_data.py] leaves there. *)
Theorem scripts_agree_on_latest (env : environment) (unc : uncaught) (fs : files) :
  (forall u, escapes unc u = None) ->
  update_stations_main.updated_latest env unc (latest_json fs)
  = update_data.update_ndbc_hypoxia (net env) (clock env "latest.json") (latest_json fs)
  /\ latest_json (fst (update_stations_main.main env unc fs))
     = latest_json (update_data_main.main env fs).
Proof.
  intros Hnone.
  assert (H : update_stations_main.updated_latest env unc (latest_json fs)
              = update_data.update_ndbc_hypoxia (net env) (clock env "latest.json")
                  (latest_json fs)).
  { unfold update_stations_main.updated_latest, update_data.update_ndbc_hypoxia.
    destruct (latest_json fs) as [data|]; [|reflexivity].
    destruct data; try reflexivity.
    cbn [Py.getitem Py.get].
    destruct (Dict.get "stations" d) as [stations|]; cbn [bind]; [|reflexivity].
    destruct (Py.len stations); cbn [bind]; [|reflexivity].
    destruct (Py.iter stations) as [l|]; cbn [bind]; [|reflexivity].
    now rewrite (stations_loop_is_update_stations _ _ _ Hnone). }
  split; [exact H|].
  unfold update_stations_main.main, update_data_main.main. rewrite H.
  cbn [latest_json]. unfold update_data_main.written_latest.
  destruct (update_data.update_ndbc_hypoxia _ _ _) as [[doc|]|e];
    cbn [fst latest_json]; try reflexivity.
  destruct (currents_escape unc); reflexivity.
Qed.

Lemma scripts_agree_on_latest_witness :
  let env :=
    mk_environment MoreInputs.net_ocean_all_missing (fun _ => None) None
      (fun _ => "2024-01-15T12:05:00Z") (fun _ => None) in
  let unc := mk_uncaught (fun _ => None) (Some HTTPException) in
  let fs :=
    mk_files (Some (JDict [("updated", JStr "2024-01-15T06:05:00Z");
                           ("stations", JList [JDict Inputs.station_42001])]))
             None None None None None None None None in
  update_stations_main.updated_latest env unc (latest_json fs)
  = update_data.update_ndbc_hypoxia (net env) (clock env "latest.json") (latest_json fs)
  /\ latest_json (fst (update_stations_main.main env unc fs))
     = latest_json (update_data_main.main env fs).
Proof.
  cbv zeta.
  apply (scripts_agree_on_latest
           (mk_environment MoreInputs.net_ocean_all_missing (fun _ => None) None
              (fun _ => "2024-01-15T12:05:00Z") (fun _ => None))
           (mk_uncaught (fun _ => None) (Some HTTPException))).
  reflexivity.
Defined.

(** X28: where a request does raise such an exception the scripts part.
    When the [.ocean] request of the first station raises an exception that
    [fetch_url] of [update_stations.py] does not catch, [main] of that script
    ends with the exception and leaves every file as it was; [fetch_url] of
    [update_data.py] catches it and the run goes on. *)
Theorem uncaught_fetch_stops_update_stations (env : environment) (unc : uncaught)
    (fs : files) (d : Dict.t json) (stations : list json) (station sid : json)
    (e : pyexc) :
  latest_json fs = Some (JDict d) ->
  Dict.get "stations" d = Some (JList (station :: stations)) ->
  Py.getitem station "id" = Ok sid ->
  escapes unc (NDBC_OCEAN_URL sid) = Some e ->
  update_stations_main.main env unc fs = (fs, Some e).
Proof.
  intros Hlatest Hstations Hid Hesc.
  unfold update_stations_main.main, update_stations_main.updated_latest.
  rewrite Hlatest. cbn [Py.getitem]. rewrite Hstations.
  cbn [bind Py.len Py.get Py.iter update_stations_main.stations_loop].
  rewrite Hid. cbn [bind].
  unfold update_stations.main_station, update_stations.update_station,
    update_stations.fetch_url.
  rewrite Hid. cbn [bind]. rewrite Hesc. reflexivity.
Qed.

Lemma uncaught_fetch_stops_update_stations_witness :
  let env :=
    mk_environment MoreInputs.net_ocean_all_missing (fun _ => None) None
      (fun _ => "2024-01-15T12:05:00Z") (fun _ => None) in
  let unc :=
    mk_uncaught (fun u => match u with
                          | NDBC_OCEAN_URL _ => Some HTTPException
                          | _ => None
                          end)
                None in
  let fs :=
    mk_files (Some (JDict [("updated", JStr "2024-01-15T06:05:00Z");
                           ("stations", JList [JDict Inputs.station_42001])]))
             None None None None None None None None in
  update_stations_main.main env unc fs = (fs, Some HTTPException).
Proof.
  cbv zeta.
  apply (uncaught_fetch_stops_update_stations _ _ _
           [("updated", JStr "2024-01-15T06:05:00Z");
            ("stations", JList [JDict Inputs.station_42001])]
           [] (JDict Inputs.station_42001) (JStr "42001") HTTPException);
    reflexivity.
Defined.

(** X13: the hypoxia update writes a document with the new timestamp under
    [updated], as many stations as it read, and every other key of the file
    as it was; no station is added or dropped. *)
Theorem hypoxia_document (net : network) (now : string) (d : Dict.t json)
  (l : list json) (doc : json) :
  Dict.get "stations" d = Some (JList l) ->
  update_data.update_ndbc_hypoxia net now (Some (JDict d)) = Ok (Some doc) ->
  exists d' l',
    doc = JDict d'
    /\ Dict.get "updated" d' = Some (JStr now)
    /\ Dict.get "stations" d' = Some (JList l')
    /\ List.length l' = List.length l
    /\ forall k, k <> "updated" -> k <> "stations" -> Dict.get k d' = Dict.get k d.
Proof.
  intros Hst H. unfold update_data.update_ndbc_hypoxia in H.
  cbn [Py.getitem] in H. rewrite Hst in H. cbn [bind Py.len Py.iter] in H.
  destruct (update_data.update_stations net l) as [l'|] eqn:E; [|discriminate].
  cbn [bind Py.setitem] in H.
  exists (Dict.set "updated" (JStr now) (Dict.set "stations" (JList l') d)), l'.
  split; [congruence|]. split; [apply dict_get_set_same|]. split.
  - rewrite dict_get_set_other by discriminate. apply dict_get_set_same.
  - split; [now apply (update_stations_length net l)|].
    intros k H1 H2. now rewrite !dict_get_set_other by assumption.
Qed.

Lemma hypoxia_document_witness :
  exists d',
    update_data.update_ndbc_hypoxia (mk_network (fun _ => None) (fun _ => None))
      "2024-01-15T12:05:00Z"
      (Some (JDict [("updated", JStr "2024-01-15T06:05:00Z");
                    ("stations", JList [JDict Inputs.station_42001])]))
    = Ok (Some (JDict d'))
    /\ Dict.get "updated" d' = Some (JStr "2024-01-15T12:05:00Z").
Proof.
  destruct (update_data.update_ndbc_hypoxia (mk_network (fun _ => None) (fun _ => None))
              "2024-01-15T12:05:00Z"
              (Some (JDict [("updated", JStr "2024-01-15T06:05:00Z");
                            ("stations", JList [JDict Inputs.station_42001])])))
    as [[doc|]|] eqn:E; try (vm_compute in E; discriminate).
  destruct (hypoxia_document _ _
              [("updated", JStr "2024-01-15T06:05:00Z");
               ("stations", JList [JDict Inputs.station_42001])]
              [JDict Inputs.station_42001] doc eq_refl E)
    as [d' [l' [Hdoc [Hup _]]]].
  exists d'. split; [now rewrite Hdoc|exact Hup].
Defined.

(* ================================================================== *)
(** ** Further properties of the extractors *)

(** Opens the [bind]s and the tests of a hypothesis [H : ... = Ok _], keeping
    the equations. *)
Ltac bind_inv_eq H :=
  match type of H with
  | bind ?m _ = Ok _ =>
      let E := fresh "E" in
      destruct m eqn:E; cbn [bind] in H; [|discriminate H]; bind_inv_eq H
  | (if ?b then _ else _) = Ok _ =>
      let E := fresh "E" in destruct b eqn:E; bind_inv_eq H
  | match ?p with (_, _) => _ end = Ok _ => destruct p; bind_inv_eq H
  | match ?o with Some _ => _ | None => _ end = Ok _ =>
      let E := fresh "E" in destruct o eqn:E; bind_inv_eq H
  | _ => idtac
  end.

Lemma count_live_snoc (records : list json) (record : json) :
  count_live (records ++ [record])
  = count_live records + (if has_current record then 1 else 0).
Proof.
  unfold count_live. rewrite filter_app, length_app. simpl.
  destruct (has_current record); reflexivity.
Qed.

Lemma met_item_inv (net : network) (item : json) (st st' : update_data.met_state) :
  met_loop_inv st ->
  update_data.met_item net item st = Ok st' ->
  met_loop_inv st'
  /\ List.length (update_data.buoys st') <= S (List.length (update_data.buoys st)).
Proof.
  intros [H1 [H2 [H3 H4]]] H. unfold update_data.met_item in H. bind_inv_eq H;
    injection H as <-; cbn [update_data.buoys update_data.fetched update_data.requests];
    unfold met_loop_inv;
    cbn [update_data.buoys update_data.fetched update_data.requests];
    rewrite ?count_live_snoc, ?length_app; cbn [List.length has_current];
    repeat match goal with
      | |- context [Dict.mem ?k ?d] =>
          let b := eval vm_compute in (Dict.mem k d) in
          change (Dict.mem k d) with b
      | E : (_ <? _) = true |- _ => apply Nat.ltb_lt in E
      end;
    repeat split; lia.
Qed.

Lemma met_loop_inv_from (net : network) (items : list json)
    (st st' : update_data.met_state) :
  met_loop_inv st ->
  for_each (update_data.met_item net) items st = Ok st' ->
  met_loop_inv st'
  /\ List.length (update_data.buoys st')
     <= List.length (update_data.buoys st) + List.length items.
Proof.
  revert st. induction items as [|item items IH]; intros st Hinv H.
  - injection H as <-. split; [exact Hinv | simpl; lia].
  - cbn [for_each] in H.
    destruct (update_data.met_item net item st) as [st1|e] eqn:E;
      cbn [bind] in H; [|discriminate H].
    destruct (met_item_inv _ _ _ _ Hinv E) as [Hinv1 Hlen].
    destruct (IH _ Hinv1 H) as [Hinv' Hlen'].
    split; [exact Hinv' | simpl; lia].
Qed.

(** X14: whatever the stations and the network answer, when
    [update_ndbc_met] returns its document, at most 200 of the records carry
    a live reading ([current]), there are no more records than features, and
    the number of feeds requested lies between the number of live readings
    and the number of records. *)
Theorem met_live_readings_bounded (net : network) (now : string)
    (items : list json) (doc : json) :
  update_data.update_ndbc_met net now items = Ok doc ->
  exists st,
    update_data.met_loop net items = Ok st
    /\ doc = update_data.document now "buoys" (update_data.buoys st)
    /\ count_live (update_data.buoys st) <= 200
    /\ List.length (update_data.buoys st) <= List.length items
    /\ count_live (update_data.buoys st) <= List.length (update_data.requests st)
    /\ List.length (update_data.requests st) <= List.length (update_data.buoys st).
Proof.
  unfold update_data.update_ndbc_met. intros H.
  destruct (update_data.met_loop net items) as [st|e] eqn:E;
    cbn [bind] in H; [|discriminate H].
  exists st. injection H as <-.
  assert (Hinv0 : met_loop_inv (update_data.mk_met_state [] 0 [])).
  { unfold met_loop_inv, count_live. simpl. lia. }
  destruct (met_loop_inv_from _ _ _ _ Hinv0 E) as [[H1 [H2 [H3 H4]]] Hlen].
  cbn [update_data.buoys List.length] in Hlen.
  repeat split; try reflexivity; lia.
Qed.

Lemma met_live_readings_bounded_witness :
  let items := [Inputs.buoy_42001 "NDBC_42001"; Inputs.buoy_42001 "NDBC_0"] in
  exists doc st,
    update_data.update_ndbc_met Inputs.net_first_fails "2024-01-15T12:05:00Z" items
    = Ok doc
    /\ update_data.met_loop Inputs.net_first_fails items = Ok st
    /\ doc = update_data.document "2024-01-15T12:05:00Z" "buoys" (update_data.buoys st)
    /\ count_live (update_data.buoys st) <= 200
    /\ List.length (update_data.buoys st) <= List.length items
    /\ count_live (update_data.buoys st) <= List.length (update_data.requests st)
    /\ List.length (update_data.requests st) <= List.length (update_data.buoys st).
Proof.
  cbv zeta.
  destruct (update_data.update_ndbc_met Inputs.net_first_fails "2024-01-15T12:05:00Z"
              [Inputs.buoy_42001 "NDBC_42001"; Inputs.buoy_42001 "NDBC_0"])
    as [doc|e] eqn:E; [|vm_compute in E; discriminate E].
  exists doc.
  destruct (met_live_readings_bounded _ _ _ _ E) as [st H].
  exists st. split; [reflexivity | exact H].
Defined.

(** A loop stops with an exception as soon as one of its items raises
    whatever the state it is reached in. *)
Lemma for_each_raises {A S : Type} (body : A -> S -> result S) (x : A) (l : list A) :
  In x l ->
  (forall st, exists e, body x st = Raise e) ->
  forall st, exists e, for_each body l st = Raise e.
Proof.
  intros Hin Hx. induction l as [|y l IH]; [destruct Hin|]. intros st.
  cbn [for_each]. destruct (body y st) as [st1|e] eqn:E; cbn [bind].
  - destruct Hin as [->|Hin].
    + destruct (Hx st) as [e He]. congruence.
    + apply IH. exact Hin.
  - exists e. reflexivity.
Qed.

(** Reaches the exception of a chain of [bind]s, whatever the steps before it
    return. *)
Ltac raises :=
  repeat (cbn [bind Py.round];
          match goal with
          | |- exists e, Raise _ = Raise e => eexists; reflexivity
          | |- exists e, bind ?m _ = Raise e =>
              destruct m; [|eexists; reflexivity]
          | |- exists e, (if ?b then _ else _) = Raise e => destruct b
          | |- exists e, match ?p with (_, _) => _ end = Raise e => destruct p
          end).

Lemma get_null_geometry (d : Dict.t json) :
  Dict.get "geometry" d = Some JNull ->
  Py.get (JDict d) "geometry" (JDict []) = Ok JNull.
Proof. intros H. cbn [Py.get]. unfold Dict.get_default. now rewrite H. Qed.

Lemma null_geometry_raises (net : network) (item : json) :
  null_geometry item ->
  (forall st, update_data.ioos_item item st = Raise AttributeError)
  /\ (forall st, update_data.met_item net item st = Raise AttributeError)
  /\ (forall st, update_data.coops_item item st = Raise AttributeError)
  /\ (forall st, update_data.incident_item item st = Raise AttributeError)
  /\ (forall st, update_data.pmel_item item st = Raise AttributeError).
Proof.
  intros [d [-> H]]. apply get_null_geometry in H.
  repeat split; intros st;
    unfold update_data.ioos_item, update_data.met_item, update_data.coops_item,
      update_data.incident_item, update_data.pmel_item;
    rewrite H; reflexivity.
Qed.

Lemma point_default_coordinates (d g : Dict.t json) :
  Dict.get "geometry" d = Some (JDict g) ->
  Dict.get "type" g = Some (JStr "Point") ->
  Dict.get "coordinates" g = None ->
  Py.get (JDict d) "geometry" (JDict []) = Ok (JDict g)
  /\ Dict.get_default "coordinates" (JList [JNull; JNull]) g = JList [JNull; JNull]
  /\ update_data.type_is (JDict g) "Point" = Ok true
  /\ update_data.not_a_point (JDict g) (JList [JNull; JNull]) = Ok false.
Proof.
  intros Hg Ht Hc.
  unfold update_data.not_a_point, update_data.type_is. cbn [Py.get].
  unfold Dict.get_default. rewrite Hg, Ht, Hc. repeat split.
Qed.

Lemma point_without_coordinates_raises (net : network) (item : json) :
  point_without_coordinates item ->
  (forall st, exists e, update_data.ioos_item item st = Raise e)
  /\ (forall st, exists e, update_data.met_item net item st = Raise e)
  /\ (forall st, exists e, update_data.coops_item item st = Raise e)
  /\ (forall st, exists e, update_data.incident_item item st = Raise e)
  /\ (forall st, exists e, update_data.pmel_item item st = Raise e).
Proof.
  intros [d [g [-> [Hg [Ht Hc]]]]].
  destruct (point_default_coordinates d g Hg Ht Hc) as [H1 [H2 [H3 H4]]].
  repeat split; intros st;
    unfold update_data.ioos_item, update_data.met_item, update_data.coops_item,
      update_data.incident_item, update_data.pmel_item;
    rewrite H1; cbn [bind Py.get]; rewrite H2;
    cbn [bind]; rewrite ?H3, ?H4;
    cbn [bind Py.len Py.index update_data.lat_lon List.length Nat.leb nth_error];
    raises.
Qed.

(** X15: a feature whose geometry is [null] stops the five extractors that
    read the coordinates of every feature: sensors, buoys, tide stations,
    incidents and PMEL probes each raise, whatever the other features are,
    and return no document. *)
Theorem null_geometry_aborts (net : network) (now : string) (items : list json)
    (item : json) :
  In item items ->
  null_geometry item ->
  (exists e, update_data.update_ioos_sensors now items = Raise e)
  /\ (exists e, update_data.update_ndbc_met net now items = Raise e)
  /\ (exists e, update_data.update_coops net now items = Raise e)
  /\ (exists e, update_data.update_incidents now items = Raise e)
  /\ (exists e, update_data.update_pmel now items = Raise e).
Proof.
  intros Hin Hnull.
  destruct (null_geometry_raises net item Hnull) as [H1 [H2 [H3 [H4 H5]]]].
  unfold update_data.update_ioos_sensors, update_data.update_ndbc_met,
    update_data.update_coops, update_data.coops_stations,
    update_data.update_incidents, update_data.update_pmel, update_data.met_loop.
  repeat split.
  - destruct (for_each_raises update_data.ioos_item item items Hin
                (fun st => ex_intro _ _ (H1 st)) []) as [e ->]. now exists e.
  - destruct (for_each_raises (update_data.met_item net) item items Hin
                (fun st => ex_intro _ _ (H2 st)) (update_data.mk_met_state [] 0 []))
      as [e ->]. now exists e.
  - destruct (for_each_raises update_data.coops_item item items Hin
                (fun st => ex_intro _ _ (H3 st)) []) as [e ->]. now exists e.
  - destruct (for_each_raises update_data.incident_item item items Hin
                (fun st => ex_intro _ _ (H4 st)) []) as [e ->]. now exists e.
  - destruct (for_each_raises update_data.pmel_item item items Hin
                (fun st => ex_intro _ _ (H5 st)) []) as [e ->]. now exists e.
Qed.

Lemma null_geometry_aborts_witness :
  let item := JDict [("id", JStr "NDBC_42001"); ("geometry", JNull);
                     ("properties", JDict [("title", JStr "Buoy 42001")])] in
  let items := [Inputs.buoy_42001 "NDBC_42002"; item] in
  (exists e, update_data.update_ioos_sensors "2024-01-15T12:05:00Z" items = Raise e)
  /\ (exists e, update_data.update_ndbc_met Inputs.net_first_fails
                  "2024-01-15T12:05:00Z" items = Raise e)
  /\ (exists e, update_data.update_coops Inputs.net_first_fails
                  "2024-01-15T12:05:00Z" items = Raise e)
  /\ (exists e, update_data.update_incidents "2024-01-15T12:05:00Z" items = Raise e)
  /\ (exists e, update_data.update_pmel "2024-01-15T12:05:00Z" items = Raise e).
Proof.
  cbv zeta.
  apply (null_geometry_aborts Inputs.net_first_fails "2024-01-15T12:05:00Z"
           [Inputs.buoy_42001 "NDBC_42002";
            JDict [("id", JStr "NDBC_42001"); ("geometry", JNull);
                   ("properties", JDict [("title", JStr "Buoy 42001")])]]
           (JDict [("id", JStr "NDBC_42001"); ("geometry", JNull);
                   ("properties", JDict [("title", JStr "Buoy 42001")])])).
  - right. left. reflexivity.
  - eexists. split; reflexivity.
Defined.

(** X16: a feature with a [Point] geometry and no [coordinates] passes the
    test on the geometry, through the two-element default, and then stops the
    same five extractors: each raises, whatever the other features are, and
    returns no document. *)
Theorem point_without_coordinates_aborts (net : network) (now : string)
    (items : list json) (item : json) :
  In item items ->
  point_without_coordinates item ->
  (exists e, update_data.update_ioos_sensors now items = Raise e)
  /\ (exists e, update_data.update_ndbc_met net now items = Raise e)
  /\ (exists e, update_data.update_coops net now items = Raise e)
  /\ (exists e, update_data.update_incidents now items = Raise e)
  /\ (exists e, update_data.update_pmel now items = Raise e).
Proof.
  intros Hin Hpoint.
  destruct (point_without_coordinates_raises net item Hpoint)
    as [H1 [H2 [H3 [H4 H5]]]].
  unfold update_data.update_ioos_sensors, update_data.update_ndbc_met,
    update_data.update_coops, update_data.coops_stations,
    update_data.update_incidents, update_data.update_pmel, update_data.met_loop.
  repeat split.
  - destruct (for_each_raises update_data.ioos_item item items Hin H1 [])
      as [e ->]. now exists e.
  - destruct (for_each_raises (update_data.met_item net) item items Hin H2
                (update_data.mk_met_state [] 0 [])) as [e ->]. now exists e.
  - destruct (for_each_raises update_data.coops_item item items Hin H3 [])
      as [e ->]. now exists e.
  - destruct (for_each_raises update_data.incident_item item items Hin H4 [])
      as [e ->]. now exists e.
  - destruct (for_each_raises update_data.pmel_item item items Hin H5 [])
      as [e ->]. now exists e.
Qed.

Lemma point_without_coordinates_aborts_witness :
  let item := JDict [("id", JStr "NDBC_42001");
                     ("geometry", JDict [("type", JStr "Point")]);
                     ("properties", JDict [("title", JStr "Buoy 42001")])] in
  let items := [item; Inputs.buoy_42001 "NDBC_42002"] in
  (exists e, update_data.update_ioos_sensors "2024-01-15T12:05:00Z" items = Raise e)
  /\ (exists e, update_data.update_ndbc_met Inputs.net_first_fails
                  "2024-01-15T12:05:00Z" items = Raise e)
  /\ (exists e, update_data.update_coops Inputs.net_first_fails
                  "2024-01-15T12:05:00Z" items = Raise e)
  /\ (exists e, update_data.update_incidents "2024-01-15T12:05:00Z" items = Raise e)
  /\ (exists e, update_data.update_pmel "2024-01-15T12:05:00Z" items = Raise e).
Proof.
  cbv zeta.
  apply (point_without_coordinates_aborts Inputs.net_first_fails
           "2024-01-15T12:05:00Z"
           [JDict [("id", JStr "NDBC_42001");
                   ("geometry", JDict [("type", JStr "Point")]);
                   ("properties", JDict [("title", JStr "Buoy 42001")])];
            Inputs.buoy_42001 "NDBC_42002"]
           (JDict [("id", JStr "NDBC_42001");
                   ("geometry", JDict [("type", JStr "Point")]);
                   ("properties", JDict [("title", JStr "Buoy 42001")])])).
  - left. reflexivity.
  - eexists. eexists. repeat split; reflexivity.
Defined.


(* ================================================================== *)
(** ** The order of the incidents *)

Lemma ltb_asym (a b : string) : String.ltb a b = true -> String.ltb b a = false.
Proof.
  unfold String.ltb. rewrite (String.compare_antisym b a).
  destruct (String.compare a b); simpl; congruence.
Qed.

Lemma insert_desc_perm (k x : json) (l l' : list (json * json)) :
  update_data.insert_desc k x l = Ok l' -> Permutation l' ((k, x) :: l).
Proof.
  revert l'. induction l as [|[ky y] l IH]; intros l' H;
    cbn [update_data.insert_desc] in H.
  - injection H as <-. reflexivity.
  - destruct (Py.lt k ky) as [[|]|e]; cbn [bind] in H; try discriminate H.
    + destruct (update_data.insert_desc k x l) as [rest|e]; cbn [bind] in H;
        [|discriminate H].
      injection H as <-. rewrite (IH rest eq_refl). apply perm_swap.
    + injection H as <-. reflexivity.
Qed.

Lemma sort_desc_perm (l l' : list (json * json)) :
  update_data.sort_desc l = Ok l' -> Permutation l' l.
Proof.
  revert l'. induction l as [|[k x] l IH]; intros l' H;
    cbn [update_data.sort_desc] in H.
  - injection H as <-. reflexivity.
  - destruct (update_data.sort_desc l) as [rest|e]; cbn [bind] in H;
      [|discriminate H].
    rewrite (insert_desc_perm _ _ _ _ H). constructor. now apply IH.
Qed.

Lemma map_snd_keyed (l : list json) :
  map snd (map (fun x => (update_data.date_key x, x)) l) = l.
Proof. rewrite map_map. cbn [snd]. apply map_id. Qed.

Lemma sort_by_date_desc_perm (incidents sorted : list json) :
  update_data.sort_by_date_desc incidents = Ok sorted ->
  Permutation incidents sorted.
Proof.
  unfold update_data.sort_by_date_desc. intros H.
  destruct incidents as [|x [|y l]]; try (injection H as <-; reflexivity).
  match type of H with bind ?m _ = _ => destruct m as [s|e] eqn:E end;
    cbn [bind] in H; [|discriminate H].
  injection H as <-. apply sort_desc_perm in E.
  rewrite <- (map_snd_keyed (x :: y :: l)) at 1.
  apply Permutation_map. symmetry. exact E.
Qed.

(** The head of a list stays behind [a] when a pair that is behind [a] is
    inserted. *)
Lemma insert_desc_hd (R : json * json -> json * json -> Prop) (a : json * json)
    (k x : json) (l l' : list (json * json)) :
  update_data.insert_desc k x l = Ok l' ->
  HdRel R a l -> R a (k, x) -> HdRel R a l'.
Proof.
  intros H Hhd Hr. destruct l as [|[ky y] l]; cbn [update_data.insert_desc] in H.
  - injection H as <-. now constructor.
  - destruct (Py.lt k ky) as [[|]|e]; cbn [bind] in H; try discriminate H.
    + destruct (update_data.insert_desc k x l) as [rest|e]; cbn [bind] in H;
        [|discriminate H].
      injection H as <-. constructor. now inversion Hhd.
    + injection H as <-. now constructor.
Qed.

(** Among string keys the insertion returns, and keeps the order. *)
Lemma insert_desc_strings (k : string) (x : json) (l : list (json * json)) :
  Forall string_keyed l ->
  Sorted key_not_before l ->
  exists l',
    update_data.insert_desc (JStr k) x l = Ok l'
    /\ Forall string_keyed l'
    /\ Sorted key_not_before l'.
Proof.
  induction l as [|[ky y] l IH]; intros Hkeys Hsorted.
  - exists [(JStr k, x)]. split; [reflexivity|]. split.
    + constructor; [now exists k | constructor].
    + repeat constructor.
  - inversion Hkeys as [|? ? [t Ht] Hkeys']; subst. cbn [fst] in Ht. subst ky.
    inversion Hsorted as [|? ? Hsorted' Hhd]; subst.
    cbn [update_data.insert_desc]. unfold Py.lt. cbn [Py.compare_lt bind].
    destruct (String.ltb k t) eqn:E.
    + destruct (IH Hkeys' Hsorted') as [rest [Hrest [Hk Hs]]].
      rewrite Hrest. cbn [bind]. exists ((JStr t, y) :: rest).
      split; [reflexivity|]. split.
      * constructor; [now exists t | exact Hk].
      * constructor; [exact Hs|].
        apply (insert_desc_hd _ _ _ _ _ _ Hrest Hhd).
        exists t, k. repeat split. now apply ltb_asym.
    + exists ((JStr k, x) :: (JStr t, y) :: l). split; [reflexivity|]. split.
      * constructor; [now exists k | exact Hkeys].
      * constructor; [exact Hsorted|]. constructor.
        exists k, t. repeat split. exact E.
Qed.

Lemma sort_desc_strings (l : list (json * json)) :
  Forall string_keyed l ->
  exists l',
    update_data.sort_desc l = Ok l'
    /\ Forall string_keyed l'
    /\ Sorted key_not_before l'.
Proof.
  induction l as [|[k x] l IH]; intros Hkeys.
  - exists []. repeat split; constructor.
  - inversion Hkeys as [|? ? [t Ht] Hkeys']; subst. cbn [fst] in Ht. subst k.
    destruct (IH Hkeys') as [rest [Hrest [Hk Hs]]].
    cbn [update_data.sort_desc]. rewrite Hrest. cbn [bind].
    now apply insert_desc_strings.
Qed.

Lemma sorted_records (l : list (json * json)) :
  Forall (fun p => fst p = update_data.date_key (snd p)) l ->
  Sorted key_not_before l ->
  Sorted not_before (map snd l).
Proof.
  induction l as [|p l IH]; intros Hk Hs; [constructor|].
  inversion Hk as [|? ? Hp Hk']; subst. inversion Hs as [|? ? Hs' Hhd]; subst.
  cbn [map]. constructor; [now apply IH|].
  destruct l as [|q l]; [constructor|]. cbn [map]. constructor.
  inversion Hhd as [|? ? [kp [kq [H1 [H2 H3]]]]]; subst.
  inversion Hk' as [|? ? Hq _]; subst.
  exists kp, kq. rewrite <- Hp, <- Hq. repeat split; assumption.
Qed.

(** X17: when the date of every incident is a string, the sort returns; it
    returns the same records in another order, and of two neighbours of the
    result the first never has the smaller date string: the list is in
    descending order of date. *)
Theorem incidents_sorted_descending (incidents : list json) :
  Forall string_date incidents ->
  exists sorted,
    update_data.sort_by_date_desc incidents = Ok sorted
    /\ Permutation incidents sorted
    /\ Sorted not_before sorted.
Proof.
  intros Hdates.
  destruct incidents as [|x [|y l]].
  - exists []. repeat split; constructor.
  - exists [x]. repeat split; repeat constructor.
  - set (incidents := x :: y :: l) in *.
    assert (Hkeys : Forall string_keyed
                      (map (fun x => (update_data.date_key x, x)) incidents)).
    { apply Forall_map. eapply Forall_impl; [|exact Hdates].
      intros r [s Hs]. exists s. exact Hs. }
    destruct (sort_desc_strings _ Hkeys) as [sorted [Hsort [_ Hsorted]]].
    assert (Hrun : update_data.sort_by_date_desc incidents = Ok (map snd sorted)).
    { unfold update_data.sort_by_date_desc, incidents. fold incidents.
      rewrite Hsort. reflexivity. }
    exists (map snd sorted). split; [exact Hrun|].
    split; [now apply sort_by_date_desc_perm|].
    apply sorted_records; [|exact Hsorted].
    eapply Permutation_Forall; [symmetry; apply sort_desc_perm; exact Hsort|].
    apply Forall_map. apply Forall_forall. reflexivity.
Qed.

Lemma incidents_sorted_descending_witness :
  let dated (d : string) := JDict [("id", JStr d); ("date", JStr d)] in
  let incidents := [dated "2024-01-03"; dated "2024-02-11"; dated "2023-12-30"] in
  let sorted := [dated "2024-02-11"; dated "2024-01-03"; dated "2023-12-30"] in
  update_data.sort_by_date_desc incidents = Ok sorted
  /\ Permutation incidents sorted
  /\ Sorted not_before sorted.
Proof.
  cbv zeta.
  destruct (incidents_sorted_descending
              [JDict [("id", JStr "2024-01-03"); ("date", JStr "2024-01-03")];
               JDict [("id", JStr "2024-02-11"); ("date", JStr "2024-02-11")];
               JDict [("id", JStr "2023-12-30"); ("date", JStr "2023-12-30")]])
    as [sorted [Hrun H]].
  - repeat constructor; eexists; reflexivity.
  - vm_compute in Hrun. injection Hrun as <-. split; [reflexivity | exact H].
Defined.

Lemma lt_none_right (k : json) : Py.lt k JNull = Raise TypeError.
Proof. destruct k; try reflexivity. Qed.

Lemma lt_raises (a b : json) (e : pyexc) : Py.lt a b = Raise e -> e = TypeError.
Proof. unfold Py.lt. destruct (Py.compare_lt a b); congruence. Qed.

Lemma insert_desc_raises (k x : json) (l : list (json * json)) (e : pyexc) :
  update_data.insert_desc k x l = Raise e -> e = TypeError.
Proof.
  induction l as [|[ky y] l IH]; cbn [update_data.insert_desc]; [discriminate|].
  destruct (Py.lt k ky) as [[|]|e'] eqn:E; cbn [bind].
  - destruct (update_data.insert_desc k x l) as [rest|e'']; cbn [bind];
      [discriminate|]. intros [= <-]. now apply IH.
  - discriminate.
  - intros [= <-]. now apply lt_raises in E.
Qed.

Lemma sort_desc_raises (l : list (json * json)) (e : pyexc) :
  update_data.sort_desc l = Raise e -> e = TypeError.
Proof.
  induction l as [|[k x] l IH]; cbn [update_data.sort_desc]; [discriminate|].
  destruct (update_data.sort_desc l) as [rest|e']; cbn [bind].
  - apply insert_desc_raises.
  - intros [= <-]. now apply IH.
Qed.

(** A key that is [None] among two keys or more is compared, whichever its
    place, and the comparison raises. *)
Lemma sort_desc_none (l : list (json * json)) (p : json * json) :
  2 <= List.length l -> In p l -> fst p = JNull ->
  update_data.sort_desc l = Raise TypeError.
Proof.
  revert p. induction l as [|[k x] l IH]; intros p Hlen Hin Hp;
    [simpl in Hlen; lia|].
  cbn [update_data.sort_desc].
  destruct (update_data.sort_desc l) as [rest|e] eqn:E; cbn [bind].
  - pose proof (sort_desc_perm _ _ E) as Hperm.
    pose proof (Permutation_length Hperm) as Hl.
    destruct Hin as [<-|Hin].
    + cbn [fst] in Hp. subst k.
      destruct rest as [|[ky y] rest]; [simpl in Hlen, Hl; lia|].
      reflexivity.
    + destruct l as [|q [|q' l]]; [destruct Hin| |].
      * destruct Hin as [Hq|[]]. subst q.
        destruct p as [kp xp]. cbn [fst] in Hp. subst kp.
        cbn [update_data.sort_desc bind update_data.insert_desc] in E.
        injection E as <-. cbn [update_data.insert_desc].
        now rewrite lt_none_right.
      * assert (Hraise : @Ok (list (json * json)) rest = Raise TypeError).
        { apply (IH p); [simpl; lia | exact Hin | exact Hp]. }
        discriminate Hraise.
  - f_equal. now apply sort_desc_raises in E.
Qed.

(** X18: a record whose [date] is [None], which is what a feature with a
    [null] [datetime] property gives, stops [update_incidents] as soon as
    there are two incidents: the sort raises [TypeError] and no document is
    returned. *)
Theorem null_date_stops_incidents (now : string) (items incidents : list json)
    (x : json) :
  for_each update_data.incident_item items [] = Ok incidents ->
  2 <= List.length incidents ->
  In x incidents ->
  update_data.date_key x = JNull ->
  update_data.update_incidents now items = Raise TypeError.
Proof.
  intros Hloop Hlen Hin Hx. unfold update_data.update_incidents.
  rewrite Hloop. cbn [bind]. unfold update_data.sort_by_date_desc.
  destruct incidents as [|a [|b l]]; [simpl in Hlen; lia | simpl in Hlen; lia |].
  rewrite (sort_desc_none _ (update_data.date_key x, x)); [reflexivity| | |exact Hx].
  - rewrite length_map. exact Hlen.
  - apply in_map_iff. exists x. split; [reflexivity | exact Hin].
Qed.

Lemma null_date_stops_incidents_witness :
  update_data.update_incidents "2024-01-15T12:05:00Z"
    [MoreInputs.incident_without_datetime "IN_1";
     MoreInputs.incident_without_datetime "IN_2"]
  = Raise TypeError.
Proof.
  apply (null_date_stops_incidents "2024-01-15T12:05:00Z"
           [MoreInputs.incident_without_datetime "IN_1";
            MoreInputs.incident_without_datetime "IN_2"]
           [MoreInputs.incident_record "IN_1"; MoreInputs.incident_record "IN_2"]
           (MoreInputs.incident_record "IN_2")).
  - vm_compute. reflexivity.
  - simpl. lia.
  - right. left. reflexivity.
  - reflexivity.
Defined.

(* ================================================================== *)
(** ** Station ids *)

Lemma contains_app (c : ascii) (a b : string) :
  PyStr.contains c (a ++ b) = PyStr.contains c a || PyStr.contains c b.
Proof.
  induction a as [|d a IH]; [reflexivity|].
  cbn [String.append PyStr.contains]. rewrite IH. now rewrite orb_assoc.
Qed.

Lemma string_app_assoc (a b c : string) :
  ((a ++ b) ++ c)%string = (a ++ (b ++ c))%string.
Proof. induction a as [|d a IH]; simpl; [reflexivity|now rewrite IH]. Qed.

Lemma of_rev_cons (c : ascii) (tok : list ascii) :
  PyStr.of_rev (c :: tok) = (PyStr.of_rev tok ++ String c "")%string.
Proof. unfold PyStr.of_rev. cbn [rev]. apply string_of_list_ascii_snoc. Qed.

Lemma split_go_not_nil (sep : ascii) (s : string) (tok : list ascii) :
  PyStr.split_go sep tok s <> [].
Proof.
  revert tok. induction s as [|c s IH]; intros tok; cbn [PyStr.split_go].
  - discriminate.
  - destruct (Ascii.eqb c sep); [discriminate | apply IH].
Qed.

Lemma last_cons_not_nil {A : Type} (x d : A) (l : list A) :
  l <> [] -> List.last (x :: l) d = List.last l d.
Proof. destruct l; [congruence | reflexivity]. Qed.

(** The last segment of a split has no separator. *)
Lemma split_go_last_no_sep (sep : ascii) (s : string) (tok : list ascii) :
  PyStr.contains sep (PyStr.of_rev tok) = false ->
  PyStr.contains sep (List.last (PyStr.split_go sep tok s) "") = false.
Proof.
  revert tok. induction s as [|c s IH]; intros tok Htok; cbn [PyStr.split_go].
  - exact Htok.
  - destruct (Ascii.eqb c sep) eqn:E.
    + rewrite last_cons_not_nil by apply split_go_not_nil. now apply IH.
    + apply IH. rewrite of_rev_cons, contains_app, Htok.
      cbn [PyStr.contains]. now rewrite E.
Qed.

(** The last segment of a split is the end of the string. *)
Lemma split_go_last_suffix (sep : ascii) (s : string) (tok : list ascii) :
  exists pre : string,
    (PyStr.of_rev tok ++ s)%string
    = (pre ++ List.last (PyStr.split_go sep tok s) "")%string.
Proof.
  revert tok. induction s as [|c s IH]; intros tok; cbn [PyStr.split_go].
  - exists ""%string. now rewrite string_app_empty.
  - destruct (Ascii.eqb c sep).
    + rewrite last_cons_not_nil by apply split_go_not_nil.
      destruct (IH []) as [pre Hpre].
      change (PyStr.of_rev [] ++ s)%string with s in Hpre.
      exists (PyStr.of_rev tok ++ String c pre)%string.
      rewrite string_app_assoc. cbn [String.append]. now rewrite <- Hpre.
    + destruct (IH (c :: tok)) as [pre Hpre]. exists pre.
      rewrite <- Hpre, of_rev_cons. now rewrite string_app_assoc_chr.
Qed.

(** X19: the station id that the buoy and tide extractors take from a
    feature id is the end of the feature id, has no ["_"] in it, and is the
    feature id itself when that has no ["_"]. *)
Theorem station_id_has_no_underscore (sid : string) :
  exists id pre : string,
    update_data.station_id_of (JStr sid) = Ok (JStr id)
    /\ sid = (pre ++ id)%string
    /\ PyStr.contains "_" id = false
    /\ (PyStr.contains "_" sid = false -> id = sid).
Proof.
  destruct (split_go_last_suffix "_" sid []) as [pre Hpre].
  change (PyStr.of_rev [] ++ sid)%string with sid in Hpre.
  exists (List.last (PyStr.split "_" sid) ""), pre.
  split; [apply station_id_is_last_segment|].
  split; [exact Hpre|].
  split; [now apply split_go_last_no_sep|].
  intros Hno. unfold PyStr.split. now rewrite (split_go_no_sep _ _ Hno).
Qed.


(* ================================================================== *)
(** ** The sizes of the records *)

Lemma for_each_inv {A S : Type} (I : S -> Prop) (body : A -> S -> result S) :
  (forall x st st', I st -> body x st = Ok st' -> I st') ->
  forall l st st', I st -> for_each body l st = Ok st' -> I st'.
Proof.
  intros Hbody. induction l as [|x l IH]; intros st st' Hst H.
  - injection H as <-. exact Hst.
  - cbn [for_each] in H. destruct (body x st) as [st1|e] eqn:E;
      cbn [bind] in H; [|discriminate H].
    eapply IH; [|exact H]. eapply Hbody; eassumption.
Qed.

Lemma take_length (n : nat) (s : string) : String.length (PyStr.take n s) <= n.
Proof.
  revert s. induction n as [|n IH]; intros s; [destruct s; simpl; lia|].
  destruct s as [|c s]; cbn [PyStr.take String.length]; [lia|].
  specialize (IH s). lia.
Qed.

Lemma slice_to_capped (v w : json) (n : nat) :
  Py.slice_to v n = Ok w -> exists m, Py.len w = Ok m /\ m <= n.
Proof.
  destruct v; try discriminate; cbn [Py.slice_to]; intros H; injection H as <-;
    cbn [Py.len]; eexists; (split; [reflexivity|]).
  - apply take_length.
  - apply firstn_le_length.
Qed.

Lemma get_cut_capped (props : json) (k : string) (default w : json) (n : nat) :
  update_data.get_cut props k default n = Ok w ->
  exists m, Py.len w = Ok m /\ m <= n.
Proof.
  unfold update_data.get_cut. intros H.
  destruct (Py.get props k default) as [v|e]; cbn [bind] in H; [|discriminate H].
  eapply slice_to_capped. exact H.
Qed.

(** Finds, among the slices taken, the one an entry of the record holds. *)
Ltac capped_entry :=
  match goal with
  | E : update_data.get_cut _ _ _ ?n = Ok ?v |- capped _ ?n _ =>
      let m := fresh "m" in
      let Hm := fresh "Hm" in
      let Hle := fresh "Hle" in
      destruct (get_cut_capped _ _ _ _ _ E) as [m [Hm Hle]];
      exists v, m; split; [reflexivity | split; [exact Hm | exact Hle]]
  | E : Py.slice_to _ ?n = Ok ?v |- capped _ ?n _ =>
      let m := fresh "m" in
      let Hm := fresh "Hm" in
      let Hle := fresh "Hle" in
      destruct (slice_to_capped _ _ _ E) as [m [Hm Hle]];
      exists v, m; split; [reflexivity | split; [exact Hm | exact Hle]]
  end.

(** A record added to records that satisfy [P]. *)
Ltac record_added Hall :=
  apply Forall_app; split; [exact Hall|]; constructor; [|constructor];
  repeat split; capped_entry.

Lemma ioos_item_capped (item : json) (sensors built : list json) :
  Forall (fun r => capped "title" 80 r /\ capped "vars" 10 r /\ capped "src" 200 r)
    sensors ->
  update_data.ioos_item item sensors = Ok built ->
  Forall (fun r => capped "title" 80 r /\ capped "vars" 10 r /\ capped "src" 200 r)
    built.
Proof.
  intros Hall H. unfold update_data.ioos_item in H. bind_inv_eq H;
    injection H as <-; try exact Hall; record_added Hall.
Qed.

Lemma met_item_capped (net : network) (item : json)
    (st st' : update_data.met_state) :
  Forall (fun r => capped "title" 80 r /\ capped "vars" 8 r) (update_data.buoys st) ->
  update_data.met_item net item st = Ok st' ->
  Forall (fun r => capped "title" 80 r /\ capped "vars" 8 r) (update_data.buoys st').
Proof.
  intros Hall H. unfold update_data.met_item in H. bind_inv_eq H;
    injection H as <-; cbn [update_data.buoys]; try exact Hall; record_added Hall.
Qed.

Lemma coops_item_capped (item : json) (stations built : list json) :
  Forall (fun r => capped "title" 80 r /\ capped "vars" 6 r /\ capped "src" 200 r)
    stations ->
  update_data.coops_item item stations = Ok built ->
  Forall (fun r => capped "title" 80 r /\ capped "vars" 6 r /\ capped "src" 200 r)
    built.
Proof.
  intros Hall H. unfold update_data.coops_item in H. bind_inv_eq H;
    injection H as <-; try exact Hall; record_added Hall.
Qed.

Lemma incident_item_capped (item : json) (incidents built : list json) :
  Forall (fun r => capped "title" 120 r /\ capped "desc" 300 r) incidents ->
  update_data.incident_item item incidents = Ok built ->
  Forall (fun r => capped "title" 120 r /\ capped "desc" 300 r) built.
Proof.
  intros Hall H. unfold update_data.incident_item in H. bind_inv_eq H;
    injection H as <-; try exact Hall; record_added Hall.
Qed.

Lemma pmel_item_capped (item : json) (probes built : list json) :
  Forall (fun r => capped "title" 80 r /\ capped "vars" 6 r /\ capped "src" 200 r)
    probes ->
  update_data.pmel_item item probes = Ok built ->
  Forall (fun r => capped "title" 80 r /\ capped "vars" 6 r /\ capped "src" 200 r)
    built.
Proof.
  intros Hall H. unfold update_data.pmel_item in H. bind_inv_eq H;
    injection H as <-; try exact Hall; record_added Hall.
Qed.

Lemma glider_item_capped (net : network) (urlparse : json -> option string)
    (item : json) (gliders built : list json) :
  Forall (fun r => capped "title" 80 r /\ capped "vars" 6 r /\ capped "src" 200 r)
    gliders ->
  update_data.glider_item net urlparse item gliders = Ok built ->
  Forall (fun r => capped "title" 80 r /\ capped "vars" 6 r /\ capped "src" 200 r)
    built.
Proof.
  intros Hall H. unfold update_data.glider_item in H. cbv zeta in H.
  bind_inv_eq H; injection H as <-; try exact Hall; record_added Hall.
Qed.

Lemma drifter_item_capped (net : network) (item : json)
    (drifters built : list json) :
  Forall (fun r => capped "title" 80 r /\ capped "src" 200 r) drifters ->
  update_data.drifter_item net item drifters = Ok built ->
  Forall (fun r => capped "title" 80 r /\ capped "src" 200 r) built.
Proof.
  intros Hall H. unfold update_data.drifter_item in H.
  bind_inv_eq H; injection H as <-; try exact Hall; record_added Hall.
Qed.

(** The live reading of a tide station changes no entry of its record but
    [current]. *)
Lemma coops_live_getitem (net : network) (s : json) (k : string) :
  k <> "current" ->
  Py.getitem (update_data.coops_live net s) k = Py.getitem s k.
Proof.
  intros Hk. unfold update_data.coops_live.
  destruct (Py.getitem s "id") as [id|e]; cbn [bind try_except]; [|reflexivity].
  destruct (update_data.coops_current _) as [[c|]|e]; cbn [bind try_except];
    try reflexivity.
  destruct s; cbn [Py.setitem try_except]; try reflexivity.
  cbn [Py.getitem]. now rewrite dict_get_set_other.
Qed.

Lemma coops_live_capped (net : network) (key : string) (n : nat) (s : json) :
  key <> "current" -> capped key n s -> capped key n (update_data.coops_live net s).
Proof.
  intros Hk [v [m [H1 H2]]]. exists v, m.
  now rewrite coops_live_getitem.
Qed.

(** X20: the text and the variable lists of the records are cut: a [title]
    has at most 80 characters (120 for an incident), a [src] at most 200, a
    [desc] at most 300, and [vars] has at most 10 entries for a sensor, 8 for
    a buoy and 6 for a tide station, a PMEL probe and a glider. *)
Theorem records_are_cut (net : network) (urlparse : json -> option string)
    (now : string) (items : list json) :
  returns_records (update_data.update_ioos_sensors now items) now "sensors"
    (fun r => capped "title" 80 r /\ capped "vars" 10 r /\ capped "src" 200 r)
  /\ returns_records (update_data.update_ndbc_met net now items) now "buoys"
       (fun r => capped "title" 80 r /\ capped "vars" 8 r)
  /\ returns_records (update_data.update_coops net now items) now "stations"
       (fun r => capped "title" 80 r /\ capped "vars" 6 r /\ capped "src" 200 r)
  /\ returns_records (update_data.update_incidents now items) now "incidents"
       (fun r => capped "title" 120 r /\ capped "desc" 300 r)
  /\ returns_records (update_data.update_pmel now items) now "probes"
       (fun r => capped "title" 80 r /\ capped "vars" 6 r /\ capped "src" 200 r)
  /\ returns_records (update_data.update_gliders net urlparse now items) now "gliders"
       (fun r => capped "title" 80 r /\ capped "vars" 6 r /\ capped "src" 200 r)
  /\ returns_records (update_data.update_drifters net now items) now "drifters"
       (fun r => capped "title" 80 r /\ capped "src" 200 r).
Proof.
  unfold returns_records, update_data.update_ioos_sensors,
    update_data.update_ndbc_met, update_data.met_loop, update_data.update_coops,
    update_data.coops_stations, update_data.update_incidents,
    update_data.update_pmel, update_data.update_gliders,
    update_data.update_drifters.
  repeat split; intros doc H.
  - destruct (for_each update_data.ioos_item items []) as [l|e] eqn:E;
      cbn [bind] in H; [|discriminate H].
    exists l. split; [congruence|].
    eapply (for_each_inv _ _ ioos_item_capped); [apply Forall_nil | exact E].
  - destruct (for_each (update_data.met_item net) items _) as [st|e] eqn:E;
      cbn [bind] in H; [|discriminate H].
    exists (update_data.buoys st). split; [congruence|].
    apply (for_each_inv
             (fun st => Forall (fun r => capped "title" 80 r /\ capped "vars" 8 r)
                          (update_data.buoys st))
             _ (met_item_capped net) items (update_data.mk_met_state [] 0 []) st
             (Forall_nil _) E).
  - destruct (for_each update_data.coops_item items []) as [l|e] eqn:E;
      cbn [bind] in H; [|discriminate H].
    exists (map (update_data.coops_live net) (firstn 100 l) ++ skipn 100 l).
    split; [congruence|].
    pose proof (for_each_inv _ _ coops_item_capped items [] l (Forall_nil _) E)
      as Hall.
    rewrite <- (firstn_skipn 100 l) in Hall. apply Forall_app in Hall as [H1 H2].
    apply Forall_app. split; [|exact H2].
    apply Forall_map. eapply Forall_impl; [|exact H1].
    intros r [Ht [Hv Hs]].
    repeat split; apply coops_live_capped; try assumption; discriminate.
  - destruct (for_each update_data.incident_item items []) as [l|e] eqn:E;
      cbn [bind] in H; [|discriminate H].
    destruct (update_data.sort_by_date_desc l) as [l'|e] eqn:Es;
      cbn [bind] in H; [|discriminate H].
    exists l'. split; [congruence|].
    eapply Permutation_Forall; [apply sort_by_date_desc_perm; exact Es|].
    eapply (for_each_inv _ _ incident_item_capped); [apply Forall_nil | exact E].
  - destruct (for_each update_data.pmel_item items []) as [l|e] eqn:E;
      cbn [bind] in H; [|discriminate H].
    exists l. split; [congruence|].
    eapply (for_each_inv _ _ pmel_item_capped); [apply Forall_nil | exact E].
  - destruct (for_each (update_data.glider_item net urlparse) items [])
      as [l|e] eqn:E; cbn [bind] in H; [|discriminate H].
    exists l. split; [congruence|].
    eapply (for_each_inv _ _ (glider_item_capped net urlparse));
      [apply Forall_nil | exact E].
  - destruct (for_each (update_data.drifter_item net) items []) as [l|e] eqn:E;
      cbn [bind] in H; [|discriminate H].
    exists l. split; [congruence|].
    eapply (for_each_inv _ _ (drifter_item_capped net));
      [apply Forall_nil | exact E].
Qed.

Lemma records_are_cut_witness :
  exists records,
    update_data.update_ndbc_met Inputs.net_first_fails "2024-01-15T12:05:00Z"
      [Inputs.buoy_42001 "NDBC_42001"]
    = Ok (update_data.document "2024-01-15T12:05:00Z" "buoys" records)
    /\ List.length records = 1
    /\ Forall (fun r => capped "title" 80 r /\ capped "vars" 8 r) records.
Proof.
  destruct (update_data.update_ndbc_met Inputs.net_first_fails "2024-01-15T12:05:00Z"
              [Inputs.buoy_42001 "NDBC_42001"]) as [doc|e] eqn:E;
    [|vm_compute in E; discriminate E].
  destruct (proj1 (proj2 (records_are_cut Inputs.net_first_fails (fun _ => None)
                            "2024-01-15T12:05:00Z" [Inputs.buoy_42001 "NDBC_42001"]))
              doc E) as [records [Hdoc Hall]].
  exists records. subst doc. split; [reflexivity|]. split; [|exact Hall].
  vm_compute in E. injection E as E. now subst records.
Defined.

(** X21: the live reading of a tide station, whether it is obtained or
    not, changes no entry of the record but [current]; when the record
    changes, [current] holds a water level that is a float, and the time. *)
Theorem tide_reading_keeps_the_record (net : network) (s : json) :
  (forall k, k <> "current" ->
     Py.getitem (update_data.coops_live net s) k = Py.getitem s k)
  /\ (update_data.coops_live net s = s
      \/ exists wl t,
           Py.getitem (update_data.coops_live net s) "current"
           = Ok (JDict [("wl", JFloat wl); ("time", t)])).
Proof.
  split; [intros k Hk; now apply coops_live_getitem|].
  unfold update_data.coops_live.
  destruct (Py.getitem s "id") as [id|e]; cbn [bind try_except]; [|now left].
  destruct (update_data.coops_current _) as [[c|]|e] eqn:E;
    cbn [bind try_except]; try (now left).
  destruct s; cbn [Py.setitem try_except]; try (now left).
  right. unfold update_data.coops_current in E.
  destruct (fetch_json net _) as [data|]; [|discriminate E].
  bind_inv_eq E; try discriminate E. injection E as <-.
  eexists. eexists. cbn [Py.getitem]. now rewrite dict_get_set_same.
Qed.

(* ================================================================== *)
(** ** The cap of the tide readings *)

Lemma count_live_app (l1 l2 : list json) :
  count_live (l1 ++ l2) = count_live l1 + count_live l2.
Proof. unfold count_live. now rewrite filter_app, length_app. Qed.

Lemma count_live_le (l : list json) : count_live l <= List.length l.
Proof. apply filter_length_le. Qed.

Lemma no_current_not_live (s : json) : no_current s -> has_current s = false.
Proof. intros [d [-> H]]. exact H. Qed.

Lemma count_live_none (l : list json) : Forall no_current l -> count_live l = 0.
Proof.
  induction 1 as [|s l Hs _ IH]; [reflexivity|].
  unfold count_live in *. cbn [filter].
  now rewrite (no_current_not_live s Hs).
Qed.

Lemma for_each_length {A B : Type} (body : A -> list B -> result (list B)) :
  (forall x st st', body x st = Ok st' -> List.length st' <= S (List.length st)) ->
  forall l st st',
    for_each body l st = Ok st' -> List.length st' <= List.length st + List.length l.
Proof.
  intros Hbody. induction l as [|x l IH]; intros st st' H.
  - injection H as <-. simpl. lia.
  - cbn [for_each] in H. destruct (body x st) as [st1|e] eqn:E;
      cbn [bind] in H; [|discriminate H].
    specialize (Hbody _ _ _ E). specialize (IH _ _ H). simpl. lia.
Qed.

Lemma coops_item_length (item : json) (stations built : list json) :
  update_data.coops_item item stations = Ok built ->
  List.length built <= S (List.length stations).
Proof.
  intros H. unfold update_data.coops_item in H. bind_inv H; injection H as <-;
    rewrite ?length_app; simpl; lia.
Qed.

(** X22: when [update_coops] returns its document, at most 100 of the
    records carry a live reading, no record after the first hundred carries
    one, and there are no more records than features. *)
Theorem tide_live_readings_bounded (net : network) (now : string)
    (items : list json) (doc : json) :
  update_data.update_coops net now items = Ok doc ->
  exists stations,
    doc = update_data.document now "stations" stations
    /\ count_live stations <= 100
    /\ List.length stations <= List.length items
    /\ Forall no_current (skipn 100 stations).
Proof.
  unfold update_data.update_coops, update_data.coops_stations. intros H.
  destruct (for_each update_data.coops_item items []) as [built|e] eqn:E;
    cbn [bind] in H; [|discriminate H].
  exists (map (update_data.coops_live net) (firstn 100 built) ++ skipn 100 built).
  split; [congruence|]. clear H.
  pose proof (coops_loop_no_current items [] built (Forall_nil _) E) as Hall.
  pose proof (for_each_length _ coops_item_length items [] built E) as Hlen.
  cbn [List.length] in Hlen.
  assert (Hskip : Forall no_current (skipn 100 built)).
  { rewrite <- (firstn_skipn 100 built) in Hall. now apply Forall_app in Hall. }
  split; [|split].
  - rewrite count_live_app, (count_live_none _ Hskip).
    pose proof (count_live_le (map (update_data.coops_live net) (firstn 100 built))).
    rewrite length_map, length_firstn in *. lia.
  - rewrite length_app, length_map, length_firstn, length_skipn. lia.
  - rewrite skipn_app.
    rewrite (skipn_all2 (map (update_data.coops_live net) (firstn 100 built)))
      by (rewrite length_map, length_firstn; lia).
    cbn [app].
    rewrite <- (firstn_skipn
                  (100 - List.length (map (update_data.coops_live net)
                                          (firstn 100 built)))
                  (skipn 100 built)) in Hskip.
    now apply Forall_app in Hskip.
Qed.

Lemma tide_live_readings_bounded_witness :
  exists doc stations,
    update_data.update_coops Inputs.net_coops_without_v "2024-01-15T12:05:00Z"
      [Inputs.tide_station] = Ok doc
    /\ doc = update_data.document "2024-01-15T12:05:00Z" "stations" stations
    /\ count_live stations <= 100
    /\ List.length stations <= List.length [Inputs.tide_station]
    /\ Forall no_current (skipn 100 stations).
Proof.
  destruct (update_data.update_coops Inputs.net_coops_without_v "2024-01-15T12:05:00Z"
              [Inputs.tide_station]) as [doc|e] eqn:E;
    [|vm_compute in E; discriminate E].
  exists doc.
  destruct (tide_live_readings_bounded _ _ _ _ E) as [stations H].
  exists stations. split; [reflexivity | exact H].
Defined.

(* ================================================================== *)
(** ** The length of the tracks *)

Lemma range0_length (stop step : nat) :
  List.length (update_data.range0 stop step) = (stop + step - 1) / step.
Proof. unfold update_data.range0. now rewrite length_map, length_seq. Qed.

(** A step of [n // 200], 1 at least, leaves fewer than 400 indices. *)
Lemma subsample_bound (n : nat) :
  (n + Nat.max 1 (n / 200) - 1) / Nat.max 1 (n / 200) <= 399.
Proof.
  pose proof (Nat.div_mod_eq n 200) as Hn.
  pose proof (Nat.mod_upper_bound n 200 ltac:(lia)) as Hm.
  assert (Hs : 1 <= Nat.max 1 (n / 200)) by lia.
  apply Nat.lt_succ_r. apply Nat.Div0.div_lt_upper_bound. nia.
Qed.

Lemma glider_step_length (rows : json) (i : nat) (track track' : list json) :
  update_data.glider_step rows i track = Ok track' ->
  List.length track' <= S (List.length track).
Proof.
  intros H. unfold update_data.glider_step in H. bind_inv_eq H; injection H as <-;
    rewrite ?length_app; simpl; lia.
Qed.

Lemma append_last_length (track : list json) (p : json) :
  List.length (update_data.append_last track p) <= S (List.length track).
Proof.
  unfold update_data.append_last. destruct track as [|x track]; [simpl; lia|].
  destruct (negb _); rewrite ?length_app; simpl; lia.
Qed.

Lemma glider_track_length (data : json) (track : list json) :
  update_data.glider_track data = Ok track -> List.length track <= 400.
Proof.
  intros H. unfold update_data.glider_track in H. cbv zeta in H.
  destruct (Py.get data "table" (JDict [])) as [table|e]; cbn [bind] in H;
    [|discriminate H].
  destruct (Py.get table "rows" (JList [])) as [rows|e]; cbn [bind] in H;
    [|discriminate H].
  destruct (negb (truthy rows)); [injection H as <-; simpl; lia|].
  destruct (Py.len rows) as [n|e]; cbn [bind] in H; [|discriminate H].
  destruct (for_each _ _ _) as [tr|e] eqn:E; cbn [bind] in H; [|discriminate H].
  pose proof (for_each_length _ (glider_step_length rows) _ _ _ E) as Hlen.
  rewrite range0_length in Hlen. cbn [List.length] in Hlen.
  pose proof (subsample_bound n) as Hb.
  destruct (Py.last rows) as [last_row|e]; cbn [bind] in H; [|discriminate H].
  destruct (update_data.glider_point last_row) as [[p|]|e]; cbn [bind] in H;
    [| |discriminate H]; injection H as <-.
  - pose proof (append_last_length tr p). lia.
  - lia.
Qed.

Lemma fetch_glider_track_length (net : network) (dataset_id : json)
    (erddap_base : string) :
  List.length (update_data.fetch_glider_track net dataset_id erddap_base) <= 400.
Proof.
  unfold update_data.fetch_glider_track.
  destruct (fetch_json net _) as [data|]; [|simpl; lia].
  destruct (update_data.glider_track data) as [track|e] eqn:E;
    cbn [try_except]; [|simpl; lia].
  now apply glider_track_length in E.
Qed.

Lemma lastn_length {A : Type} (n : nat) (l : list A) :
  List.length (Py.lastn n l) <= n.
Proof. unfold Py.lastn. rewrite length_skipn. lia. Qed.

Lemma last_100_points_length (coords : json) (track : list json) :
  update_data.last_100_points coords = Ok track -> List.length track <= 100.
Proof.
  intros H. unfold update_data.last_100_points in H.
  destruct (Py.slice_last coords 100) as [tail|e] eqn:Et; cbn [bind] in H;
    [|discriminate H].
  destruct (Py.iter tail) as [l|e] eqn:El; cbn [bind] in H; [|discriminate H].
  assert (Hl : List.length l <= 100).
  { destruct coords; try discriminate Et; cbn [Py.slice_last] in Et;
      injection Et as <-; cbn [Py.iter] in El; injection El as <-.
    - rewrite length_map, list_ascii_of_string_of_list_ascii. apply lastn_length.
    - apply lastn_length. }
  assert (Hstep : forall (c : json) (st st' : list json),
             (p <- update_data.lon_lat_point c ;; Ok (st ++ [p])) = Ok st' ->
             List.length st' <= S (List.length st)).
  { intros c st st' Hc. destruct (update_data.lon_lat_point c); cbn [bind] in Hc;
      [|discriminate Hc]. injection Hc as <-. rewrite length_app. simpl. lia. }
  pose proof (for_each_length _ Hstep _ _ _ H) as Hlen. simpl in Hlen. lia.
Qed.

Lemma glider_fallback_length (item geom : json) (track : list json) :
  update_data.glider_fallback item geom = Ok (Some track) ->
  List.length track <= 100.
Proof.
  intros H. unfold update_data.glider_fallback in H. bind_inv_eq H;
    try discriminate H; injection H as <-;
    try (eapply last_100_points_length; eassumption); simpl; lia.
Qed.

Lemma glider_item_track (net : network) (urlparse : json -> option string)
    (item : json) (gliders built : list json) :
  Forall (capped "track" 400) gliders ->
  update_data.glider_item net urlparse item gliders = Ok built ->
  Forall (capped "track" 400) built.
Proof.
  intros Hall H. unfold update_data.glider_item in H. cbv zeta in H.
  bind_inv_eq H; injection H as <-; try exact Hall;
    (apply Forall_app; split; [exact Hall|]; constructor; [|constructor]);
    (eexists; eexists; split; [reflexivity|]; split; [reflexivity|]);
    match goal with
    | E : (if ?b then _ else _) = Ok (Some _) |- _ =>
        destruct b; [injection E as <-; apply fetch_glider_track_length|];
        apply glider_fallback_length in E; lia
    end.
Qed.

Lemma drifter_item_track (net : network) (item : json)
    (drifters built : list json) :
  Forall (capped "track" 200) drifters ->
  update_data.drifter_item net item drifters = Ok built ->
  Forall (capped "track" 200) built.
Proof.
  intros Hall H. unfold update_data.drifter_item in H.
  bind_inv_eq H; injection H as <-; try exact Hall;
    (apply Forall_app; split; [exact Hall|]; constructor; [|constructor]);
    (eexists; eexists; split; [reflexivity|]; split; [reflexivity|]).
  - apply lastn_length.
  - simpl. lia.
Qed.

(** X23: a glider record never has more than 400 points in its [track],
    whatever the length of the trajectory and whichever way the track is
    obtained, and a drifter record never more than 200. *)
Theorem tracks_are_bounded (net : network) (urlparse : json -> option string)
    (now : string) (items : list json) :
  returns_records (update_data.update_gliders net urlparse now items) now "gliders"
    (capped "track" 400)
  /\ returns_records (update_data.update_drifters net now items) now "drifters"
       (capped "track" 200).
Proof.
  unfold returns_records, update_data.update_gliders, update_data.update_drifters.
  split; intros doc H.
  - destruct (for_each (update_data.glider_item net urlparse) items [])
      as [l|e] eqn:E; cbn [bind] in H; [|discriminate H].
    exists l. split; [congruence|].
    eapply (for_each_inv _ _ (glider_item_track net urlparse));
      [apply Forall_nil | exact E].
  - destruct (for_each (update_data.drifter_item net) items []) as [l|e] eqn:E;
      cbn [bind] in H; [|discriminate H].
    exists l. split; [congruence|].
    eapply (for_each_inv _ _ (drifter_item_track net));
      [apply Forall_nil | exact E].
Qed.


Lemma tracks_are_bounded_witness :
  exists records,
    update_data.update_drifters Inputs.net_first_fails "2024-01-15T12:05:00Z"
      [Inputs.tide_station]
    = Ok (update_data.document "2024-01-15T12:05:00Z" "drifters" records)
    /\ List.length records = 1
    /\ Forall (capped "track" 200) records.
Proof.
  destruct (update_data.update_drifters Inputs.net_first_fails "2024-01-15T12:05:00Z"
              [Inputs.tide_station]) as [doc|e] eqn:E;
    [|vm_compute in E; discriminate E].
  destruct (proj2 (tracks_are_bounded Inputs.net_first_fails (fun _ => None)
                     "2024-01-15T12:05:00Z" [Inputs.tide_station])
              doc E) as [records [Hdoc Hall]].
  exists records. subst doc. split; [reflexivity|]. split; [|exact Hall].
  vm_compute in E. injection E as E. now subst records.
Defined.

Lemma range0_first (n step : nat) :
  1 <= step ->
  exists rest, update_data.range0 (S n) step = 0 :: rest.
Proof.
  intros Hs. unfold update_data.range0.
  assert (H : 1 <= (S n + step - 1) / step).
  { apply Nat.div_le_lower_bound; lia. }
  destruct ((S n + step - 1) / step) as [|k]; [lia|].
  cbn [seq map]. eexists. reflexivity.
Qed.

(** X24: a first row of the trajectory that cannot be read, because it
    has not three elements or holds a coordinate that is not a number, costs
    the whole track: the exception is caught and [fetch_glider_track]
    returns the empty list. *)
Theorem unreadable_first_row_empties_the_track (net : network)
    (dataset_id : json) (erddap_base : string) (row : json) (rows : list json) :
  rows_are (fetch_json net (GLIDER_URL erddap_base dataset_id)) (row :: rows) ->
  (exists e, update_data.glider_point row = Raise e) ->
  update_data.fetch_glider_track net dataset_id erddap_base = [].
Proof.
  intros [d [t [Hdata [Ht Hrows]]]] [e He].
  unfold update_data.fetch_glider_track. rewrite Hdata.
  unfold update_data.glider_track. cbn [Py.get bind].
  unfold Dict.get_default. rewrite Ht. cbn [Py.get bind].
  unfold Dict.get_default. rewrite Hrows.
  cbn [truthy negb Py.len bind List.length].
  destruct (range0_first (List.length rows) (Nat.max 1 (S (List.length rows) / 200)))
    as [rest ->]; [lia|].
  cbn [for_each]. unfold update_data.glider_step at 1.
  cbn [Py.index nth_error bind]. rewrite He. reflexivity.
Qed.

Lemma unreadable_first_row_empties_the_track_witness :
  let answer :=
    JDict [("table",
            JDict [("rows",
                    JList [JList [JStr "2024-01-15T00:00:00Z";
                                  JFloat (Inputs.lit "27.25")];
                           JList [JStr "2024-01-15T01:00:00Z";
                                  JFloat (Inputs.lit "27.25");
                                  JFloat (Inputs.lit "-90.5")]])])] in
  let net := mk_network (fun _ => None) (fun _ => Some answer) in
  update_data.fetch_glider_track net (JStr "ng645") Inputs.glider_base = [].
Proof.
  cbv zeta.
  apply (unreadable_first_row_empties_the_track _ (JStr "ng645") Inputs.glider_base
           (JList [JStr "2024-01-15T00:00:00Z"; JFloat (Inputs.lit "27.25")])
           [JList [JStr "2024-01-15T01:00:00Z"; JFloat (Inputs.lit "27.25");
                   JFloat (Inputs.lit "-90.5")]]).
  - eexists. eexists. repeat split; reflexivity.
  - exists ValueError. reflexivity.
Defined.

(* ================================================================== *)
(** ** The run of [update_data.py] *)

Lemma items_of_no_features (data : option json) :
  no_features data -> update_data_main.items_of data = Ok [].
Proof.
  intros [->|[d [-> H]]]; [reflexivity|].
  unfold update_data_main.items_of, update_data_main.fetch_aquaview_items.
  destruct (negb (truthy (JDict d))); [reflexivity|].
  cbn [Py.contains bind]. now rewrite H.
Qed.

Lemma items_of_features (data : option json) (items : list json) (item : json) :
  features_are data items -> In item items ->
  update_data_main.items_of data = Ok items.
Proof.
  intros [d [-> H]] Hin.
  unfold update_data_main.items_of, update_data_main.fetch_aquaview_items.
  destruct d as [|kv d]; [discriminate H|]. cbn [truthy negb].
  cbn [Py.contains bind Py.getitem]. unfold Dict.mem. rewrite H. reflexivity.
Qed.

(** X25: a discovery query that fails, or whose answer has no [features],
    does not leave the file of its category as it was: the run writes the
    document with a count of 0 and no records over it. *)
Theorem failed_discovery_empties_the_file (env : environment) (fs : files) :
  (no_features (discovery env "IOOS_SENSORS") ->
     ioos_sensors_json (update_data_main.main env fs)
     = Some (update_data.document (clock env "ioos_sensors.json") "sensors" []))
  /\ (no_features (discovery env "NDBC") ->
        ndbc_met_json (update_data_main.main env fs)
        = Some (update_data.document (clock env "ndbc_met.json") "buoys" []))
  /\ (no_features (discovery env "COOPS") ->
        coops_json (update_data_main.main env fs)
        = Some (update_data.document (clock env "coops.json") "stations" []))
  /\ (no_features (discovery env "IOOS") ->
        gliders_json (update_data_main.main env fs)
        = Some (update_data.document (clock env "gliders.json") "gliders" []))
  /\ (no_features (discovery env "NOAA_GDP") ->
        drifters_json (update_data_main.main env fs)
        = Some (update_data.document (clock env "drifters.json") "drifters" []))
  /\ (no_features (discovery env "INCIDENT_NEWS") ->
        incidents_json (update_data_main.main env fs)
        = Some (update_data.document (clock env "incidents.json") "incidents" []))
  /\ (no_features (discovery env "PMEL") ->
        pmel_json (update_data_main.main env fs)
        = Some (update_data.document (clock env "pmel.json") "probes" [])).
Proof.
  unfold update_data_main.main.
  cbn [ioos_sensors_json ndbc_met_json coops_json gliders_json drifters_json
       incidents_json pmel_json].
  unfold update_data_main.ioos_sensors, update_data_main.ndbc_met,
    update_data_main.coops, update_data_main.gliders, update_data_main.drifters,
    update_data_main.incidents, update_data_main.pmel.
  repeat split; intros H; rewrite (items_of_no_features _ H); reflexivity.
Qed.

Lemma failed_discovery_empties_the_file_witness :
  ndbc_met_json (update_data_main.main silent no_files)
  = Some (update_data.document "2024-01-15T12:05:00Z" "buoys" []).
Proof.
  apply (proj1 (proj2 (failed_discovery_empties_the_file silent no_files))).
  left. reflexivity.
Defined.

(** X26: a feature whose geometry is [null], or is a point without
    coordinates, costs its category the whole update: the extractor raises,
    [main] catches the exception, and the file is left as the previous run
    wrote it. *)
Theorem unusable_geometry_leaves_the_file (env : environment) (fs : files)
    (category : string) (items : list json) (item : json) :
  features_are (discovery env category) items ->
  In item items ->
  null_geometry item \/ point_without_coordinates item ->
  (category = "IOOS_SENSORS" ->
     ioos_sensors_json (update_data_main.main env fs) = ioos_sensors_json fs)
  /\ (category = "NDBC" ->
        ndbc_met_json (update_data_main.main env fs) = ndbc_met_json fs)
  /\ (category = "COOPS" ->
        coops_json (update_data_main.main env fs) = coops_json fs)
  /\ (category = "INCIDENT_NEWS" ->
        incidents_json (update_data_main.main env fs) = incidents_json fs)
  /\ (category = "PMEL" ->
        pmel_json (update_data_main.main env fs) = pmel_json fs).
Proof.
  intros Hfeat Hin Hgeom.
  assert (Hraise :
            (forall st, exists e, update_data.ioos_item item st = Raise e)
            /\ (forall st, exists e, update_data.met_item (net env) item st = Raise e)
            /\ (forall st, exists e, update_data.coops_item item st = Raise e)
            /\ (forall st, exists e, update_data.incident_item item st = Raise e)
            /\ (forall st, exists e, update_data.pmel_item item st = Raise e)).
  { destruct Hgeom as [Hnull|Hpoint].
    - destruct (null_geometry_raises (net env) item Hnull)
        as [H1 [H2 [H3 [H4 H5]]]].
      repeat split; intros st; eexists; auto.
    - now apply point_without_coordinates_raises. }
  destruct Hraise as [H1 [H2 [H3 [H4 H5]]]].
  pose proof (items_of_features _ _ _ Hfeat Hin) as Hitems.
  unfold update_data_main.main.
  cbn [ioos_sensors_json ndbc_met_json coops_json incidents_json pmel_json].
  unfold update_data_main.ioos_sensors, update_data_main.ndbc_met,
    update_data_main.coops, update_data_main.incidents, update_data_main.pmel.
  unfold update_data.update_ioos_sensors, update_data.update_ndbc_met,
    update_data.update_coops, update_data.coops_stations,
    update_data.update_incidents, update_data.update_pmel, update_data.met_loop.
  repeat split; intros ->; rewrite Hitems; cbn [bind].
  - destruct (for_each_raises update_data.ioos_item item items Hin H1 [])
      as [e ->]. reflexivity.
  - destruct (for_each_raises (update_data.met_item (net env)) item items Hin H2
                (update_data.mk_met_state [] 0 [])) as [e ->]. reflexivity.
  - destruct (for_each_raises update_data.coops_item item items Hin H3 [])
      as [e ->]. reflexivity.
  - destruct (for_each_raises update_data.incident_item item items Hin H4 [])
      as [e ->]. reflexivity.
  - destruct (for_each_raises update_data.pmel_item item items Hin H5 [])
      as [e ->]. reflexivity.
Qed.

Lemma unusable_geometry_leaves_the_file_witness :
  let item := JDict [("id", JStr "NDBC_42001"); ("geometry", JNull)] in
  let env :=
    mk_environment Inputs.net_first_fails
      (fun _ => Some (JDict [("features",
                              JList [Inputs.buoy_42001 "NDBC_42002"; item])]))
      None (fun _ => "2024-01-15T12:05:00Z") (fun _ => None) in
  let previous := update_data.document "2024-01-14T12:05:00Z" "buoys" [] in
  let fs := mk_files None None None (Some previous) None None None None None in
  ndbc_met_json (update_data_main.main env fs) = Some previous.
Proof.
  cbv zeta.
  refine (proj1 (proj2 (unusable_geometry_leaves_the_file _ _ "NDBC"
                          [Inputs.buoy_42001 "NDBC_42002";
                           JDict [("id", JStr "NDBC_42001"); ("geometry", JNull)]]
                          (JDict [("id", JStr "NDBC_42001"); ("geometry", JNull)])
                          _ _ _)) eq_refl).
  - eexists. split; reflexivity.
  - right. left. reflexivity.
  - left. eexists. split; reflexivity.
Defined.


(* ================================================================== *)
(** ** Drifter rows that cannot be read *)

Lemma drifter_step_raises (r : json) (e : pyexc) (st0 : list json) :
  update_data.drifter_step r st0 = Raise e ->
  forall st, update_data.drifter_step r st = Raise e.
Proof.
  unfold update_data.drifter_step. intros H st.
  destruct (update_data.drifter_row_ok r) as [[|]|e0]; cbn [bind] in *;
    [|discriminate H|exact H].
  destruct (Py.index r 1) as [lon|e1]; cbn [bind] in *; [|exact H].
  destruct (Py.round lon 4) as [rlon|e2]; cbn [bind] in *; [|exact H].
  destruct (Py.index r 0) as [lat|e3]; cbn [bind] in *; [|exact H].
  destruct (Py.round lat 4) as [rlat|e4]; cbn [bind] in *; [discriminate H|exact H].
Qed.

Lemma drifter_item_raises (net : network) (item r : json) (rows : list json) :
  drifter_rows_are net item rows ->
  In r rows ->
  (exists e, update_data.drifter_step r [] = Raise e) ->
  forall st, exists e, update_data.drifter_item net item st = Raise e.
Proof.
  intros [d [p [url [-> [Hp [Hsrc [Herddap [Hslash [Hid Hrows]]]]]]]]] Hin [e He] st.
  destruct Hrows as [data [t [Hdata [Ht Hr]]]].
  assert (Hpoints : exists e', update_data.drifter_points (JList rows) = Raise e').
  { unfold update_data.drifter_points. cbn [Py.iter bind].
    apply (for_each_raises update_data.drifter_step r rows Hin).
    intros st1. exists e. now apply (drifter_step_raises r e []). }
  destruct Hpoints as [e' Hpoints].
  assert (Hurl : truthy (JStr url) = true).
  { destruct url; [discriminate Herddap | reflexivity]. }
  assert (Hlive : update_data.drifter_live net (JStr url) = Raise e').
  { unfold update_data.drifter_live. rewrite Hurl. cbn [negb Py.contains bind].
    rewrite Herddap. cbn [negb]. rewrite Hslash.
    destruct (String.eqb (List.last (PyStr.split "/" (PyStr.rstrip_chr "/" url)) "") "")
      eqn:Eid; [apply String.eqb_eq in Eid; contradiction|].
    rewrite Hdata.
    destruct data as [|kv data]; [discriminate Ht|]. cbn [truthy negb].
    cbn [Py.contains bind Py.getitem]. unfold Dict.mem. rewrite Ht.
    cbn [negb bind Py.get]. unfold Dict.get_default. rewrite Hr.
    destruct rows as [|r0 rows]; [destruct Hin|]. cbn [truthy negb].
    rewrite Hpoints. reflexivity. }
  exists e'. unfold update_data.drifter_item. cbn [Py.get bind].
  unfold Dict.get_default. rewrite Hp. cbn [Py.get bind].
  unfold Dict.get_default. rewrite Hsrc. cbn [bind]. rewrite Hlive. reflexivity.
Qed.

(** X27: a row of a drifter answer that cannot be read is not caught as a
    row of a glider trajectory is: it stops [update_drifters], whatever the
    other drifters are, and no document is returned. *)
Theorem unreadable_drifter_row_aborts (net : network) (now : string)
    (items : list json) (item r : json) (rows : list json) :
  In item items ->
  drifter_rows_are net item rows ->
  In r rows ->
  (exists e, update_data.drifter_step r [] = Raise e) ->
  exists e, update_data.update_drifters net now items = Raise e.
Proof.
  intros Hitem Hrows Hr Hraise. unfold update_data.update_drifters.
  destruct (for_each_raises (update_data.drifter_item net) item items Hitem
              (drifter_item_raises net item r rows Hrows Hr Hraise) [])
    as [e ->].
  now exists e.
Qed.

Lemma unreadable_drifter_row_aborts_witness :
  let item :=
    JDict [("id", JStr "GDP_1");
           ("properties",
            JDict [("aquaview:source_url",
                    JStr "https://erddap.aoml.noaa.gov/gdp/erddap/tabledap/drifter_6hour_qc")])] in
  let good := JList [JFloat (Inputs.lit "27.25"); JFloat (Inputs.lit "-90.5");
                     JStr "2024-01-15T00:00:00Z"] in
  let bad := JList [JStr "27.25"; JFloat (Inputs.lit "-90.5");
                    JStr "2024-01-15T06:00:00Z"] in
  let net :=
    mk_network (fun _ => None)
      (fun _ => Some (JDict [("table", JDict [("rows", JList [good; bad])])])) in
  exists e, update_data.update_drifters net "2024-01-15T12:05:00Z" [item] = Raise e.
Proof.
  cbv zeta.
  apply (unreadable_drifter_row_aborts _ "2024-01-15T12:05:00Z" _
           (JDict [("id", JStr "GDP_1");
                   ("properties",
                    JDict [("aquaview:source_url",
                            JStr "https://erddap.aoml.noaa.gov/gdp/erddap/tabledap/drifter_6hour_qc")])])
           (JList [JStr "27.25"; JFloat (Inputs.lit "-90.5");
                   JStr "2024-01-15T06:00:00Z"])
           [JList [JFloat (Inputs.lit "27.25"); JFloat (Inputs.lit "-90.5");
                   JStr "2024-01-15T00:00:00Z"];
            JList [JStr "27.25"; JFloat (Inputs.lit "-90.5");
                   JStr "2024-01-15T06:00:00Z"]]).
  - left. reflexivity.
  - eexists. eexists. eexists.
    split; [reflexivity|]. split; [reflexivity|]. split; [reflexivity|].
    split; [vm_compute; reflexivity|]. split; [vm_compute; reflexivity|].
    split; [vm_compute; discriminate|].
    eexists. eexists. repeat split; reflexivity.
  - right. left. reflexivity.
  - exists TypeError. vm_compute. reflexivity.
Defined.

Lemma station_id_has_no_underscore_witness :
  exists id pre : string,
    update_data.station_id_of (JStr "42001") = Ok (JStr id)
    /\ "42001" = (pre ++ id)%string
    /\ PyStr.contains "_" id = false
    /\ id = "42001".
Proof.
  destruct (station_id_has_no_underscore "42001") as [id [pre [H1 [H2 [H3 H4]]]]].
  exists id, pre. repeat split; try assumption. apply H4. reflexivity.
Defined.

Lemma tide_reading_keeps_the_record_witness :
  let s := JDict [("id", JStr "8761724"); ("title", JStr "Grand Isle")] in
  Py.getitem (update_data.coops_live Inputs.net_coops_without_v s) "title"
  = Py.getitem s "title".
Proof.
  cbv zeta.
  apply (proj1 (tide_reading_keeps_the_record Inputs.net_coops_without_v
                  (JDict [("id", JStr "8761724"); ("title", JStr "Grand Isle")]))).
  discriminate.
Defined.
